(** * Credit-scoring predictor: a shallow embedding of [api/predictor.py]

    Python's [float] and numpy's [float64] are Rocq's primitive [float],
    so every definition below runs on the values the program runs on.

    Definitions:
    - [F64]: an integer ranking of binary64 values, to reason about their
      comparisons;
    - [PyDict]: Python's insertion-ordered [dict] with string keys;
    - [Py]: the builtins the module calls ([sum], [sorted], slicing, [zip]);
    - [Predictor]: the class [CreditScorePredictor], the module global
      [_predictor], [get_predictor], the start-up hook of [api/main.py]
      and the validator of [api/models.py], written in a small
      state-and-exception monad;
    - [Demo]: a three-feature bundle with stub model and explainer.

    Proofs: facts about comparison, the loop of the vectorizer, the effects
    of each method, the loader, the singleton, the ranking; then the
    properties of the specification, C1 to C10, one theorem each.

    What is taken from outside the repository:
    - the unpickled model and explainer are functions of the vector they
      are called on (they keep no state between calls);
    - numpy stores a float as it is, an [int] as the nearest float, and a
      [str] as what [float(s)] makes of it;
    - [sorted] is a stable sort (on keys without NaN);
    - a log record is kept by its level and the constant part of its
      message. *)

From Stdlib Require Import ZArith List String Bool Lia Floats Sorted.
From Stdlib Require Import Permutation.
Import ListNotations.

Set Implicit Arguments.
Set Warnings "-register-all,-inexact-float".

(* ================================================================== *)
(** ** Binary64 comparison *)

Module F64.

(** A float is ranked by a triple of integers compared lexicographically:
    sign class, then exponent, then mantissa (both negated below zero). *)
Definition rank (f : spec_float) : Z * Z * Z :=
  match f with
  | S754_nan => (0, 0, 0)
  | S754_zero _ => (0, 0, 0)
  | S754_infinity true => (-2, 0, 0)
  | S754_infinity false => (2, 0, 0)
  | S754_finite true m e => (-1, - e, - Zpos m)
  | S754_finite false m e => (1, e, Zpos m)
  end%Z.

Definition le3 (a b : Z * Z * Z) : Prop :=
  let '(a1, a2, a3) := a in
  let '(b1, b2, b3) := b in
  (a1 < b1 \/ (a1 = b1 /\ (a2 < b2 \/ (a2 = b2 /\ a3 <= b3))))%Z.

Definition lt3 (a b : Z * Z * Z) : Prop :=
  let '(a1, a2, a3) := a in
  let '(b1, b2, b3) := b in
  (a1 < b1 \/ (a1 = b1 /\ (a2 < b2 \/ (a2 = b2 /\ a3 < b3))))%Z.

Definition eq3 (a b : Z * Z * Z) : Prop :=
  let '(a1, a2, a3) := a in
  let '(b1, b2, b3) := b in
  (a1 = b1 /\ a2 = b2 /\ a3 = b3)%Z.

Definition not_nan (x : float) : Prop := is_nan x = false.

Definition key (x : float) : Z * Z * Z := rank (Prim2SF x).

End F64.


(* ================================================================== *)
(** ** Python's [dict] with string keys

    A [dict] keeps its entries in insertion order and holds each key once.
    Assigning to a key that is present replaces the value where the key
    stands; a new key goes to the end. *)

Module PyDict.
Section Dict.
Variable V : Type.

Definition dict := list (string * V).

(** [d.get(k)] *)
Fixpoint get (d : dict) (k : string) : option V :=
  match d with
  | [] => None
  | (k', v) :: d' => if String.eqb k' k then Some v else get d' k
  end.

(** [k in d] *)
Definition contains (d : dict) (k : string) : bool :=
  match get d k with Some _ => true | None => false end.

(** [d[k] = v] *)
Fixpoint set (d : dict) (k : string) (v : V) : dict :=
  match d with
  | [] => [(k, v)]
  | (k', v') :: d' =>
      if String.eqb k' k then (k', v) :: d' else (k', v') :: set d' k v
  end.

(** [{k: v for k, v in pairs}] *)
Definition of_pairs (pairs : list (string * V)) : dict :=
  fold_left (fun d kv => set d (fst kv) (snd kv)) pairs [].

(** [d.items()], [d.keys()] and [d.values()], in insertion order *)
Definition items (d : dict) : list (string * V) := d.
Definition keys (d : dict) : list string := map fst d.
Definition values (d : dict) : list V := map snd d.
End Dict.
End PyDict.

Abbreviation dict := PyDict.dict.

(* ================================================================== *)
(** ** The builtins the module calls *)

Module Py.

(** [sum(xs)] over float64 values: the accumulator starts at [0] and the
    items are added from left to right. *)
Definition sum (xs : list float) : float :=
  fold_left PrimFloat.add xs 0%float.

(** [zip(xs, ys)] stops at the shorter argument. *)
Definition zip {A B : Type} (xs : list A) (ys : list B) : list (A * B) :=
  combine xs ys.

(** [enumerate(xs)] *)
Fixpoint enumerate_from {A : Type} (i : nat) (xs : list A) : list (nat * A) :=
  match xs with
  | [] => []
  | x :: xs' => (i, x) :: enumerate_from (S i) xs'
  end.
Definition enumerate {A : Type} (xs : list A) : list (nat * A) :=
  enumerate_from 0 xs.

(** [xs[:n]]: the first [n] items, and for a negative [n] all but the
    last [-n]. *)
Definition slice_to {A : Type} (xs : list A) (n : Z) : list A :=
  if (0 <=? n)%Z then firstn (Z.to_nat n) xs
  else firstn (Z.to_nat (Z.of_nat (List.length xs) + n)) xs.

(** [sorted(xs, key=k, reverse=True)]: a stable sort into descending key
    order, that is, items with equal keys keep their order.  It is
    written as an insertion sort, which yields the list CPython's sort
    yields whenever [<] is a strict weak order on the keys present (no
    key is NaN). *)
Section Sorted.
Variable A : Type.
Variable k : A -> float.

Fixpoint insert_desc (x : A) (l : list A) : list A :=
  match l with
  | [] => [x]
  | y :: l' =>
      if (k x <? k y)%float then y :: insert_desc x l' else x :: y :: l'
  end.

Definition sorted_desc (l : list A) : list A :=
  fold_right insert_desc [] l.

(** [a] may stand before [b] in descending key order. *)
Definition descending (a b : A) : Prop := (k b <=? k a)%float = true.
End Sorted.

(** [math.isclose(a, b, rel_tol=r)], with its default [abs_tol=0.0] *)
Definition isclose (r a b : float) : bool :=
  if (a =? b)%float then true
  else if is_infinity a || is_infinity b then false
  else
    let diff := abs (b - a)%float in
    (diff <=? abs (r * b))%float || (diff <=? abs (r * a))%float
    || (diff <=? 0)%float.

End Py.

(* ================================================================== *)
(** ** The predictor module *)

Module Predictor.
Import PyDict.
Local Open Scope string_scope.

(** *** Values, exceptions and artifacts *)

Inductive exn : Type :=
| FileNotFoundError
| AttributeError
| TypeError
| ValueError
| OverflowError
| IndexError
| KeyError
| Raised (name : string).   (* any other exception class, by name *)

Inductive result (A : Type) : Type :=
| Ok (a : A)
| Raise (e : exn).
Arguments Ok {A} a.
Arguments Raise {A} e.

(** What a caller may store under a feature name.  A [str] carries what
    Python's [float(s)] makes of it: [Some x], or [None] when the call
    raises [ValueError]. *)
Inductive pyobj : Type :=
| PyFloat (x : float)
| PyInt (n : Z)
| PyStr (s : string) (parsed : option float).

(** [float(n)] for an [int]: the nearest binary64, ties to even. *)
Definition float_of_int (n : Z) : float :=
  SF2Prim (binary_normalize prec emax n 0 false).

(** The conversion numpy applies when an object is stored into a
    [float64] array. *)
Definition np_float64 (v : pyobj) : result float :=
  match v with
  | PyFloat x => Ok x
  | PyInt n =>
      let x := float_of_int n in
      if is_infinity x then Raise OverflowError else Ok x
  | PyStr _ (Some x) => Ok x
  | PyStr _ None => Raise ValueError
  end.

(** The value [json.load] returns.  A number is held as the binary64 it
    denotes. *)
Inductive json : Type :=
| JNull
| JBool (b : bool)
| JNum (x : float)
| JStr (s : string)
| JArr (l : list json)
| JObj (d : list (string * json)).

Definition matrix := list (list float).

(** The unpickled model and explainer are opaque objects of other
    libraries; each is taken as the function its call computes, an
    object that cannot be called that way being the function that
    raises. *)
Definition Model := matrix -> result matrix.

Record Explanation : Type := mkExplanation {
  values : matrix;
  base_values : list float
}.

Definition Explainer := matrix -> result Explanation.

(** [api/config.py] *)
Inductive path : Type :=
| MODEL_PATH | EXPLAINER_PATH | FEATURE_NAMES_PATH | THRESHOLD_PATH.

Definition DEFAULT_THRESHOLD : float := 0.5%float.

(** A file is absent, or reading it raises (on opening it, on decoding
    it, or on the use the loader makes of the decoded object at once),
    or it decodes. *)
Inductive file (A : Type) : Type :=
| Missing
| Unreadable (e : exn)
| Holds (a : A).
Arguments Missing {A}.
Arguments Unreadable {A} e.
Arguments Holds {A} a.

Record filesystem : Type := mkFilesystem {
  model_file : file (option Model);      (* a pickle may hold [None] *)
  explainer_file : file Explainer;
  feature_names_file : file (list string);
  threshold_file : file json
}.

(** *** Objects and the state of the process *)

Record predictor : Type := mkPredictor {
  obj_id : nat;                          (* identity of the object *)
  model : option Model;
  explainer : option Explainer;
  feature_names : option (list string);
  threshold : json
}.

Inductive level : Type := INFO | WARNING | ERROR.

Inductive fs_event : Type :=
| Exists (p : path)
| Open (p : path).

Record world : Type := mkWorld {
  fs : filesystem;
  _predictor : option predictor;         (* the module global *)
  next_id : nat;
  trace : list fs_event;                 (* file accesses, oldest first *)
  log : list (level * string)            (* log records, oldest first *)
}.

(** *** Computations: state and exceptions *)

Definition M (A : Type) : Type := world -> result A * world.

Definition ret {A : Type} (a : A) : M A := fun w => (Ok a, w).

Definition raise {A : Type} (e : exn) : M A := fun w => (Raise e, w).

Definition bind {A B : Type} (m : M A) (f : A -> M B) : M B :=
  fun w =>
    match m w with
    | (Ok a, w') => f a w'
    | (Raise e, w') => (Raise e, w')
    end.

Definition lift {A : Type} (r : result A) : M A := fun w => (r, w).

(** [try: body / except Exception as e: handler e] *)
Definition try_except {A : Type} (body : M A) (handler : exn -> M A) : M A :=
  fun w =>
    match body w with
    | (Ok a, w') => (Ok a, w')
    | (Raise e, w') => handler e w'
    end.

Declare Scope py_scope.
Delimit Scope py_scope with py.
Notation "x <- c1 ;; c2" := (bind c1 (fun x => c2))
  (at level 61, c1 at next level, right associativity) : py_scope.
Notation "c1 ;; c2" := (bind c1 (fun _ => c2))
  (at level 61, right associativity) : py_scope.
Local Open Scope py_scope.

(** A record is logged with the constant part of its message. *)
Definition logger (lv : level) (msg : string) : M unit :=
  fun w => (Ok tt, mkWorld (fs w) (_predictor w) (next_id w) (trace w)
                           (log w ++ [(lv, msg)])%list).

Definition touch (ev : fs_event) : M unit :=
  fun w => (Ok tt, mkWorld (fs w) (_predictor w) (next_id w)
                           (trace w ++ [ev])%list (log w)).

(** [with open(p) as f: decode(f)] *)
Definition open_load {A : Type} (p : path) (sel : filesystem -> file A) : M A :=
  touch (Open p) ;;
  fun w =>
    match sel (fs w) with
    | Missing => (Raise FileNotFoundError, w)
    | Unreadable e => (Raise e, w)
    | Holds a => (Ok a, w)
    end.

(** [Path(p).exists()] *)
Definition path_exists {A : Type} (p : path) (sel : filesystem -> file A)
  : M bool :=
  touch (Exists p) ;;
  fun w =>
    match sel (fs w) with
    | Missing => (Ok false, w)
    | _ => (Ok true, w)
    end.

(** A fresh object identity. *)
Definition alloc : M nat :=
  fun w => (Ok (next_id w),
            mkWorld (fs w) (_predictor w) (S (next_id w)) (trace w) (log w)).

Definition read_global : M (option predictor) :=
  fun w => (Ok (_predictor w), w).

Definition write_global (p : option predictor) : M unit :=
  fun w => (Ok tt, mkWorld (fs w) p (next_id w) (trace w) (log w)).

(** [for x in xs: body], threading the variables the body assigns. *)
Fixpoint for_each {A S : Type} (xs : list A) (body : A -> S -> M S) (s : S)
  : M S :=
  match xs with
  | [] => ret s
  | x :: xs' => s' <- body x s ;; for_each xs' body s'
  end.

(** [xs[i]] *)
Definition getitem {A : Type} (xs : list A) (i : nat) : M A :=
  match nth_error xs i with
  | Some x => ret x
  | None => raise IndexError
  end.

Fixpoint update_nth {A : Type} (i : nat) (x : A) (xs : list A) : list A :=
  match xs, i with
  | [], _ => []
  | _ :: xs', O => x :: xs'
  | y :: xs', S i' => y :: update_nth i' x xs'
  end.

(** [arr[i] = v] on a [float64] array *)
Definition setitem (arr : list float) (i : nat) (v : pyobj) : M (list float) :=
  x <- lift (np_float64 v) ;;
  if (i <? List.length arr)%nat then ret (update_nth i x arr)
  else raise IndexError.

(** [d[k]] *)
Definition dict_getitem {V : Type} (d : dict V) (k : string) : M V :=
  match get d k with
  | Some v => ret v
  | None => raise KeyError
  end.

(** [threshold_data.get('threshold', default)]: only a [dict] has [get]. *)
Definition json_get (j : json) (k : string) (default : json) : M json :=
  match j with
  | JObj d => ret (match get d k with Some v => v | None => default end)
  | _ => raise AttributeError
  end.

(** [p > t] for a float [p] and an object [t] read from JSON *)
Definition float_gt (p : float) (t : json) : M bool :=
  match t with
  | JNum x => ret (x <? p)%float
  | JBool b => ret ((if b then 1 else 0) <? p)%float
  | _ => raise TypeError
  end.

(** *** class [CreditScorePredictor] *)

Definition set_model (self : predictor) (m : option Model) : predictor :=
  mkPredictor (obj_id self) m (explainer self) (feature_names self)
              (threshold self).
Definition set_explainer (self : predictor) (e : Explainer) : predictor :=
  mkPredictor (obj_id self) (model self) (Some e) (feature_names self)
              (threshold self).
Definition set_feature_names (self : predictor) (l : list string) : predictor :=
  mkPredictor (obj_id self) (model self) (explainer self) (Some l)
              (threshold self).
Definition set_threshold (self : predictor) (t : json) : predictor :=
  mkPredictor (obj_id self) (model self) (explainer self) (feature_names self)
              t.

(** [_load_artifacts] assigns to the attributes of [self]; the updated
    object is returned. *)
Definition _load_artifacts (self : predictor) : M predictor :=
  try_except
    (logger INFO "Loading model from" ;;
     m <- open_load MODEL_PATH model_file ;;
     let self := set_model self m in
     logger INFO "Model loaded successfully" ;;
     logger INFO "Loading explainer from" ;;
     e <- open_load EXPLAINER_PATH explainer_file ;;
     let self := set_explainer self e in
     logger INFO "Explainer loaded successfully" ;;
     logger INFO "Loading feature names from" ;;
     names <- open_load FEATURE_NAMES_PATH feature_names_file ;;
     let self := set_feature_names self names in
     logger INFO "Loaded feature names" ;;
     present <- path_exists THRESHOLD_PATH threshold_file ;;
     if (present : bool) then
       logger INFO "Loading threshold from" ;;
       threshold_data <- open_load THRESHOLD_PATH threshold_file ;;
       t <- json_get threshold_data "threshold" (JNum DEFAULT_THRESHOLD) ;;
       let self := set_threshold self t in
       logger INFO "Using optimal threshold:" ;;
       ret self
     else
       logger WARNING "Threshold file not found, using default:" ;;
       ret self)
    (fun e =>
       logger ERROR "Error loading artifacts:" ;;
       raise e).

Definition __init__ (id : nat) : M predictor :=
  let self :=
    mkPredictor id None None None (JNum DEFAULT_THRESHOLD) in
  _load_artifacts self.

(** [CreditScorePredictor()]: a new object, then [__init__]. *)
Definition CreditScorePredictor : M predictor :=
  id <- alloc ;;
  __init__ id.

Definition _prepare_features (self : predictor) (features_dict : dict pyobj)
  : M matrix :=
  match feature_names self with
  | None => raise TypeError
  | Some names =>
      let features_array := repeat 0%float (List.length names) in
      features_array <-
        for_each (Py.enumerate names)
          (fun '(i, feature_name) features_array =>
             if contains features_dict feature_name then
               v <- dict_getitem features_dict feature_name ;;
               setitem features_array i v
             else
               setitem features_array i (PyFloat nan))
          features_array ;;
      ret [features_array]
  end.

Definition predict_proba (self : predictor) (features : dict pyobj)
  : M (float * float) :=
  try_except
    (X <- _prepare_features self features ;;
     out <- match model self with
            | Some m => lift (m X)
            | None => raise AttributeError
            end ;;
     probas <- getitem out 0 ;;
     p0 <- getitem probas 0 ;;
     p1 <- getitem probas 1 ;;
     ret (p0, p1))
    (fun e =>
       logger ERROR "Error in predict_proba:" ;;
       raise e).

Definition predict (self : predictor) (features : dict pyobj)
  (threshold_arg : option float) : M (Z * string) :=
  try_except
    (probas <- predict_proba self features ;;
     let proba_default := snd probas in
     let thresh :=
       match threshold_arg with
       | Some t => JNum t
       | None => threshold self
       end in
     above <- float_gt proba_default thresh ;;
     let prediction := if (above : bool) then 1%Z else 0%Z in
     let decision :=
       if (prediction =? 1)%Z then "REJECTED" else "APPROVED" in
     ret (prediction, decision))
    (fun e =>
       logger ERROR "Error in predict:" ;;
       raise e).

Record entry : Type := mkEntry {
  feature : string;
  value : float
}.

Record importance : Type := mkImportance {
  shap_values : dict float;
  top_positive_features : list entry;
  top_negative_features : list entry;
  base_value : float;
  prediction_value : float
}.

Definition get_feature_importance (self : predictor) (features : dict pyobj)
  (top_n : Z) : M importance :=
  try_except
    (X <- _prepare_features self features ;;
     shap <- match explainer self with
             | Some e => lift (e X)
             | None => raise TypeError
             end ;;
     shap_vals <- getitem (values shap) 0 ;;
     base <- getitem (base_values shap) 0 ;;
     names <- match feature_names self with
              | Some l => ret l
              | None => raise TypeError
              end ;;
     let shap_dict := of_pairs (Py.zip names shap_vals) in
     let sorted_features :=
       Py.sorted_desc (fun x => abs (snd x)) (items shap_dict) in
     let positive_features :=
       Py.slice_to
         (map (fun x => mkEntry (fst x) (snd x))
              (filter (fun x => (0 <? snd x)%float) sorted_features))
         top_n in
     let negative_features :=
       Py.slice_to
         (map (fun x => mkEntry (fst x) (snd x))
              (filter (fun x => (snd x <? 0)%float) sorted_features))
         top_n in
     let prediction := (base + Py.sum shap_vals)%float in
     ret (mkImportance shap_dict positive_features negative_features
                       base prediction))
    (fun e =>
       logger ERROR "Error in get_feature_importance:" ;;
       raise e).

Definition is_loaded (self : predictor) : M bool :=
  ret (match model self with Some _ => true | None => false end).

Definition get_threshold (self : predictor) : M json :=
  ret (threshold self).

(** *** The module global and its accessor *)

Definition get_predictor : M predictor :=
  g <- read_global ;;
  match g with
  | None =>
      p <- CreditScorePredictor ;;
      write_global (Some p) ;;
      ret p
  | Some p => ret p
  end.

(** The start-up part of [lifespan] in [api/main.py], which runs before
    the first request is served. *)
Definition lifespan_startup : M unit :=
  try_except
    (logger INFO "Starting up API..." ;;
     p <- get_predictor ;;
     _ <- get_threshold p ;;
     logger INFO "Predictor loaded successfully. Threshold:")
    (fun e =>
       logger ERROR "Failed to load predictor:" ;;
       raise e).

(** [ClientFeatures.validate_features] of [api/models.py], the check the
    request layer runs before the map reaches the predictor. *)
Definition validate_features (v : dict pyobj) : M (dict pyobj) :=
  match v with
  | [] => raise ValueError
  | _ => ret v
  end.

(** *** Notions used to state the properties *)

(** The row the loop is meant to build, name by name: the value stored
    under the name, converted, or NaN when the name is absent. *)
Fixpoint lookup_row (names : list string) (m : dict pyobj)
  : result (list float) :=
  match names with
  | [] => Ok []
  | n :: names' =>
      match (match get m n with
             | Some v => np_float64 v
             | None => Ok nan
             end) with
      | Raise e => Raise e
      | Ok x =>
          match lookup_row names' m with
          | Raise e => Raise e
          | Ok xs => Ok (x :: xs)
          end
      end
  end.

(** A feature map whose values are all floats. *)
Definition float_map (d : dict float) : dict pyobj :=
  map (fun kv => (fst kv, PyFloat (snd kv))) d.

(** The state after the records [l] have been logged. *)
Definition add_logs (l : list (level * string)) (w : world) : world :=
  mkWorld (fs w) (_predictor w) (next_id w) (trace w) (log w ++ l)%list.

(** A computation is pure when its outcome does not depend on the state
    and it leaves the state as it found it. *)
Definition pure {A : Type} (c : M A) : Prop :=
  exists r, forall w, c w = (r, w).

(** A computation is quiet when its outcome does not depend on the state
    and all it does to the state is to append the same log records. *)
Definition quiet {A : Type} (c : M A) : Prop :=
  exists r l, forall w, c w = (r, add_logs l w).

(** The exception that loading a file raises, if any. *)
Definition load_error {A : Type} (f : file A) : option exn :=
  match f with
  | Missing => Some FileNotFoundError
  | Unreadable e => Some e
  | Holds _ => None
  end.

(** The same process with another threshold file. *)
Definition with_threshold_file (t : file json) (w : world) : world :=
  mkWorld (mkFilesystem (model_file (fs w)) (explainer_file (fs w))
                        (feature_names_file (fs w)) t)
          (_predictor w) (next_id w) (trace w) (log w).

(** The exception of the first of the three artifacts that fails to
    load, in the order [_load_artifacts] reads them. *)
Definition artifact_error (f : filesystem) : option exn :=
  match load_error (model_file f) with
  | Some e => Some e
  | None =>
      match load_error (explainer_file f) with
      | Some e => Some e
      | None => load_error (feature_names_file f)
      end
  end.


(** [{"feature": f, "value": v}] *)
Definition to_entry (x : string * float) : entry := mkEntry (fst x) (snd x).

(** [a] may stand before [b] in a ranked list. *)
Definition by_magnitude (a b : entry) : Prop :=
  (abs (value b) <=? abs (value a))%float = true.

(** The pair [predict] returns for the outcome of its comparison
    [proba_default > threshold]. *)
Definition verdict (above : bool) : Z * string :=
  if above then (1%Z, "REJECTED"%string) else (0%Z, "APPROVED"%string).

(** [x] stands at an earlier position of [l] than [y]. *)
Definition before {A : Type} (x y : A) (l : list A) : Prop :=
  exists l1 l2 l3, l = (l1 ++ x :: l2 ++ y :: l3)%list.

End Predictor.

(* ================================================================== *)
(** ** A small bundle to run the definitions on *)

Module Demo.
Import PyDict Predictor.
Local Open Scope string_scope.

(** A model over three features that gives default-probability 0.7 and
    rejects any other shape. *)
Definition stub_model : Model :=
  fun X =>
    match X with
    | [[_; _; _]] => Ok [[0.3%float; 0.7%float]]
    | _ => Raise ValueError
    end.

(** An explainer that attributes 2, 0 and -1 around the base value 0.5. *)
Definition stub_explainer : Explainer :=
  fun _ => Ok (mkExplanation [[2%float; 0%float; (-1)%float]] [0.5%float]).

Definition schema : list string := ["a"; "b"; "c"].

Definition files : filesystem :=
  mkFilesystem (Holds (Some stub_model)) (Holds stub_explainer) (Holds schema)
               Missing.

(** The process before anything is loaded. *)
Definition start : world := mkWorld files None 0 [] [].

(** The object the constructor builds from [files], with the calibrated
    threshold 0.48 put in place of the default. *)
Definition loaded : predictor :=
  mkPredictor 0 (Some stub_model) (Some stub_explainer) (Some schema)
              (JNum 0.48%float).

(** [{c: 3, a: 1}] *)
Definition sparse : dict float := [("c", 3%float); ("a", 1%float)].

(** [{"a": "invalid"}] *)
Definition invalid : dict pyobj := [("a", PyStr "invalid" None)].

(** The same bundle with a schema of two names, which the model rejects. *)
Definition misshapen : predictor :=
  mkPredictor 1 (Some stub_model) (Some stub_explainer) (Some ["a"; "b"])
              (JNum 0.48%float).

(** An explainer with two positive attributions. *)
Definition two_positive : predictor :=
  mkPredictor 2 (Some stub_model)
    (Some (fun _ =>
             Ok (mkExplanation [[2%float; 3%float; (-1)%float]]
                               [0.5%float])))
    (Some schema) (JNum 0.48%float).

(** An explainer that gives NaN for the second feature. *)
Definition nan_attribution : predictor :=
  mkPredictor 3 (Some stub_model)
    (Some (fun _ =>
             Ok (mkExplanation [[1%float; nan; 2%float]] [0.5%float])))
    (Some schema) (JNum 0.48%float).

(** The model file is gone. *)
Definition no_model : world :=
  mkWorld (mkFilesystem Missing (Holds stub_explainer) (Holds schema) Missing)
          None 0 [] [].

(** A schema that names the first feature twice, with attributions 1,
    -1 and -0.25. *)
Definition repeated : predictor :=
  mkPredictor 5 (Some stub_model)
    (Some (fun _ =>
             Ok (mkExplanation [[1%float; (-1)%float; (-0.25)%float]]
                               [0.5%float])))
    (Some ["a"; "b"; "a"]) (JNum 0.48%float).

(** An explainer that gives four attributions for the three names. *)
Definition overlong : predictor :=
  mkPredictor 6 (Some stub_model)
    (Some (fun _ =>
             Ok (mkExplanation
                   [[1%float; (-1)%float; (-0.25)%float; 2%float]]
                   [0.5%float])))
    (Some schema) (JNum 0.48%float).

(** The model file holds the pickle of [None]. *)
Definition no_object : world :=
  mkWorld (mkFilesystem (Holds None) (Holds stub_explainer) (Holds schema)
                        Missing)
          None 0 [] [].

(** The threshold file holds [{"fn_cost": 1, "fp_cost": 10}]. *)
Definition no_field : world :=
  mkWorld
    (mkFilesystem (Holds (Some stub_model)) (Holds stub_explainer) (Holds schema)
       (Holds (JObj [("fn_cost", JNum 1%float); ("fp_cost", JNum 10%float)])))
    None 0 [] [].

(** An explainer that gives the first and the third feature the same
    attribution. *)
Definition tied : predictor :=
  mkPredictor 4 (Some stub_model)
    (Some (fun _ =>
             Ok (mkExplanation [[1%float; 3%float; 1%float]] [0.5%float])))
    (Some schema) (JNum 0.48%float).

(** The threshold file holds [{"threshold": "0.5"}], the number written
    as a string. *)
Definition text_threshold : world :=
  mkWorld
    (mkFilesystem (Holds (Some stub_model)) (Holds stub_explainer) (Holds schema)
       (Holds (JObj [("threshold", JStr "0.5")])))
    None 0 [] [].

End Demo.

(* ================================================================== *)
(** ** The request handlers of [api/main.py]

    A handler runs inside FastAPI: it receives a request that pydantic
    has already validated and either returns a response model or raises
    [HTTPException].  Three things come from outside the repository and
    are taken as they are given, in a [runtime]: the text [str(e)] of an
    exception, which exception classes other than the builtin one derive
    from [ValueError], and pydantic's validation of the fields of a
    [PredictionResponse]. *)

Module Api.
Import PyDict Predictor.
Local Open Scope string_scope.
Local Open Scope py_scope.

(** [api/config.py] *)
Definition API_VERSION : string := "1.0.0".

(** *** [api/models.py] *)

Module ClientFeatures.
Record t : Type := mk {
  features : dict float;
  client_id : option string
}.
End ClientFeatures.

Module PredictionResponse.
Record t : Type := mk {
  client_id : option string;
  probability_default : float;
  probability_no_default : float;
  prediction : Z;
  decision : string;
  threshold_used : float
}.
End PredictionResponse.

Module BatchPredictionRequest.
Record t : Type := mk {
  clients : list ClientFeatures.t
}.
End BatchPredictionRequest.

Module BatchPredictionResponse.
Record t : Type := mk {
  predictions : list PredictionResponse.t;
  total_clients : Z;
  approved_count : Z;
  rejected_count : Z
}.
End BatchPredictionResponse.

Module FeatureImportanceResponse.
Record t : Type := mk {
  client_id : option string;
  shap_values : dict float;
  top_positive_features : list entry;
  top_negative_features : list entry;
  base_value : float;
  prediction_value : float
}.
End FeatureImportanceResponse.

Module HealthResponse.
Record t : Type := mk {
  status : string;
  model_loaded : bool;
  version : string
}.
End HealthResponse.

(** *** What a handler gives back *)

Inductive outcome (A : Type) : Type :=
| Response (a : A)
| HTTPException (status_code : Z) (detail : string).
Arguments Response {A} a.
Arguments HTTPException {A} status_code detail.

Definition Handler (A : Type) : Type := world -> outcome A * world.

Record runtime : Type := mkRuntime {
  (** [str(e)] *)
  str : exn -> string;
  (** whether the class of that name derives from [ValueError] *)
  derives_ValueError : string -> bool;
  (** [PredictionResponse(client_id=, probability_default=,
      probability_no_default=, prediction=, decision=, threshold_used=)] *)
  new_PredictionResponse :
    option string -> float -> float -> Z -> string -> json ->
    result PredictionResponse.t
}.

(** [isinstance(e, ValueError)] *)
Definition is_ValueError (rt : runtime) (e : exn) : bool :=
  match e with
  | ValueError => true
  | Raised name => derives_ValueError rt name
  | _ => false
  end.

(** [try: body / except ... as e: logger.error(msg); raise
    HTTPException(status_code, detail)], where [handler e] gives the
    message, the status code and the detail of the clause that catches
    [e]. *)
Definition http_try {A : Type} (body : M A)
  (handler : exn -> string * Z * string) : Handler A :=
  fun w =>
    match body w with
    | (Ok a, w') => (Response a, w')
    | (Raise e, w') =>
        let '(msg, status_code, detail) := handler e in
        (HTTPException status_code detail, add_logs [(ERROR, msg)] w')
    end.

(** *** The handlers *)

Definition health_check : Handler HealthResponse.t :=
  http_try
    (predictor <- get_predictor ;;
     loaded <- is_loaded predictor ;;
     ret (HealthResponse.mk "healthy" loaded API_VERSION))
    (fun e => ("Health check failed:", 503%Z, "Service unhealthy")).

Definition predict (rt : runtime) (client : ClientFeatures.t)
  : Handler PredictionResponse.t :=
  http_try
    (logger INFO "Prediction request for client:" ;;
     predictor <- get_predictor ;;
     probas <- Predictor.predict_proba predictor
                 (float_map (ClientFeatures.features client)) ;;
     let proba_no_default := fst probas in
     let proba_default := snd probas in
     decided <- Predictor.predict predictor
                  (float_map (ClientFeatures.features client)) None ;;
     let prediction := fst decided in
     let decision := snd decided in
     threshold_used <- get_threshold predictor ;;
     response <- lift (new_PredictionResponse rt
                         (ClientFeatures.client_id client)
                         proba_default proba_no_default
                         prediction decision threshold_used) ;;
     logger INFO "Prediction completed:" ;;
     ret response)
    (fun e =>
       if is_ValueError rt e
       then ("Validation error:", 400%Z, str rt e)
       else ("Prediction error:", 500%Z,
             "Internal server error during prediction")).

(** The variables the loop of [predict_batch] assigns. *)
Record tally : Type := mkTally {
  predictions : list PredictionResponse.t;
  approved_count : Z;
  rejected_count : Z
}.

Definition predict_batch (rt : runtime) (request : BatchPredictionRequest.t)
  : Handler BatchPredictionResponse.t :=
  http_try
    (logger INFO "Batch prediction request for" ;;
     predictor <- get_predictor ;;
     acc <-
       for_each (BatchPredictionRequest.clients request)
         (fun client acc =>
            probas <- Predictor.predict_proba predictor
                        (float_map (ClientFeatures.features client)) ;;
            let proba_no_default := fst probas in
            let proba_default := snd probas in
            decided <- Predictor.predict predictor
                         (float_map (ClientFeatures.features client)) None ;;
            let prediction := fst decided in
            let decision := snd decided in
            threshold_used <- get_threshold predictor ;;
            response <- lift (new_PredictionResponse rt
                                (ClientFeatures.client_id client)
                                proba_default proba_no_default
                                prediction decision threshold_used) ;;
            let predictions := (predictions acc ++ [response])%list in
            if String.eqb decision "APPROVED"
            then ret (mkTally predictions (approved_count acc + 1)
                              (rejected_count acc))
            else ret (mkTally predictions (approved_count acc)
                              (rejected_count acc + 1)))
         (mkTally [] 0 0) ;;
     let response :=
       BatchPredictionResponse.mk
         (predictions acc)
         (Z.of_nat (List.length (predictions acc)))
         (approved_count acc)
         (rejected_count acc) in
     logger INFO "Batch prediction completed:" ;;
     ret response)
    (fun e => ("Batch prediction error:", 500%Z,
               "Internal server error during batch prediction")).

Definition feature_importance (client : ClientFeatures.t)
  : Handler FeatureImportanceResponse.t :=
  http_try
    (logger INFO "Feature importance request for client:" ;;
     predictor <- get_predictor ;;
     importance <- get_feature_importance predictor
                     (float_map (ClientFeatures.features client)) 10 ;;
     let response :=
       FeatureImportanceResponse.mk
         (ClientFeatures.client_id client)
         (Predictor.shap_values importance)
         (Predictor.top_positive_features importance)
         (Predictor.top_negative_features importance)
         (Predictor.base_value importance)
         (Predictor.prediction_value importance) in
     logger INFO "Feature importance calculated successfully" ;;
     ret response)
    (fun e => ("Feature importance error:", 500%Z,
               "Internal server error during feature importance calculation")).

(** *** Notions used to state the properties *)

(** pydantic hands back the field values it was given: when it accepts
    the fields of a [PredictionResponse] whose threshold is a float, the
    model holds those values. *)
Definition keeps_fields (rt : runtime) : Prop :=
  forall cid p_default p_no prediction decision t r,
    new_PredictionResponse rt cid p_default p_no prediction decision
                           (JNum t) = Ok r ->
    r = PredictionResponse.mk cid p_default p_no prediction decision t.

(** A response whose fields agree with one another: the prediction is 1
    exactly when the probability of default exceeds the threshold that
    is reported, and the decision is the label of the prediction. *)
Definition coherent (r : PredictionResponse.t) : Prop :=
  (PredictionResponse.prediction r = 1%Z \/
   PredictionResponse.prediction r = 0%Z) /\
  (PredictionResponse.prediction r = 1%Z <->
   (PredictionResponse.threshold_used r
    <? PredictionResponse.probability_default r)%float = true) /\
  (PredictionResponse.decision r = "REJECTED" <->
   PredictionResponse.prediction r = 1%Z) /\
  (PredictionResponse.decision r = "APPROVED" <->
   PredictionResponse.prediction r = 0%Z).

(** What [predict] and the body of the loop of [predict_batch] both do
    for one client once they hold the predictor: the decision, and the
    response built for it. *)
Definition scored (rt : runtime) (predictor : Predictor.predictor)
  (client : ClientFeatures.t) : M (string * PredictionResponse.t) :=
  probas <- Predictor.predict_proba predictor
              (float_map (ClientFeatures.features client)) ;;
  decided <- Predictor.predict predictor
               (float_map (ClientFeatures.features client)) None ;;
  threshold_used <- get_threshold predictor ;;
  response <- lift (new_PredictionResponse rt
                      (ClientFeatures.client_id client)
                      (snd probas) (fst probas)
                      (fst decided) (snd decided) threshold_used) ;;
  ret (snd decided, response).

(** The answer of [predict] to a failure [e] of its body. *)
Definition predict_failure {A : Type} (rt : runtime) (e : exn) : outcome A :=
  if is_ValueError rt e then HTTPException 400 (str rt e)
  else HTTPException 500 "Internal server error during prediction".

(** How many of the responses carry the decision [d]. *)
Definition decided (d : string) (l : list PredictionResponse.t) : Z :=
  Z.of_nat
    (List.length
       (filter (fun r => String.eqb (PredictionResponse.decision r) d) l)).

(** How many times the model file has been opened. *)
Definition model_opens (t : list fs_event) : nat :=
  List.length
    (filter (fun ev => match ev with Open MODEL_PATH => true | _ => false end)
            t).

End Api.

(** A runtime to run the handlers with: pydantic accepts probabilities
    between 0 and 1 and a float threshold. *)
Module ApiDemo.
Import PyDict Predictor.
Local Open Scope string_scope.

Definition in_unit (x : float) : bool := (0 <=? x)%float && (x <=? 1)%float.

Definition runtime : Api.runtime :=
  Api.mkRuntime
    (fun e => match e with
              | ValueError => "could not convert string to float"
              | _ => "error"
              end)
    (fun name => String.eqb name "ValidationError")
    (fun cid p_default p_no prediction decision thr =>
       match thr with
       | JNum t =>
           if in_unit p_default && in_unit p_no
           then Ok (Api.PredictionResponse.mk cid p_default p_no prediction
                                              decision t)
           else Raise (Raised "ValidationError")
       | _ => Raise (Raised "ValidationError")
       end).

(** The process once [Demo.loaded] is the global. *)
Definition serving : world :=
  mkWorld Demo.files (Some Demo.loaded) 1 [] [].

Definition alice : Api.ClientFeatures.t :=
  Api.ClientFeatures.mk Demo.sparse (Some "A-1").

Definition bob : Api.ClientFeatures.t :=
  Api.ClientFeatures.mk [("b", 2%float)] None.

(** The process with a global whose schema the model rejects. *)
Definition failing : world :=
  mkWorld Demo.files (Some Demo.misshapen) 2 [] [].

End ApiDemo.

(* ================================================================== *)
(** * Proofs *)

(** ** Binary64 comparison *)

Module F64Facts.
Import F64.

Lemma SFcompare_rank (a b : spec_float) :
  a <> S754_nan -> b <> S754_nan ->
  match SFcompare a b with
  | Some Lt => lt3 (rank a) (rank b)
  | Some Eq => eq3 (rank a) (rank b)
  | Some Gt => lt3 (rank b) (rank a)
  | None => False
  end.
Proof.
  intros Ha Hb.
  destruct a as [sa|sa| |sa ma ea]; try congruence;
  destruct b as [sb|sb| |sb mb eb]; try congruence;
  try destruct sa; try destruct sb; cbn; try lia.
  - destruct (Z.compare_spec ea eb); cbn; try lia.
    change (Pos.compare_cont Eq ma mb) with (Pos.compare ma mb).
    destruct (Pos.compare_spec ma mb); cbn; lia.
  - destruct (Z.compare_spec ea eb); cbn; try lia.
    change (Pos.compare_cont Eq ma mb) with (Pos.compare ma mb).
    destruct (Pos.compare_spec ma mb); cbn; lia.
Qed.

Lemma Prim2SF_not_nan (x : float) : not_nan x -> Prim2SF x <> S754_nan.
Proof.
  unfold not_nan. intros H E.
  assert (Hx : SF2Prim (Prim2SF x) = x) by apply SF2Prim_Prim2SF.
  rewrite E in Hx. cbn in Hx. subst x. vm_compute in H. discriminate.
Qed.

Lemma not_nan_eqb (x : float) : not_nan x <-> (x =? x)%float = true.
Proof.
  unfold not_nan, is_nan. destruct (x =? x)%float; cbn; intuition congruence.
Qed.

Lemma is_nan_Prim2SF (x : float) : is_nan x = true -> Prim2SF x = S754_nan.
Proof. unfold Prim2SF. intros ->. reflexivity. Qed.

Lemma Prim2SF_nan_iff (x : float) : Prim2SF x = S754_nan <-> is_nan x = true.
Proof.
  split; [|apply is_nan_Prim2SF].
  intros E. destruct (is_nan x) eqn:N; [reflexivity|].
  exfalso. exact (Prim2SF_not_nan N E).
Qed.

Lemma SFcompare_nan_l (b : spec_float) : SFcompare S754_nan b = None.
Proof. reflexivity. Qed.

Lemma SFcompare_nan_r (a : spec_float) : SFcompare a S754_nan = None.
Proof. destruct a; reflexivity. Qed.

(** The three comparisons, read on ranks.  A comparison that involves NaN
    is false. *)
Lemma ltb_iff (x y : float) :
  (x <? y)%float = true <-> not_nan x /\ not_nan y /\ lt3 (key x) (key y).
Proof.
  rewrite ltb_spec. unfold SFltb, key, not_nan.
  destruct (is_nan x) eqn:Nx.
  { rewrite (is_nan_Prim2SF _ Nx), SFcompare_nan_l. intuition congruence. }
  destruct (is_nan y) eqn:Ny.
  { rewrite (is_nan_Prim2SF _ Ny), SFcompare_nan_r. intuition congruence. }
  pose proof (SFcompare_rank (Prim2SF_not_nan Nx) (Prim2SF_not_nan Ny)) as H.
  destruct (SFcompare (Prim2SF x) (Prim2SF y)) as [[ | | ]|];
    destruct (rank (Prim2SF x)) as [[a1 a2] a3];
    destruct (rank (Prim2SF y)) as [[b1 b2] b3]; cbn in *;
    (split; [intros E; try discriminate E; repeat split; trivial
            |intros (_ & _ & E); trivial; exfalso; lia]).
Qed.

Lemma leb_iff (x y : float) :
  (x <=? y)%float = true <-> not_nan x /\ not_nan y /\ le3 (key x) (key y).
Proof.
  rewrite leb_spec. unfold SFleb, key, not_nan.
  destruct (is_nan x) eqn:Nx.
  { rewrite (is_nan_Prim2SF _ Nx), SFcompare_nan_l. intuition congruence. }
  destruct (is_nan y) eqn:Ny.
  { rewrite (is_nan_Prim2SF _ Ny), SFcompare_nan_r. intuition congruence. }
  pose proof (SFcompare_rank (Prim2SF_not_nan Nx) (Prim2SF_not_nan Ny)) as H.
  destruct (SFcompare (Prim2SF x) (Prim2SF y)) as [[ | | ]|];
    destruct (rank (Prim2SF x)) as [[a1 a2] a3];
    destruct (rank (Prim2SF y)) as [[b1 b2] b3]; cbn in *;
    (split; [intros E; try discriminate E; repeat split; trivial; lia
            |intros (_ & _ & E); trivial; exfalso; lia]).
Qed.

Lemma eqb_iff (x y : float) :
  (x =? y)%float = true <-> not_nan x /\ not_nan y /\ eq3 (key x) (key y).
Proof.
  rewrite eqb_spec. unfold SFeqb, key, not_nan.
  destruct (is_nan x) eqn:Nx.
  { rewrite (is_nan_Prim2SF _ Nx), SFcompare_nan_l. intuition congruence. }
  destruct (is_nan y) eqn:Ny.
  { rewrite (is_nan_Prim2SF _ Ny), SFcompare_nan_r. intuition congruence. }
  pose proof (SFcompare_rank (Prim2SF_not_nan Nx) (Prim2SF_not_nan Ny)) as H.
  destruct (SFcompare (Prim2SF x) (Prim2SF y)) as [[ | | ]|];
    destruct (rank (Prim2SF x)) as [[a1 a2] a3];
    destruct (rank (Prim2SF y)) as [[b1 b2] b3]; cbn in *;
    (split; [intros E; try discriminate E; repeat split; trivial; lia
            |intros (_ & _ & E); trivial; exfalso; lia]).
Qed.

(** [x == y] excludes both [x < y] and [y < x]. *)
Lemma eqb_not_ltb (x y : float) :
  (x =? y)%float = true -> (x <? y)%float = false /\ (y <? x)%float = false.
Proof.
  intros E. apply eqb_iff in E. destruct E as (_ & _ & E).
  split; apply not_true_is_false; intros L; apply ltb_iff in L;
    destruct L as (_ & _ & L); unfold key in *;
    destruct (rank (Prim2SF x)) as [[a1 a2] a3];
    destruct (rank (Prim2SF y)) as [[b1 b2] b3]; cbn in *; lia.
Qed.

(** On floats that are not NaN, [<=] is the negation of the converse [<]. *)
Lemma not_ltb_leb (x y : float) :
  not_nan x -> not_nan y -> (x <? y)%float = false -> (y <=? x)%float = true.
Proof.
  intros Nx Ny L. apply leb_iff. repeat split; trivial.
  assert (~ lt3 (key x) (key y)) as L'.
  { intros C. rewrite (proj2 (ltb_iff x y)) in L; [discriminate|auto]. }
  unfold key in *;
    destruct (rank (Prim2SF x)) as [[a1 a2] a3];
    destruct (rank (Prim2SF y)) as [[b1 b2] b3]; cbn in *; lia.
Qed.

Lemma ltb_leb (x y : float) : (x <? y)%float = true -> (x <=? y)%float = true.
Proof.
  intros L. apply ltb_iff in L. destruct L as (Nx & Ny & L).
  apply leb_iff. repeat split; trivial.
  unfold key in *;
    destruct (rank (Prim2SF x)) as [[a1 a2] a3];
    destruct (rank (Prim2SF y)) as [[b1 b2] b3]; cbn in *; lia.
Qed.

Lemma leb_trans (x y z : float) :
  (x <=? y)%float = true -> (y <=? z)%float = true -> (x <=? z)%float = true.
Proof.
  intros A B. apply leb_iff in A, B.
  destruct A as (Nx & Ny & A), B as (_ & Nz & B).
  apply leb_iff. repeat split; trivial.
  unfold key in *;
    destruct (rank (Prim2SF x)) as [[a1 a2] a3];
    destruct (rank (Prim2SF y)) as [[b1 b2] b3];
    destruct (rank (Prim2SF z)) as [[c1 c2] c3]; cbn in *; lia.
Qed.

Lemma leb_refl (x : float) : not_nan x -> (x <=? x)%float = true.
Proof.
  intros N. apply leb_iff. repeat split; trivial.
  unfold key; destruct (rank (Prim2SF x)) as [[a1 a2] a3]; cbn; lia.
Qed.

Lemma abs_not_nan (x : float) : not_nan x -> not_nan (abs x).
Proof.
  unfold not_nan. intros N.
  destruct (is_nan (abs x)) eqn:A; [|reflexivity].
  apply Prim2SF_nan_iff in A. rewrite abs_spec in A.
  pose proof (Prim2SF_not_nan N) as H.
  destruct (Prim2SF x); cbn in A; congruence.
Qed.

End F64Facts.

Import PyDict Predictor.
Local Open Scope string_scope.
Local Open Scope py_scope.

(* ------------------------------------------------------------------ *)
(** *** The vectorizer: the loop of [_prepare_features] *)

Lemma update_nth_app {A : Type} (pre : list A) (x y : A) (post : list A) :
  update_nth (List.length pre) x (pre ++ y :: post) = (pre ++ x :: post)%list.
Proof. induction pre as [|z pre IH]; cbn; [reflexivity|now rewrite IH]. Qed.

Lemma prepare_loop (m : dict pyobj) (names : list string) :
  forall (pre : list float) (w : world),
    for_each (Py.enumerate_from (List.length pre) names)
      (fun '(i, feature_name) features_array =>
         if contains m feature_name then
           v <- dict_getitem m feature_name ;;
           setitem features_array i v
         else
           setitem features_array i (PyFloat nan))
      (pre ++ repeat 0%float (List.length names))%list w
    = match lookup_row names m with
      | Ok xs => (Ok (pre ++ xs)%list, w)
      | Raise e => (Raise e, w)
      end.
Proof.
  induction names as [|n names IH]; intros pre w.
  - cbn. reflexivity.
  - cbn [Py.enumerate_from for_each lookup_row List.length repeat].
    assert (Hlt : (List.length pre <? List.length (pre ++ 0%float :: repeat 0%float (List.length names)))%nat = true).
    { apply Nat.ltb_lt. rewrite length_app. cbn. lia. }
    assert (Hstep : forall x : float,
      (pre ++ x :: repeat 0%float (List.length names))%list
      = ((pre ++ [x]) ++ repeat 0%float (List.length names))%list).
    { intros x. now rewrite <- app_assoc. }
    assert (Hlen : forall x : float,
      S (List.length pre) = List.length (pre ++ [x])).
    { intros x. rewrite length_app. cbn. lia. }
    unfold bind at 1. unfold contains, dict_getitem.
    destruct (get m n) as [v|].
    + unfold bind, ret, setitem, bind, lift.
      destruct (np_float64 v) as [x|e]; [|reflexivity].
      rewrite Hlt. unfold ret. rewrite update_nth_app.
      rewrite Hstep, (Hlen x), IH.
      destruct (lookup_row names m); [|reflexivity].
      now rewrite <- app_assoc.
    + unfold setitem, bind, lift. cbn [np_float64].
      rewrite Hlt. unfold ret. rewrite update_nth_app.
      rewrite Hstep, (Hlen nan), IH.
      destruct (lookup_row names m); [|reflexivity].
      now rewrite <- app_assoc.
Qed.

(** [_prepare_features] computes [lookup_row] and leaves the state alone. *)
Lemma prepare_features_run (self : predictor) (m : dict pyobj) (w : world) :
  _prepare_features self m w
  = match feature_names self with
    | None => (Raise TypeError, w)
    | Some names =>
        match lookup_row names m with
        | Ok xs => (Ok [xs], w)
        | Raise e => (Raise e, w)
        end
    end.
Proof.
  unfold _prepare_features.
  destruct (feature_names self) as [names|]; [|reflexivity].
  pose proof (prepare_loop m names [] w) as H.
  cbn [List.length app] in H.
  unfold Py.enumerate. unfold bind at 1. rewrite H.
  destruct (lookup_row names m); reflexivity.
Qed.

Lemma lookup_row_ext (names : list string) (m m' : dict pyobj) :
  (forall n, In n names -> get m n = get m' n) ->
  lookup_row names m = lookup_row names m'.
Proof.
  induction names as [|n names IH]; intros H; cbn; [reflexivity|].
  rewrite (H n (or_introl eq_refl)), IH; [reflexivity|].
  intros n' Hn'. apply H. now right.
Qed.

Lemma get_float_map (d : dict float) (n : string) :
  get (float_map d) n = option_map PyFloat (get d n).
Proof.
  induction d as [|[k x] d IH]; cbn; [reflexivity|].
  destruct (String.eqb k n); [reflexivity|exact IH].
Qed.

Lemma lookup_row_float_map (names : list string) (d : dict float) :
  lookup_row names (float_map d)
  = Ok (map (fun n => match get d n with Some x => x | None => nan end) names).
Proof.
  induction names as [|n names IH]; cbn; [reflexivity|].
  rewrite get_float_map, IH. destruct (get d n); reflexivity.
Qed.

(* ------------------------------------------------------------------ *)
(** *** Effects of a computation: [pure] and [quiet] compose *)

Lemma add_logs_nil (w : world) : add_logs [] w = w.
Proof. destruct w. unfold add_logs. cbn. now rewrite app_nil_r. Qed.

Lemma add_logs_app (l l' : list (level * string)) (w : world) :
  add_logs l' (add_logs l w) = add_logs (l ++ l') w.
Proof. unfold add_logs. cbn. now rewrite app_assoc. Qed.

Lemma pure_ret {A : Type} (a : A) : pure (ret a).
Proof. now exists (Ok a). Qed.

Lemma pure_raise {A : Type} (e : exn) : pure (@raise A e).
Proof. now exists (Raise e). Qed.

Lemma pure_lift {A : Type} (r : result A) : pure (lift r).
Proof. now exists r. Qed.

Lemma pure_bind {A B : Type} (m : M A) (f : A -> M B) :
  pure m -> (forall a, pure (f a)) -> pure (bind m f).
Proof.
  intros [r Hm] Hf. destruct r as [a|e].
  - destruct (Hf a) as [r' Hr']. exists r'. intros w.
    unfold bind. now rewrite Hm, Hr'.
  - exists (Raise e). intros w. unfold bind. now rewrite Hm.
Qed.

Lemma pure_getitem {A : Type} (xs : list A) (i : nat) : pure (getitem xs i).
Proof.
  unfold getitem. destruct (nth_error xs i); [apply pure_ret|apply pure_raise].
Qed.

Lemma pure_prepare_features (self : predictor) (m : dict pyobj) :
  pure (_prepare_features self m).
Proof.
  destruct (feature_names self) as [names|] eqn:E.
  - destruct (lookup_row names m) as [xs|e] eqn:R.
    + exists (Ok [xs]). intros w. now rewrite prepare_features_run, E, R.
    + exists (Raise e). intros w. now rewrite prepare_features_run, E, R.
  - exists (Raise TypeError). intros w. now rewrite prepare_features_run, E.
Qed.

Lemma pure_float_gt (p : float) (t : json) : pure (float_gt p t).
Proof.
  destruct t; cbn; first [apply pure_ret | apply pure_raise].
Qed.

Lemma pure_quiet {A : Type} (c : M A) : pure c -> quiet c.
Proof.
  intros [r H]. exists r, []. intros w. now rewrite add_logs_nil.
Qed.

Lemma quiet_logger (lv : level) (msg : string) : quiet (logger lv msg).
Proof. exists (Ok tt), [(lv, msg)]. reflexivity. Qed.

Lemma quiet_bind {A B : Type} (m : M A) (f : A -> M B) :
  quiet m -> (forall a, quiet (f a)) -> quiet (bind m f).
Proof.
  intros (r & l & Hm) Hf. destruct r as [a|e].
  - destruct (Hf a) as (r' & l' & Hr'). exists r', (l ++ l')%list.
    intros w. unfold bind. now rewrite Hm, Hr', add_logs_app.
  - exists (Raise e), l. intros w. unfold bind. now rewrite Hm.
Qed.

Lemma quiet_try_except {A : Type} (body : M A) (handler : exn -> M A) :
  quiet body -> (forall e, quiet (handler e)) ->
  quiet (try_except body handler).
Proof.
  intros (r & l & Hb) Hh. destruct r as [a|e].
  - exists (Ok a), l. intros w. unfold try_except. now rewrite Hb.
  - destruct (Hh e) as (r' & l' & Hr'). exists r', (l ++ l')%list.
    intros w. unfold try_except. now rewrite Hb, Hr', add_logs_app.
Qed.

(** The handler every method uses: log one error record, raise again. *)
Lemma try_log_run {A : Type} (body : M A) (msg : string) (r : result A) :
  (forall w, body w = (r, w)) ->
  forall w,
    try_except body (fun e => logger ERROR msg ;; raise e) w
    = (r, match r with
          | Ok _ => w
          | Raise _ => add_logs [(ERROR, msg)] w
          end).
Proof.
  intros H w. unfold try_except. rewrite H. destruct r; reflexivity.
Qed.

Lemma quiet_reraise {A : Type} (msg : string) (e : exn) :
  quiet (logger ERROR msg ;; @raise A e).
Proof.
  apply quiet_bind; [apply quiet_logger|]. intros _.
  apply pure_quiet, pure_raise.
Qed.

(** A pure body under the common handler has one outcome whatever the
    state, and leaves an error record only when it fails. *)
Lemma try_log_pure {A : Type} (body : M A) (msg : string) :
  pure body ->
  exists r, forall w,
    try_except body (fun e => logger ERROR msg ;; raise e) w
    = (r, match r with
          | Ok _ => w
          | Raise _ => add_logs [(ERROR, msg)] w
          end).
Proof.
  intros [r H]. exists r. intros w. exact (try_log_run _ _ H w).
Qed.

(** [predict_proba] has one outcome whatever the state, and the only
    trace it leaves is the error record of a failed call. *)
Lemma predict_proba_run (self : predictor) (features : dict pyobj) :
  exists r, forall w,
    predict_proba self features w
    = (r, match r with
          | Ok _ => w
          | Raise _ => add_logs [(ERROR, "Error in predict_proba:")] w
          end).
Proof.
  unfold predict_proba. apply try_log_pure.
  apply pure_bind; [apply pure_prepare_features|]. intros X.
  apply pure_bind.
  { destruct (model self); [apply pure_lift|apply pure_raise]. }
  intros out. apply pure_bind; [apply pure_getitem|]. intros probas.
  apply pure_bind; [apply pure_getitem|]. intros p0.
  apply pure_bind; [apply pure_getitem|]. intros p1.
  apply pure_ret.
Qed.

Lemma quiet_predict_proba (self : predictor) (features : dict pyobj) :
  quiet (predict_proba self features).
Proof.
  destruct (predict_proba_run self features) as [r H].
  exists r, (match r with Ok _ => [] | Raise _ => [(ERROR, "Error in predict_proba:")] end).
  intros w. rewrite H. destruct r; [now rewrite add_logs_nil|reflexivity].
Qed.

Lemma quiet_predict (self : predictor) (features : dict pyobj)
  (threshold_arg : option float) :
  quiet (predict self features threshold_arg).
Proof.
  unfold predict. apply quiet_try_except; [|intros e; apply quiet_reraise].
  apply quiet_bind; [apply quiet_predict_proba|]. intros probas.
  apply quiet_bind; [apply pure_quiet, pure_float_gt|]. intros above.
  apply pure_quiet, pure_ret.
Qed.

Lemma quiet_get_feature_importance (self : predictor) (features : dict pyobj)
  (top_n : Z) :
  quiet (get_feature_importance self features top_n).
Proof.
  unfold get_feature_importance.
  apply quiet_try_except; [|intros e; apply quiet_reraise].
  apply pure_quiet.
  apply pure_bind; [apply pure_prepare_features|]. intros X.
  apply pure_bind.
  { destruct (explainer self); [apply pure_lift|apply pure_raise]. }
  intros shap. apply pure_bind; [apply pure_getitem|]. intros shap_vals.
  apply pure_bind; [apply pure_getitem|]. intros base.
  apply pure_bind.
  { destruct (feature_names self); [apply pure_ret|apply pure_raise]. }
  intros names. apply pure_ret.
Qed.

(* ------------------------------------------------------------------ *)
(** *** Loading the artifacts *)

Ltac run_load :=
  cbv - [app get DEFAULT_THRESHOLD].

Ltac files :=
  cbn [fs model_file explainer_file feature_names_file threshold_file
       load_error].

(** The three artifacts load and the threshold file is absent. *)
Lemma CreditScorePredictor_no_threshold_file (w : world)
  (m : option Model) (ex : Explainer) (names : list string) :
  model_file (fs w) = Holds m ->
  explainer_file (fs w) = Holds ex ->
  feature_names_file (fs w) = Holds names ->
  threshold_file (fs w) = Missing ->
  CreditScorePredictor w
  = (Ok (mkPredictor (next_id w) m (Some ex) (Some names)
                     (JNum DEFAULT_THRESHOLD)),
     mkWorld (fs w) (_predictor w) (S (next_id w))
       (trace w ++ [Open MODEL_PATH; Open EXPLAINER_PATH;
                    Open FEATURE_NAMES_PATH; Exists THRESHOLD_PATH])
       (log w ++ [(INFO, "Loading model from");
                  (INFO, "Model loaded successfully");
                  (INFO, "Loading explainer from");
                  (INFO, "Explainer loaded successfully");
                  (INFO, "Loading feature names from");
                  (INFO, "Loaded feature names");
                  (WARNING, "Threshold file not found, using default:")])).
Proof.
  destruct w as [[mf ef nf tf] g id tr lg]. files. intros -> -> -> ->.
  run_load. rewrite <- !app_assoc. reflexivity.
Qed.

(** The three artifacts load and the threshold file decodes to [j]. *)
Lemma CreditScorePredictor_threshold_object (w : world)
  (m : option Model) (ex : Explainer) (names : list string)
  (d : list (string * json)) :
  model_file (fs w) = Holds m ->
  explainer_file (fs w) = Holds ex ->
  feature_names_file (fs w) = Holds names ->
  threshold_file (fs w) = Holds (JObj d) ->
  CreditScorePredictor w
  = (Ok (mkPredictor (next_id w) m (Some ex) (Some names)
                     (match get d "threshold" with
                      | Some v => v
                      | None => JNum DEFAULT_THRESHOLD
                      end)),
     mkWorld (fs w) (_predictor w) (S (next_id w))
       (trace w ++ [Open MODEL_PATH; Open EXPLAINER_PATH;
                    Open FEATURE_NAMES_PATH; Exists THRESHOLD_PATH;
                    Open THRESHOLD_PATH])
       (log w ++ [(INFO, "Loading model from");
                  (INFO, "Model loaded successfully");
                  (INFO, "Loading explainer from");
                  (INFO, "Explainer loaded successfully");
                  (INFO, "Loading feature names from");
                  (INFO, "Loaded feature names");
                  (INFO, "Loading threshold from");
                  (INFO, "Using optimal threshold:")])).
Proof.
  destruct w as [[mf ef nf tf] g id tr lg]. files. intros -> -> -> ->.
  run_load. rewrite <- !app_assoc. reflexivity.
Qed.

(** The three artifacts load and the threshold file is there but cannot
    be opened or decoded. *)
Lemma CreditScorePredictor_threshold_unreadable (w : world)
  (m : option Model) (ex : Explainer) (names : list string) (e : exn) :
  model_file (fs w) = Holds m ->
  explainer_file (fs w) = Holds ex ->
  feature_names_file (fs w) = Holds names ->
  threshold_file (fs w) = Unreadable e ->
  fst (CreditScorePredictor w) = Raise e.
Proof.
  destruct w as [[mf ef nf tf] g id tr lg]. files. intros -> -> -> ->.
  run_load. reflexivity.
Qed.

(** The three artifacts load and the threshold file decodes to a value
    that is not an object, which has no [get]. *)
Lemma CreditScorePredictor_threshold_not_object (w : world)
  (m : option Model) (ex : Explainer) (names : list string) (j : json) :
  model_file (fs w) = Holds m ->
  explainer_file (fs w) = Holds ex ->
  feature_names_file (fs w) = Holds names ->
  threshold_file (fs w) = Holds j ->
  (forall d, j <> JObj d) ->
  fst (CreditScorePredictor w) = Raise AttributeError.
Proof.
  destruct w as [[mf ef nf tf] g id tr lg]. files. intros -> -> -> -> Hj.
  destruct j as [ |b|x|s|l|d]; try (run_load; reflexivity).
  now destruct (Hj d).
Qed.

(** Whatever the files hold, constructing a predictor allocates one
    object, opens the model file first, and changes neither the files
    nor the global. *)
Lemma CreditScorePredictor_frame (w : world) :
  exists r t l,
    CreditScorePredictor w
    = (r, mkWorld (fs w) (_predictor w) (S (next_id w))
                  (trace w ++ Open MODEL_PATH :: t) (log w ++ l)) /\
    match r with
    | Ok p => obj_id p = next_id w
    | Raise _ => True
    end.
Proof.
  destruct w as [[mf ef nf tf] g id tr lg].
  destruct mf as [|e1|m]; [| |destruct ef as [|e2|ex];
    [| |destruct nf as [|e3|names];
      [| |destruct tf as [|e4|[ |b|x|s|l|d]]]]];
  run_load; rewrite <- ?app_assoc; cbn [app];
  (eexists; eexists; eexists; split; [reflexivity|]); cbn; trivial.
Qed.

Lemma CreditScorePredictor_model_error (w : world) (e : exn) :
  load_error (model_file (fs w)) = Some e ->
  CreditScorePredictor w
  = (Raise e,
     mkWorld (fs w) (_predictor w) (S (next_id w))
       (trace w ++ [Open MODEL_PATH])
       (log w ++ [(INFO, "Loading model from");
                  (ERROR, "Error loading artifacts:")])).
Proof.
  destruct w as [[mf ef nf tf] g id tr lg]. files.
  destruct mf as [|e1|m]; files; intros E; try discriminate E;
    injection E as <-; run_load; rewrite <- ?app_assoc; reflexivity.
Qed.

Lemma CreditScorePredictor_explainer_error (w : world) (m : option Model) (e : exn) :
  model_file (fs w) = Holds m ->
  load_error (explainer_file (fs w)) = Some e ->
  CreditScorePredictor w
  = (Raise e,
     mkWorld (fs w) (_predictor w) (S (next_id w))
       (trace w ++ [Open MODEL_PATH; Open EXPLAINER_PATH])
       (log w ++ [(INFO, "Loading model from");
                  (INFO, "Model loaded successfully");
                  (INFO, "Loading explainer from");
                  (ERROR, "Error loading artifacts:")])).
Proof.
  destruct w as [[mf ef nf tf] g id tr lg]. files. intros ->.
  destruct ef as [|e1|ex]; files; intros E; try discriminate E;
    injection E as <-; run_load; rewrite <- ?app_assoc; reflexivity.
Qed.

Lemma CreditScorePredictor_feature_names_error (w : world) (m : option Model)
  (ex : Explainer) (e : exn) :
  model_file (fs w) = Holds m ->
  explainer_file (fs w) = Holds ex ->
  load_error (feature_names_file (fs w)) = Some e ->
  CreditScorePredictor w
  = (Raise e,
     mkWorld (fs w) (_predictor w) (S (next_id w))
       (trace w ++ [Open MODEL_PATH; Open EXPLAINER_PATH;
                    Open FEATURE_NAMES_PATH])
       (log w ++ [(INFO, "Loading model from");
                  (INFO, "Model loaded successfully");
                  (INFO, "Loading explainer from");
                  (INFO, "Explainer loaded successfully");
                  (INFO, "Loading feature names from");
                  (ERROR, "Error loading artifacts:")])).
Proof.
  destruct w as [[mf ef nf tf] g id tr lg]. files. intros -> ->.
  destruct nf as [|e1|names]; files; intros E; try discriminate E;
    injection E as <-; run_load; rewrite <- ?app_assoc; reflexivity.
Qed.

(** A failed load raises the artifact's error, has logged it as the last
    record, and leaves the files and the global as they were. *)
Lemma CreditScorePredictor_artifact_error (w : world) (e : exn) :
  artifact_error (fs w) = Some e ->
  exists t l,
    CreditScorePredictor w
    = (Raise e,
       mkWorld (fs w) (_predictor w) (S (next_id w))
               (trace w ++ t)
               (log w ++ l ++ [(ERROR, "Error loading artifacts:")])).
Proof.
  unfold artifact_error. intros E.
  destruct (load_error (model_file (fs w))) as [e1|] eqn:E1.
  { injection E as <-. rewrite (CreditScorePredictor_model_error _ E1).
    exists [Open MODEL_PATH], [(INFO, "Loading model from")]. reflexivity. }
  destruct (model_file (fs w)) as [| |m] eqn:Hm; try discriminate E1.
  destruct (load_error (explainer_file (fs w))) as [e2|] eqn:E2.
  { injection E as <-.
    rewrite (CreditScorePredictor_explainer_error _ Hm E2).
    exists [Open MODEL_PATH; Open EXPLAINER_PATH],
           [(INFO, "Loading model from"); (INFO, "Model loaded successfully");
            (INFO, "Loading explainer from")].
    reflexivity. }
  destruct (explainer_file (fs w)) as [| |ex] eqn:Hex; try discriminate E2.
  rewrite (CreditScorePredictor_feature_names_error _ Hm Hex E).
  exists [Open MODEL_PATH; Open EXPLAINER_PATH; Open FEATURE_NAMES_PATH],
         [(INFO, "Loading model from"); (INFO, "Model loaded successfully");
          (INFO, "Loading explainer from");
          (INFO, "Explainer loaded successfully");
          (INFO, "Loading feature names from")].
  reflexivity.
Qed.

Lemma get_predictor_run (w : world) :
  get_predictor w
  = match _predictor w with
    | Some p => (Ok p, w)
    | None =>
        match CreditScorePredictor w with
        | (Ok p, w') =>
            (Ok p, mkWorld (fs w') (Some p) (next_id w') (trace w') (log w'))
        | (Raise e, w') => (Raise e, w')
        end
    end.
Proof.
  unfold get_predictor, bind, read_global, write_global, ret.
  destruct (_predictor w); [reflexivity|].
  destruct (CreditScorePredictor w) as [[p|e] w']; reflexivity.
Qed.

Lemma lifespan_startup_run (w : world) :
  lifespan_startup w
  = match get_predictor (add_logs [(INFO, "Starting up API...")] w) with
    | (Ok p, w') =>
        (Ok tt,
         add_logs [(INFO, "Predictor loaded successfully. Threshold:")] w')
    | (Raise e, w') =>
        (Raise e, add_logs [(ERROR, "Failed to load predictor:")] w')
    end.
Proof.
  unfold lifespan_startup, try_except, get_threshold.
  unfold bind at 1. unfold logger at 1. unfold bind at 1.
  change (mkWorld (fs w) (_predictor w) (next_id w) (trace w)
            (log w ++ [(INFO, "Starting up API...")]))
    with (add_logs [(INFO, "Starting up API...")] w).
  destruct (get_predictor (add_logs [(INFO, "Starting up API...")] w))
    as [[p|e] w']; reflexivity.
Qed.

(* ------------------------------------------------------------------ *)
(** *** The singleton *)


(* ------------------------------------------------------------------ *)
(** *** Facts about [dict], [sorted] and slices *)

Section DictFacts.
Variable V : Type.
Implicit Types (d : dict V) (k : string) (v : V).

Lemma get_app d d' k :
  get (d ++ d')%list k
  = match get d k with Some v => Some v | None => get d' k end.
Proof.
  induction d as [|[k' v'] d IH]; cbn; [reflexivity|].
  destruct (String.eqb k' k); [reflexivity|exact IH].
Qed.

Lemma set_fresh d k v : get d k = None -> set d k v = (d ++ [(k, v)])%list.
Proof.
  induction d as [|[k' v'] d IH]; cbn; [reflexivity|].
  destruct (String.eqb k' k); [discriminate|].
  intros H. now rewrite IH.
Qed.

Lemma get_set d k v k' :
  get (set d k v) k' = if String.eqb k k' then Some v else get d k'.
Proof.
  induction d as [|[k0 v0] d IH]; cbn; [reflexivity|].
  destruct (String.eqb_spec k0 k) as [->|N]; cbn.
  - destruct (String.eqb k k'); reflexivity.
  - rewrite IH. destruct (String.eqb_spec k0 k') as [->|N'];
      [|reflexivity].
    destruct (String.eqb_spec k k') as [->|_]; [contradiction|reflexivity].
Qed.

(** A key that was given a value is in the comprehension's result. *)
Lemma contains_of_pairs (l : list (string * V)) k v :
  In (k, v) l -> contains (of_pairs l) k = true.
Proof.
  unfold of_pairs, contains.
  assert (G : forall acc : dict V,
    get acc k <> None \/ In k (map fst l) ->
    get (fold_left (fun d kv => set d (fst kv) (snd kv)) l acc) k <> None).
  { induction l as [|[k0 v0] l IH]; intros acc H; cbn.
    - destruct H as [H|[]]. exact H.
    - apply IH. rewrite get_set. cbn in H.
      destruct (String.eqb_spec k0 k) as [->|N]; [left; discriminate|].
      destruct H as [H|[H|H]]; [now left|contradiction|now right]. }
  intros Hin.
  destruct (get (fold_left (fun d kv => set d (fst kv) (snd kv)) l []) k)
    eqn:E; [reflexivity|].
  exfalso. apply (G []); [|exact E].
  right. change k with (fst (k, v)). now apply in_map.
Qed.

Lemma get_None_not_In d k : get d k = None <-> ~ In k (keys d).
Proof.
  induction d as [|[k' v'] d IH]; cbn; [tauto|].
  destruct (String.eqb_spec k' k) as [->|N].
  - split; [discriminate|]. intros H. exfalso. apply H. now left.
  - rewrite IH. tauto.
Qed.

Lemma keys_set d k v :
  keys (set d k v)
  = if contains d k then keys d else (keys d ++ [k])%list.
Proof.
  unfold contains, keys.
  induction d as [|[k' v'] d IH]; cbn; [reflexivity|].
  destruct (String.eqb k' k); cbn; [reflexivity|].
  rewrite IH. destruct (get d k); reflexivity.
Qed.

Lemma NoDup_keys_set d k v : NoDup (keys d) -> NoDup (keys (set d k v)).
Proof.
  intros H. rewrite keys_set. unfold contains.
  destruct (get d k) eqn:G; [exact H|].
  apply get_None_not_In in G.
  apply NoDup_app; [exact H|repeat constructor; intros []|].
  intros x Hx [<-|[]]. contradiction.
Qed.

Lemma NoDup_keys_of_pairs (l : list (string * V)) :
  NoDup (keys (of_pairs l)).
Proof.
  unfold of_pairs.
  assert (G : forall acc : dict V, NoDup (keys acc) ->
    NoDup (keys (fold_left (fun d kv => set d (fst kv) (snd kv)) l acc))).
  { induction l as [|[k v] l IH]; intros acc H; cbn; [exact H|].
    apply IH, NoDup_keys_set, H. }
  apply G. constructor.
Qed.

Lemma get_In d k v : NoDup (keys d) -> In (k, v) d -> get d k = Some v.
Proof.
  induction d as [|[k' v'] d IH]; cbn; [contradiction|].
  intros H Hin. inversion H as [|? ? Hk Hd]; subst.
  destruct Hin as [E|Hin].
  - injection E as -> ->. now rewrite String.eqb_refl.
  - destruct (String.eqb_spec k' k) as [->|N]; [|now apply IH].
    exfalso. apply Hk. change k with (fst (k, v)). now apply in_map.
Qed.

(** With pairwise distinct keys the comprehension keeps the pairs as
    they come. *)
Lemma of_pairs_NoDup (l : list (string * V)) :
  NoDup (map fst l) -> of_pairs l = l.
Proof.
  unfold of_pairs.
  assert (G : forall acc : dict V,
    NoDup (map fst l) ->
    (forall k, In k (map fst l) -> get acc k = None) ->
    fold_left (fun d kv => set d (fst kv) (snd kv)) l acc
    = (acc ++ l)%list).
  { induction l as [|[k v] l IH]; intros acc H Hacc; cbn.
    - now rewrite app_nil_r.
    - inversion H as [|? ? Hk Hl]; subst.
      rewrite set_fresh by (apply Hacc; now left).
      rewrite IH; [now rewrite <- app_assoc|exact Hl|].
      intros k' Hk'. rewrite get_app, Hacc by now right.
      cbn. destruct (String.eqb_spec k k') as [->|N]; [contradiction|].
      reflexivity. }
  intros H. now apply (G [] H).
Qed.
End DictFacts.

Lemma NoDup_keys_zip {B : Type} (names : list string) (row : list B) :
  NoDup names -> NoDup (map fst (Py.zip names row)).
Proof.
  unfold Py.zip. intros H. revert row.
  induction H as [|n names Hn H IH]; intros row; [constructor|].
  destruct row as [|x row]; cbn; constructor; [|apply IH].
  intros Hin. apply Hn. clear - Hin. revert row Hin.
  induction names as [|n' names IH]; intros row Hin; [exact Hin|].
  destruct row as [|y row]; [contradiction|].
  cbn in Hin. destruct Hin as [->|Hin]; [now left|right; eauto].
Qed.

Lemma values_zip {B : Type} (names : list string) (row : list B) :
  (List.length row <= List.length names)%nat ->
  map snd (Py.zip names row) = row.
Proof.
  unfold Py.zip. revert row.
  induction names as [|n names IH]; intros [|x row] H; cbn in *;
    try reflexivity; try lia.
  rewrite IH; [reflexivity|lia].
Qed.

Section SortedFacts.
Variable A : Type.
Variable k : A -> float.

Lemma In_insert_desc (x y : A) (l : list A) :
  In y (Py.insert_desc k x l) <-> y = x \/ In y l.
Proof.
  induction l as [|z l IH]; cbn; [intuition congruence|].
  destruct (k x <? k z)%float; cbn; [rewrite IH|]; intuition congruence.
Qed.

Lemma In_sorted_desc (y : A) (l : list A) :
  In y (Py.sorted_desc k l) <-> In y l.
Proof.
  induction l as [|x l IH]; [cbn; tauto|].
  change (Py.sorted_desc k (x :: l))
    with (Py.insert_desc k x (Py.sorted_desc k l)).
  rewrite In_insert_desc, IH. cbn. intuition congruence.
Qed.

Lemma insert_desc_sorted (x : A) (l : list A) :
  F64.not_nan (k x) ->
  Forall (fun y => F64.not_nan (k y)) l ->
  StronglySorted (Py.descending k) l ->
  StronglySorted (Py.descending k) (Py.insert_desc k x l).
Proof.
  intros Nx Nl Hs. induction Hs as [|y l Hs IH Hy]; cbn.
  - repeat constructor.
  - inversion Nl as [|? ? Ny Nl']; subst.
    destruct (k x <? k y)%float eqn:L.
    + constructor; [now apply IH|].
      apply Forall_forall. intros z Hz.
      apply In_insert_desc in Hz. destruct Hz as [->|Hz].
      * apply F64Facts.ltb_leb, L.
      * rewrite Forall_forall in Hy. now apply Hy.
    + assert (Hxy : Py.descending k x y) by now apply F64Facts.not_ltb_leb.
      constructor; [now constructor|].
      constructor; [exact Hxy|].
      apply Forall_forall. intros z Hz.
      rewrite Forall_forall in Hy. unfold Py.descending in *.
      eapply F64Facts.leb_trans; [apply Hy, Hz|exact Hxy].
Qed.

Lemma sorted_desc_sorted (l : list A) :
  Forall (fun y => F64.not_nan (k y)) l ->
  StronglySorted (Py.descending k) (Py.sorted_desc k l).
Proof.
  induction 1 as [|x l Nx Nl IH]; [constructor|].
  change (Py.sorted_desc k (x :: l))
    with (Py.insert_desc k x (Py.sorted_desc k l)).
  apply insert_desc_sorted; trivial.
  apply Forall_forall. intros y Hy.
  apply (proj1 (In_sorted_desc y l)) in Hy.
  rewrite Forall_forall in Nl. now apply Nl.
Qed.
End SortedFacts.

Section SliceFacts.
Variable A : Type.

Lemma In_firstn (x : A) (n : nat) (l : list A) :
  In x (firstn n l) -> In x l.
Proof.
  revert n. induction l as [|y l IH]; intros [|n]; cbn; try tauto.
  intros [->|H]; [now left|right; eauto].
Qed.

Lemma In_slice_to (x : A) (l : list A) (n : Z) :
  In x (Py.slice_to l n) -> In x l.
Proof.
  unfold Py.slice_to. destruct (0 <=? n)%Z; apply In_firstn.
Qed.

Lemma length_slice_to (l : list A) (n : Z) :
  (0 <= n)%Z -> (Z.of_nat (List.length (Py.slice_to l n)) <= n)%Z.
Proof.
  intros H. unfold Py.slice_to.
  destruct (Z.leb_spec 0 n); [|lia].
  rewrite length_firstn. lia.
Qed.

Variable R : A -> A -> Prop.

Lemma StronglySorted_filter (f : A -> bool) (l : list A) :
  StronglySorted R l -> StronglySorted R (filter f l).
Proof.
  induction 1 as [|x l Hs IH Hx]; cbn; [constructor|].
  destruct (f x); [|exact IH].
  constructor; [exact IH|].
  rewrite Forall_forall in *. intros y Hy.
  apply filter_In in Hy. now apply Hx.
Qed.

Lemma StronglySorted_firstn (n : nat) (l : list A) :
  StronglySorted R l -> StronglySorted R (firstn n l).
Proof.
  intros Hs. revert n.
  induction Hs as [|x l Hs IH Hx]; intros [|n]; cbn; try constructor.
  - apply IH.
  - rewrite Forall_forall in *. intros y Hy.
    apply Hx. exact (In_firstn _ _ _ Hy).
Qed.

Lemma StronglySorted_slice_to (l : list A) (n : Z) :
  StronglySorted R l -> StronglySorted R (Py.slice_to l n).
Proof.
  unfold Py.slice_to. destruct (0 <=? n)%Z; apply StronglySorted_firstn.
Qed.
End SliceFacts.

Lemma StronglySorted_map {A B : Type} (R : B -> B -> Prop) (g : A -> B)
  (l : list A) :
  StronglySorted (fun a b => R (g a) (g b)) l -> StronglySorted R (map g l).
Proof.
  induction 1 as [|x l Hs IH Hx]; cbn; constructor; [exact IH|].
  rewrite Forall_forall in *. intros y Hy.
  apply in_map_iff in Hy. destruct Hy as (a & <- & Ha). now apply Hx.
Qed.

(* ------------------------------------------------------------------ *)
(** *** Explanations *)

(** What a successful call of [get_feature_importance] has computed. *)
Lemma get_feature_importance_inv (self : predictor) (features : dict pyobj)
  (top_n : Z) (w w' : world) (r : importance) :
  get_feature_importance self features top_n w = (Ok r, w') ->
  w' = w /\
  exists names ex X shap row base,
    feature_names self = Some names /\
    explainer self = Some ex /\
    _prepare_features self features w = (Ok X, w) /\
    ex X = Ok shap /\
    nth_error (values shap) 0 = Some row /\
    nth_error (base_values shap) 0 = Some base /\
    let sorted_features :=
      Py.sorted_desc (fun x => abs (snd x))
                     (items (of_pairs (Py.zip names row))) in
    r = mkImportance
          (of_pairs (Py.zip names row))
          (Py.slice_to
             (map to_entry
                  (filter (fun x => (0 <? snd x)%float) sorted_features))
             top_n)
          (Py.slice_to
             (map to_entry
                  (filter (fun x => (snd x <? 0)%float) sorted_features))
             top_n)
          base (base + Py.sum row)%float.
Proof.
  intros H. unfold get_feature_importance, try_except in H.
  unfold bind at 1 in H.
  destruct (pure_prepare_features self features) as [v Hv].
  rewrite Hv in H.
  destruct v as [X|e]; [|discriminate H].
  unfold bind at 1 in H.
  destruct (explainer self) as [ex|] eqn:Hex; [|discriminate H].
  unfold lift in H. destruct (ex X) as [shap|e] eqn:Hshap; [|discriminate H].
  unfold bind at 1 in H. unfold getitem at 1 in H.
  destruct (nth_error (values shap) 0) as [row|] eqn:Hrow;
    [|discriminate H].
  unfold ret at 1 in H. unfold bind at 1 in H. unfold getitem at 1 in H.
  destruct (nth_error (base_values shap) 0) as [base|] eqn:Hbase;
    [|discriminate H].
  unfold ret at 1 in H. unfold bind at 1 in H.
  destruct (feature_names self) as [names|] eqn:Hn; [|discriminate H].
  unfold ret in H. injection H as <- <-.
  split; [reflexivity|].
  exists names, ex, X, shap, row, base.
  repeat split; trivial.
Qed.

Lemma ranked_entry (f : string * float -> bool) (names : list string)
  (row : list float) (top_n : Z) (e : entry) :
  In e (Py.slice_to
          (map to_entry
             (filter f (Py.sorted_desc (fun x => abs (snd x))
                          (items (of_pairs (Py.zip names row))))))
          top_n) ->
  f (feature e, value e) = true /\
  get (of_pairs (Py.zip names row)) (feature e) = Some (value e).
Proof.
  intros H. apply In_slice_to in H. apply in_map_iff in H.
  destruct H as ([k v] & <- & H). apply filter_In in H.
  destruct H as [H Hf]. apply In_sorted_desc in H.
  cbn [to_entry feature value fst snd]. split; [exact Hf|].
  apply get_In; [apply NoDup_keys_of_pairs|exact H].
Qed.

Lemma ranked_sorted (f : string * float -> bool) (d : dict float)
  (top_n : Z) :
  (forall v, In v (PyDict.values d) -> F64.not_nan v) ->
  StronglySorted by_magnitude
    (Py.slice_to
       (map to_entry
          (filter f (Py.sorted_desc (fun x => abs (snd x)) (items d))))
       top_n).
Proof.
  intros N. apply StronglySorted_slice_to, StronglySorted_map.
  apply StronglySorted_filter.
  apply (sorted_desc_sorted (fun x : string * float => abs (snd x))).
  apply Forall_forall. intros x Hx.
  apply F64Facts.abs_not_nan, N. unfold PyDict.values. now apply in_map.
Qed.

(* ================================================================== *)
(** * The properties of the specification *)

(** C1 (decide).  When the model gives default-probability [p] and the
    active threshold is the float [t] (the caller's, or the stored one
    when the caller gives none), [predict] returns prediction 1 exactly
    when [p > t]; it returns 0 when [p == t]; and the label is "REJECTED"
    exactly for prediction 1 and "APPROVED" exactly for prediction 0. *)
Theorem predict_strict_threshold (self : predictor) (features : dict pyobj)
  (threshold_arg : option float) (w w' : world) (p_no p t : float) :
  predict_proba self features w = (Ok (p_no, p), w') ->
  (threshold_arg = Some t \/
   (threshold_arg = None /\ threshold self = JNum t)) ->
  exists (prediction : Z) (decision : string),
    predict self features threshold_arg w = (Ok (prediction, decision), w') /\
    (prediction = 1%Z \/ prediction = 0%Z) /\
    (prediction = 1%Z <-> (t <? p)%float = true) /\
    ((p =? t)%float = true -> prediction = 0%Z) /\
    (decision = "REJECTED" <-> prediction = 1%Z) /\
    (decision = "APPROVED" <-> prediction = 0%Z).
Proof.
  intros Hp Ht.
  assert (Hthresh : match threshold_arg with
                    | Some x => JNum x
                    | None => threshold self
                    end = JNum t).
  { destruct Ht as [->|[-> ->]]; reflexivity. }
  exists (if (t <? p)%float then 1%Z else 0%Z),
         (if (t <? p)%float then "REJECTED" else "APPROVED").
  split.
  { unfold predict, try_except. unfold bind at 1. rewrite Hp.
    cbn [snd]. rewrite Hthresh. cbn.
    destruct (t <? p)%float; reflexivity. }
  destruct (t <? p)%float eqn:L.
  - repeat split; auto; try discriminate.
    intros E. apply F64Facts.eqb_not_ltb in E. destruct E as [_ E]. congruence.
  - repeat split; auto; try discriminate.
Qed.

(** Default-probability 0.7: rejected against the stored threshold 0.48,
    approved against the caller's threshold 0.8. *)
Lemma predict_strict_threshold_witness :
  predict_proba Demo.loaded (float_map Demo.sparse) Demo.start
  = (Ok (0.3%float, 0.7%float), Demo.start) /\
  threshold Demo.loaded = JNum 0.48%float /\
  predict Demo.loaded (float_map Demo.sparse) None Demo.start
  = (Ok (1%Z, "REJECTED"), Demo.start) /\
  predict Demo.loaded (float_map Demo.sparse) (Some 0.8%float) Demo.start
  = (Ok (0%Z, "APPROVED"), Demo.start).
Proof.
  split; [reflexivity|]. split; [reflexivity|]. split.
  - destruct (@predict_strict_threshold Demo.loaded (float_map Demo.sparse)
                None Demo.start Demo.start 0.3%float 0.7%float 0.48%float
                eq_refl (or_intror (conj eq_refl eq_refl)))
      as (prediction & decision & H & _ & H1 & _ & H2 & _).
    assert (E1 : prediction = 1%Z) by (apply H1; reflexivity).
    assert (E2 : decision = "REJECTED") by (apply H2; exact E1).
    rewrite E1, E2 in H. exact H.
  - destruct (@predict_strict_threshold Demo.loaded (float_map Demo.sparse)
                (Some 0.8%float) Demo.start Demo.start
                0.3%float 0.7%float 0.8%float
                eq_refl (or_introl eq_refl))
      as (prediction & decision & H & Hb & H1 & _ & _ & H3).
    assert (E1 : prediction = 0%Z).
    { destruct Hb as [Hb|Hb]; [|exact Hb].
      apply H1 in Hb. vm_compute in Hb. discriminate Hb. }
    assert (E2 : decision = "APPROVED") by (apply H3; exact E1).
    rewrite E1, E2 in H. exact H.
Defined.

(** C2 (vectorize).  With schema [names], a map of floats is laid out
    position by position: entry [i] of the one-row result is the value
    stored under [names[i]], or NaN when the map has no such key; the row
    is as long as the schema and the state is left alone.  Two maps that
    agree on the schema names give the same outcome, whatever their
    insertion order and whatever they hold under other names, so unknown
    names are dropped without an error.  The empty map gives a row of
    NaN. *)
Theorem prepare_features_layout (self : predictor) (names : list string) :
  feature_names self = Some names ->
  (forall (d : dict float) (w : world),
     let row := map (fun n => match get d n with
                              | Some x => x
                              | None => nan
                              end) names in
     _prepare_features self (float_map d) w = (Ok [row], w) /\
     List.length row = List.length names /\
     (forall i n, nth_error names i = Some n ->
        nth_error row i = Some (match get d n with
                                | Some x => x
                                | None => nan
                                end))) /\
  (forall (m m' : dict pyobj) (w : world),
     (forall n, In n names -> get m n = get m' n) ->
     _prepare_features self m w = _prepare_features self m' w) /\
  (forall w : world,
     _prepare_features self [] w
     = (Ok [repeat nan (List.length names)], w)).
Proof.
  intros Hn. split; [|split].
  - intros d w row. subst row. repeat split.
    + rewrite prepare_features_run, Hn, lookup_row_float_map. reflexivity.
    + apply length_map.
    + intros i n Hi. rewrite nth_error_map, Hi. reflexivity.
  - intros m m' w H.
    rewrite !prepare_features_run, Hn, (lookup_row_ext names m m' H).
    reflexivity.
  - intros w. rewrite prepare_features_run, Hn.
    assert (E : lookup_row names [] = Ok (repeat nan (List.length names))).
    { clear Hn. induction names as [|n names IH]; cbn; [reflexivity|].
      cbn in IH. now rewrite IH. }
    now rewrite E.
Qed.

(** Schema [a, b, c] and map [{c: 3, a: 1}] give [[1, NaN, 3]], and so
    does [{a: 1, zip: 7, c: 3}]. *)
Lemma prepare_features_layout_witness :
  feature_names Demo.loaded = Some Demo.schema /\
  _prepare_features Demo.loaded (float_map Demo.sparse) Demo.start
  = (Ok [[1%float; nan; 3%float]], Demo.start) /\
  _prepare_features Demo.loaded
    [("a", PyFloat 1); ("zip", PyStr "75011" (Some 75011%float));
     ("c", PyFloat 3)]
    Demo.start
  = _prepare_features Demo.loaded (float_map Demo.sparse) Demo.start.
Proof.
  split; [reflexivity|].
  destruct (@prepare_features_layout Demo.loaded Demo.schema eq_refl)
    as (H & Hext & _).
  split.
  - destruct (H Demo.sparse Demo.start) as (E & _). exact E.
  - apply Hext. intros n Hn. cbn in Hn.
    destruct Hn as [<-|[<-|[<-|[]]]]; reflexivity.
Defined.

(** C3 (reconstruction).  Let the schema names be pairwise distinct and
    let the explainer return, for the vector of the feature map, no more
    attributions than there are names.
    Then in every result of [get_feature_importance] the prediction
    value is, bit for bit, the base value plus the sum of the values of
    the returned mapping, taken in the mapping's order; so the two agree
    within relative tolerance 1e-6 whenever the value is a number. *)
Theorem prediction_value_reconstruction (self : predictor)
  (names : list string) (features : dict pyobj) (top_n : Z)
  (w w' : world) (r : importance) :
  feature_names self = Some names ->
  NoDup names ->
  (forall ex X shap row,
     explainer self = Some ex ->
     _prepare_features self features w = (Ok X, w) ->
     ex X = Ok shap ->
     nth_error (values shap) 0 = Some row ->
     (List.length row <= List.length names)%nat) ->
  get_feature_importance self features top_n w = (Ok r, w') ->
  prediction_value r
  = (base_value r + Py.sum (PyDict.values (shap_values r)))%float /\
  (is_nan (prediction_value r) = false ->
   Py.isclose 1e-6%float
     (base_value r + Py.sum (PyDict.values (shap_values r)))%float
     (prediction_value r) = true).
Proof.
  intros Hn Hdup Hlen H.
  apply get_feature_importance_inv in H.
  destruct H as (_ & names' & ex & X & shap & row & base
                 & Hn' & Hex & HX & Hshap & Hrow & _ & ->).
  rewrite Hn in Hn'. injection Hn' as <-.
  cbn [prediction_value base_value shap_values].
  assert (E : PyDict.values (of_pairs (Py.zip names row)) = row).
  { rewrite of_pairs_NoDup by now apply NoDup_keys_zip.
    apply values_zip. eapply Hlen; eassumption. }
  rewrite E. split; [reflexivity|].
  intros N. unfold Py.isclose.
  unfold is_nan in N. apply negb_false_iff in N. now rewrite N.
Qed.

Lemma NoDup_schema : NoDup Demo.schema.
Proof.
  unfold Demo.schema.
  repeat constructor; cbn; intuition discriminate.
Defined.

Lemma stub_explainer_row :
  forall ex X shap row,
    explainer Demo.loaded = Some ex ->
    _prepare_features Demo.loaded (float_map Demo.sparse) Demo.start
    = (Ok X, Demo.start) ->
    ex X = Ok shap ->
    nth_error (values shap) 0 = Some row ->
    (List.length row <= List.length Demo.schema)%nat.
Proof.
  intros ex X shap row E1 _ E2 E3.
  cbn in E1. injection E1 as <-.
  cbv [Demo.stub_explainer] in E2. injection E2 as <-.
  cbn in E3. injection E3 as <-.
  cbn. lia.
Defined.

(** Base value 0.5 and attributions 2, 0, -1 give prediction value 1.5. *)
Lemma prediction_value_reconstruction_witness :
  exists r,
    get_feature_importance Demo.loaded (float_map Demo.sparse) 10 Demo.start
    = (Ok r, Demo.start) /\
    prediction_value r = 1.5%float /\
    prediction_value r
    = (base_value r + Py.sum (PyDict.values (shap_values r)))%float.
Proof.
  eexists. split; [reflexivity|]. split; [reflexivity|].
  exact (proj1 (@prediction_value_reconstruction Demo.loaded Demo.schema
                  (float_map Demo.sparse) 10 Demo.start Demo.start _
                  eq_refl NoDup_schema stub_explainer_row eq_refl)).
Defined.

(** With the first name repeated in the schema the mapping keeps one
    value for it, the last, while the prediction value adds up all
    three attributions: 0.25 against 0.5 + (-0.25 - 1) = -0.75. *)
Lemma prediction_value_repeated_name :
  exists r,
    get_feature_importance Demo.repeated (float_map Demo.sparse) 10
                           Demo.start
    = (Ok r, Demo.start) /\
    shap_values r = [("a", (-0.25)%float); ("b", (-1)%float)] /\
    prediction_value r = 0.25%float /\
    (base_value r + Py.sum (PyDict.values (shap_values r)))%float
    = (-0.75)%float /\
    Py.isclose 1e-6%float
      (base_value r + Py.sum (PyDict.values (shap_values r)))%float
      (prediction_value r) = false.
Proof.
  eexists. split; [vm_compute; reflexivity|].
  repeat split; vm_compute; reflexivity.
Qed.

(** An attribution without a name is left out of the mapping and still
    counted in the prediction value. *)
Example prediction_value_overlong_row :
  exists r,
    get_feature_importance Demo.overlong (float_map Demo.sparse) 10
                           Demo.start
    = (Ok r, Demo.start) /\
    prediction_value r = 2.25%float /\
    (base_value r + Py.sum (PyDict.values (shap_values r)))%float
    = 0.25%float.
Proof.
  eexists. split; [vm_compute; reflexivity|].
  split; vm_compute; reflexivity.
Qed.

(** With a NaN attribution both sides are NaN, and NaN is close to
    nothing. *)
Example prediction_value_nan :
  exists r,
    get_feature_importance Demo.nan_attribution (float_map Demo.sparse) 10
                           Demo.start
    = (Ok r, Demo.start) /\
    is_nan (prediction_value r) = true /\
    Py.isclose 1e-6%float
      (base_value r + Py.sum (PyDict.values (shap_values r)))%float
      (prediction_value r) = false.
Proof.
  eexists. split; [vm_compute; reflexivity|].
  split; vm_compute; reflexivity.
Qed.

(** C4 (ranked lists, as the code has them).  In every result of
    [get_feature_importance], for any [top_n]: the entries of the
    positive list have a value above 0 and those of the negative list a
    value below 0; every entry is an item of the returned mapping; a
    name whose value in the mapping is zero is in neither list, while
    the mapping has a key for every name the explainer gave a value to,
    zero or not (and holds that value when the schema names are pairwise
    distinct).  When [top_n] is not negative, neither list has more than
    [top_n] entries.
    When no value of the mapping is NaN, each list is in order of
    non-increasing absolute value. *)
Theorem get_feature_importance_ranked (self : predictor)
  (features : dict pyobj) (top_n : Z) (w w' : world) (r : importance) :
  get_feature_importance self features top_n w = (Ok r, w') ->
  (forall e, In e (top_positive_features r) -> (0 <? value e)%float = true) /\
  (forall e, In e (top_negative_features r) -> (value e <? 0)%float = true) /\
  (forall e,
     In e (top_positive_features r) \/ In e (top_negative_features r) ->
     get (shap_values r) (feature e) = Some (value e)) /\
  (forall f v,
     get (shap_values r) f = Some v ->
     (v =? 0)%float = true ->
     forall e,
       In e (top_positive_features r) \/ In e (top_negative_features r) ->
       feature e <> f) /\
  (exists names ex X shap row,
     feature_names self = Some names /\
     explainer self = Some ex /\
     _prepare_features self features w = (Ok X, w) /\
     ex X = Ok shap /\
     nth_error (values shap) 0 = Some row /\
     forall f v,
       In (f, v) (Py.zip names row) ->
       contains (shap_values r) f = true /\
       (NoDup names -> get (shap_values r) f = Some v)) /\
  ((0 <= top_n)%Z ->
   (Z.of_nat (List.length (top_positive_features r)) <= top_n)%Z /\
   (Z.of_nat (List.length (top_negative_features r)) <= top_n)%Z) /\
  ((forall v, In v (PyDict.values (shap_values r)) -> F64.not_nan v) ->
   StronglySorted by_magnitude (top_positive_features r) /\
   StronglySorted by_magnitude (top_negative_features r)).
Proof.
  intros H. apply get_feature_importance_inv in H.
  destruct H as (_ & names & ex & X & shap & row & base
                 & Hn & Hex & HX & Hshap & Hrow & _ & ->).
  cbn [top_positive_features top_negative_features shap_values].
  assert (Hpos : forall e,
    In e (Py.slice_to
            (map to_entry
               (filter (fun x => (0 <? snd x)%float)
                  (Py.sorted_desc (fun x => abs (snd x))
                     (items (of_pairs (Py.zip names row))))))
            top_n) ->
    (0 <? value e)%float = true /\
    get (of_pairs (Py.zip names row)) (feature e) = Some (value e)).
  { intros e He. exact (ranked_entry _ _ _ _ _ He). }
  assert (Hneg : forall e,
    In e (Py.slice_to
            (map to_entry
               (filter (fun x => (snd x <? 0)%float)
                  (Py.sorted_desc (fun x => abs (snd x))
                     (items (of_pairs (Py.zip names row))))))
            top_n) ->
    (value e <? 0)%float = true /\
    get (of_pairs (Py.zip names row)) (feature e) = Some (value e)).
  { intros e He. exact (ranked_entry _ _ _ _ _ He). }
  split; [intros e He; apply (Hpos e He)|].
  split; [intros e He; apply (Hneg e He)|].
  split; [intros e [He|He]; [apply (Hpos e He)|apply (Hneg e He)]|].
  split.
  { intros f v Hget Hzero e He Hf. subst f.
    apply F64Facts.eqb_not_ltb in Hzero. destruct Hzero as [Z1 Z2].
    destruct He as [He|He].
    - destruct (Hpos e He) as [P G]. rewrite G in Hget.
      injection Hget as <-. congruence.
    - destruct (Hneg e He) as [P G]. rewrite G in Hget.
      injection Hget as <-. congruence. }
  split.
  { exists names, ex, X, shap, row. repeat split; trivial.
    - eapply contains_of_pairs; eassumption.
    - intros Hdup. rewrite of_pairs_NoDup by now apply NoDup_keys_zip.
      apply get_In; [now apply NoDup_keys_zip|assumption]. }
  split.
  { intros Hge. split; now apply length_slice_to. }
  intros N. split; now apply ranked_sorted.
Qed.

(** With [top_n = 10] the lists are [a: 2] and [c: -1]. *)
Lemma get_feature_importance_ranked_witness :
  exists r,
    get_feature_importance Demo.loaded (float_map Demo.sparse) 10 Demo.start
    = (Ok r, Demo.start) /\
    top_positive_features r = [mkEntry "a" 2%float] /\
    top_negative_features r = [mkEntry "c" (-1)%float] /\
    (forall e, In e (top_positive_features r) -> (0 <? value e)%float = true) /\
    (Z.of_nat (List.length (top_positive_features r)) <= 10)%Z.
Proof.
  eexists. split; [reflexivity|].
  split; [reflexivity|]. split; [reflexivity|].
  destruct (@get_feature_importance_ranked Demo.loaded
              (float_map Demo.sparse) 10 Demo.start Demo.start _ eq_refl)
    as (Hpos & _ & _ & _ & _ & Hlen & _).
  split; [exact Hpos|]. apply Hlen. lia.
Defined.

(** With [top_n = -1] and the positive attributions 3 and 2, the slice
    drops the smaller one and one entry is left: more than [top_n]. *)
Lemma get_feature_importance_negative_top_n :
  exists r,
    get_feature_importance Demo.two_positive (float_map Demo.sparse) (-1)
      Demo.start
    = (Ok r, Demo.start) /\
    top_positive_features r = [mkEntry "b" 3%float] /\
    ~ (Z.of_nat (List.length (top_positive_features r)) <= -1)%Z.
Proof.
  eexists. split; [reflexivity|]. split; [reflexivity|].
  cbn. lia.
Qed.

(** Comparisons with NaN are all false: on the magnitudes 1, NaN, 2 the
    sort finds nothing out of order and leaves the items as they are, and
    the positive list filtered from them is not in order. *)
Example get_feature_importance_nan_attribution :
  exists r,
    get_feature_importance Demo.nan_attribution (float_map Demo.sparse) 10
      Demo.start
    = (Ok r, Demo.start) /\
    top_positive_features r = [mkEntry "a" 1%float; mkEntry "c" 2%float] /\
    ~ StronglySorted by_magnitude (top_positive_features r).
Proof.
  eexists. split; [reflexivity|]. split; [reflexivity|].
  intros H. inversion H as [|? ? _ Hall]; subst.
  inversion Hall as [|? ? Hle _]; subst.
  vm_compute in Hle. discriminate Hle.
Qed.

(** C5 (load).  When the model, the explainer and the feature names
    load and the threshold file is absent, construction succeeds with
    threshold 0.5, the absence is logged as a warning, and start-up
    succeeds.  When one of the three artifacts fails to load, its error
    is raised by the constructor, by [get_predictor] and by the start-up
    hook, after being logged, and the global stays unset. *)
Theorem load_artifacts_threshold_optional (w : world) :
  (forall m ex names,
     model_file (fs w) = Holds m ->
     explainer_file (fs w) = Holds ex ->
     feature_names_file (fs w) = Holds names ->
     threshold_file (fs w) = Missing ->
     exists p w',
       CreditScorePredictor w = (Ok p, w') /\
       threshold p = JNum 0.5%float /\
       model p = m /\ explainer p = Some ex /\
       feature_names p = Some names /\
       In (WARNING, "Threshold file not found, using default:") (log w') /\
       (forall msg, In (ERROR, msg) (log w') -> In (ERROR, msg) (log w)) /\
       (_predictor w = None ->
        fst (get_predictor w) = Ok p /\ fst (lifespan_startup w) = Ok tt)) /\
  (load_error (model_file (fs w)) <> None \/
   load_error (explainer_file (fs w)) <> None \/
   load_error (feature_names_file (fs w)) <> None ->
   exists e,
     artifact_error (fs w) = Some e /\
     fst (CreditScorePredictor w) = Raise e /\
     In (ERROR, "Error loading artifacts:")
        (log (snd (CreditScorePredictor w))) /\
     (_predictor w = None ->
      fst (get_predictor w) = Raise e /\
      _predictor (snd (get_predictor w)) = None /\
      fst (lifespan_startup w) = Raise e /\
      _predictor (snd (lifespan_startup w)) = None)).
Proof.
  split.
  - intros m ex names Hm Hex Hn Ht.
    pose proof (CreditScorePredictor_no_threshold_file w Hm Hex Hn Ht) as H.
    eexists; eexists; split; [exact H|].
    cbn [threshold model explainer feature_names log].
    do 4 (split; [reflexivity|]).
    split; [apply in_or_app; right; cbn; tauto|].
    split.
    + intros msg Hin. apply in_app_or in Hin.
      destruct Hin as [Hin|Hin]; [exact Hin|].
      cbn in Hin. exfalso.
      repeat (destruct Hin as [Hin|Hin]; [discriminate Hin|]). exact Hin.
    + intros Hg. split.
      * rewrite get_predictor_run, Hg, H. reflexivity.
      * rewrite lifespan_startup_run, get_predictor_run.
        cbn [add_logs _predictor]. rewrite Hg.
        rewrite (CreditScorePredictor_no_threshold_file
                   (add_logs [(INFO, "Starting up API...")] w) Hm Hex Hn Ht).
        reflexivity.
  - intros Hfail.
    assert (He : exists e, artifact_error (fs w) = Some e).
    { unfold artifact_error.
      destruct (load_error (model_file (fs w))); [eauto|].
      destruct (load_error (explainer_file (fs w))); [eauto|].
      destruct (load_error (feature_names_file (fs w))); [eauto|].
      exfalso. destruct Hfail as [F|[F|F]]; now apply F. }
    destruct He as [e He]. exists e. split; [exact He|].
    destruct (CreditScorePredictor_artifact_error w He) as (t & l & H).
    rewrite H. cbn [fst snd log]. split; [reflexivity|]. split.
    { apply in_or_app. right. apply in_or_app. right. cbn. tauto. }
    intros Hg.
    rewrite get_predictor_run, Hg, H. cbn [fst snd _predictor].
    repeat split; trivial.
    + rewrite lifespan_startup_run, get_predictor_run.
      cbn [add_logs _predictor]. rewrite Hg.
      destruct (CreditScorePredictor_artifact_error
                  (add_logs [(INFO, "Starting up API...")] w) He)
        as (t' & l' & H').
      cbn [add_logs] in H'. rewrite H'. reflexivity.
    + rewrite lifespan_startup_run, get_predictor_run.
      cbn [add_logs _predictor]. rewrite Hg.
      destruct (CreditScorePredictor_artifact_error
                  (add_logs [(INFO, "Starting up API...")] w) He)
        as (t' & l' & H').
      cbn [add_logs] in H'. rewrite H'. cbn. exact Hg.
Qed.

(** An absent threshold file, and an absent model file. *)
Lemma load_artifacts_threshold_optional_witness :
  (exists p w',
     CreditScorePredictor Demo.start = (Ok p, w') /\
     threshold p = JNum 0.5%float) /\
  fst (get_predictor Demo.no_model) = Raise FileNotFoundError /\
  _predictor (snd (get_predictor Demo.no_model)) = None /\
  fst (lifespan_startup Demo.no_model) = Raise FileNotFoundError.
Proof.
  split.
  - destruct (proj1 (load_artifacts_threshold_optional Demo.start)
                (Some Demo.stub_model) Demo.stub_explainer Demo.schema
                eq_refl eq_refl eq_refl eq_refl)
      as (p & w' & H & Ht & _).
    exists p, w'. split; assumption.
  - assert (Hfail : load_error (model_file (fs Demo.no_model)) <> None
                    \/ load_error (explainer_file (fs Demo.no_model)) <> None
                    \/ load_error (feature_names_file (fs Demo.no_model))
                       <> None).
    { left. cbn. discriminate. }
    destruct (proj2 (load_artifacts_threshold_optional Demo.no_model) Hfail)
      as (e & He & _ & _ & Hg).
    cbn in He. injection He as <-.
    destruct (Hg eq_refl) as (H1 & H2 & H3 & _).
    repeat split; assumption.
Defined.

(** C6 (the empty map, as the code has it).  [_prepare_features] accepts
    the empty map: it returns one row of NaN, as long as the schema, and
    raises nothing; [predict_proba] then scores that row.  The empty map
    is refused earlier, by the request layer's validator, with
    [ValueError]. *)
Theorem prepare_features_empty_map (self : predictor) (names : list string)
  (w : world) :
  feature_names self = Some names ->
  _prepare_features self [] w = (Ok [repeat nan (List.length names)], w) /\
  (forall e, fst (_prepare_features self [] w) <> Raise e) /\
  (forall m out p_no p,
     model self = Some m ->
     m [repeat nan (List.length names)] = Ok out ->
     nth_error out 0 = Some [p_no; p] ->
     predict_proba self [] w = (Ok (p_no, p), w)) /\
  validate_features [] w = (Raise ValueError, w).
Proof.
  intros Hn.
  assert (E : _prepare_features self [] w
              = (Ok [repeat nan (List.length names)], w)).
  { rewrite prepare_features_run, Hn.
    assert (R : lookup_row names [] = Ok (repeat nan (List.length names))).
    { clear Hn. induction names as [|n names IH]; cbn; [reflexivity|].
      cbn in IH. now rewrite IH. }
    now rewrite R. }
  split; [exact E|]. split; [rewrite E; discriminate|].
  split; [|reflexivity].
  intros m out p_no p Hm Hout Hrow.
  unfold predict_proba, try_except. unfold bind at 1. rewrite E.
  rewrite Hm. unfold bind at 1. unfold lift. rewrite Hout.
  unfold bind at 1. unfold getitem at 1. rewrite Hrow. reflexivity.
Qed.

(** The empty map gives three NaN. *)
Lemma prepare_features_empty_map_witness :
  feature_names Demo.loaded = Some Demo.schema /\
  _prepare_features Demo.loaded [] Demo.start
  = (Ok [[nan; nan; nan]], Demo.start).
Proof.
  split; [reflexivity|].
  exact (proj1 (@prepare_features_empty_map Demo.loaded Demo.schema
                  Demo.start eq_refl)).
Defined.

(** The empty map raises nothing, so no [EmptyInputError] either. *)
Lemma prepare_features_empty_map_returns :
  fst (_prepare_features Demo.loaded [] Demo.start) = Ok [[nan; nan; nan]] /\
  fst (_prepare_features Demo.loaded [] Demo.start)
  <> Raise (Raised "EmptyInputError").
Proof. split; [reflexivity|discriminate]. Qed.

(** C7 (failures of scoring, as the code has them).  When the conversion
    of a stored value fails, or the model rejects the vector, with an
    exception [e], then [predict_proba] logs one error record and raises
    that same [e] to its caller; no score is returned.  A value under a
    schema name that cannot be converted always makes the call fail. *)
Theorem predict_proba_propagates (self : predictor) (features : dict pyobj)
  (w : world) :
  (forall e,
     fst (_prepare_features self features w) = Raise e ->
     predict_proba self features w
     = (Raise e, add_logs [(ERROR, "Error in predict_proba:")] w)) /\
  (forall X m e,
     fst (_prepare_features self features w) = Ok X ->
     model self = Some m ->
     m X = Raise e ->
     predict_proba self features w
     = (Raise e, add_logs [(ERROR, "Error in predict_proba:")] w)) /\
  (forall names n v e,
     feature_names self = Some names ->
     In n names ->
     get features n = Some v ->
     np_float64 v = Raise e ->
     exists e',
       predict_proba self features w
       = (Raise e', add_logs [(ERROR, "Error in predict_proba:")] w)).
Proof.
  destruct (pure_prepare_features self features) as [v Hv].
  split; [|split].
  - intros e He. rewrite Hv in He. cbn in He. subst v.
    unfold predict_proba.
    apply (try_log_run _ "Error in predict_proba:" (r := Raise e)).
    intros w0. unfold bind. now rewrite Hv.
  - intros X m e HX Hm He. rewrite Hv in HX. cbn in HX. subst v.
    unfold predict_proba.
    apply (try_log_run _ "Error in predict_proba:" (r := Raise e)).
    intros w0. unfold bind. rewrite Hv, Hm. unfold lift. now rewrite He.
  - intros names n x e Hn Hin Hget Hx.
    assert (Hrow : exists e', lookup_row names features = Raise e').
    { clear Hn. induction names as [|n' names IH]; [contradiction|].
      cbn. destruct Hin as [->|Hin].
      - rewrite Hget, Hx. eauto.
      - destruct (match get features n' with
                  | Some v0 => np_float64 v0
                  | None => Ok nan
                  end); [|eauto].
        destruct (IH Hin) as [e' ->]. eauto. }
    destruct Hrow as [e' Hrow]. exists e'.
    unfold predict_proba.
    apply (try_log_run _ "Error in predict_proba:" (r := Raise e')).
    intros w0. unfold bind.
    now rewrite prepare_features_run, Hn, Hrow.
Qed.

(** A string that is no number, and a vector of the wrong shape. *)
Lemma predict_proba_propagates_witness :
  predict_proba Demo.loaded Demo.invalid Demo.start
  = (Raise ValueError,
     add_logs [(ERROR, "Error in predict_proba:")] Demo.start) /\
  predict_proba Demo.misshapen (float_map Demo.sparse) Demo.start
  = (Raise ValueError,
     add_logs [(ERROR, "Error in predict_proba:")] Demo.start).
Proof.
  split.
  - exact (proj1 (predict_proba_propagates Demo.loaded Demo.invalid
                    Demo.start) ValueError eq_refl).
  - exact (proj1 (proj2 (predict_proba_propagates Demo.misshapen
                           (float_map Demo.sparse) Demo.start))
             [[1%float; nan]] Demo.stub_model ValueError
             eq_refl eq_refl eq_refl).
Defined.

(** What reaches the caller is numpy's [ValueError], not a
    [ScoringError]. *)
Lemma predict_proba_raises_ValueError :
  fst (predict_proba Demo.loaded Demo.invalid Demo.start) = Raise ValueError /\
  fst (predict_proba Demo.loaded Demo.invalid Demo.start)
  <> Raise (Raised "ScoringError").
Proof. split; [reflexivity|discriminate]. Qed.

(** C8 (determinism).  [predict_proba], which vectorizes the map and
    scores the vector, gives the same outcome from any two states of the
    process, in particular when it is called a second time after the
    first call; it never touches the files, the global or the loaded
    object, a successful call leaves the state exactly as it was, and a
    failed call only appends its error record to the log. *)
Theorem predict_proba_deterministic (self : predictor) (features : dict pyobj)
  (w1 w2 : world) :
  fst (predict_proba self features w1) = fst (predict_proba self features w2) /\
  fst (predict_proba self features (snd (predict_proba self features w1)))
  = fst (predict_proba self features w1) /\
  fst (_prepare_features self features w1)
  = fst (_prepare_features self features w2) /\
  snd (_prepare_features self features w1) = w1 /\
  (forall r, fst (predict_proba self features w1) = Ok r ->
     snd (predict_proba self features w1) = w1) /\
  (let w1' := snd (predict_proba self features w1) in
   fs w1' = fs w1 /\ _predictor w1' = _predictor w1 /\
   next_id w1' = next_id w1 /\ trace w1' = trace w1 /\
   exists l, log w1' = (log w1 ++ l)%list).
Proof.
  destruct (predict_proba_run self features) as [r H].
  destruct (pure_prepare_features self features) as [v Hv].
  rewrite !H, !Hv. cbn [fst snd].
  repeat split; trivial.
  - intros r' ->. reflexivity.
  - destruct r; reflexivity.
  - destruct r; reflexivity.
  - destruct r; reflexivity.
  - destruct r; reflexivity.
  - destruct r; [exists []; now rewrite app_nil_r|eexists; reflexivity].
Qed.



(** C10 (threshold file without the field).  When the three artifacts
    load and the threshold file decodes to an object that has no
    'threshold' key, construction succeeds and the threshold is 0.5; the
    object built is the one an absent threshold file gives, and neither a
    warning nor an error is logged.  A threshold file that cannot be
    decoded, in contrast, makes construction fail. *)
Theorem load_artifacts_threshold_field_missing (w : world)
  (m : option Model) (ex : Explainer) (names : list string)
  (d : list (string * json)) :
  model_file (fs w) = Holds m ->
  explainer_file (fs w) = Holds ex ->
  feature_names_file (fs w) = Holds names ->
  threshold_file (fs w) = Holds (JObj d) ->
  get d "threshold" = None ->
  exists p w',
    CreditScorePredictor w = (Ok p, w') /\
    threshold p = JNum 0.5%float /\
    fst (CreditScorePredictor (with_threshold_file Missing w)) = Ok p /\
    (forall lv msg,
       In (lv, msg) (log w') -> In (lv, msg) (log w) \/ lv = INFO) /\
    (forall e,
       fst (CreditScorePredictor (with_threshold_file (Unreadable e) w))
       = Raise e).
Proof.
  intros Hm Hex Hn Ht Hd.
  pose proof (CreditScorePredictor_threshold_object w Hm Hex Hn Ht) as H.
  rewrite Hd in H.
  eexists; eexists; split; [exact H|].
  cbn [threshold log]. split; [reflexivity|]. split; [|split].
  - rewrite (@CreditScorePredictor_no_threshold_file
               (with_threshold_file Missing w) m ex names);
      try reflexivity; assumption.
  - intros lv msg Hin. apply in_app_or in Hin.
    destruct Hin as [Hin|Hin]; [now left|right].
    cbn in Hin.
    repeat (destruct Hin as [Hin|Hin]; [now injection Hin as <- _|]).
    contradiction.
  - intros e.
    apply (@CreditScorePredictor_threshold_unreadable
             (with_threshold_file (Unreadable e) w) m ex names e);
      try reflexivity; assumption.
Qed.

(** A threshold file that holds only the cost constants. *)
Lemma load_artifacts_threshold_field_missing_witness :
  exists p w',
    CreditScorePredictor Demo.no_field = (Ok p, w') /\
    threshold p = JNum 0.5%float.
Proof.
  destruct (@load_artifacts_threshold_field_missing Demo.no_field
              (Some Demo.stub_model) Demo.stub_explainer Demo.schema
              [("fn_cost", JNum 1%float); ("fp_cost", JNum 10%float)]
              eq_refl eq_refl eq_refl eq_refl eq_refl)
    as (p & w' & H & Ht & _).
  exists p, w'. split; assumption.
Defined.

(* ================================================================== *)
(** * Further properties of the code *)

(** ** More on binary64 comparison *)

Module F64More.
Import F64.

Ltac ranks :=
  unfold key in *;
  repeat match goal with
         | |- context [rank (Prim2SF ?x)] =>
             destruct (rank (Prim2SF x)) as [[? ?] ?]
         | H : context [rank (Prim2SF ?x)] |- _ =>
             destruct (rank (Prim2SF x)) as [[? ?] ?]
         end;
  cbn in *.

Lemma leb_ltb_trans (x y z : float) :
  (x <=? y)%float = true -> (y <? z)%float = true -> (x <? z)%float = true.
Proof.
  intros A B. apply F64Facts.leb_iff in A. apply F64Facts.ltb_iff in B.
  destruct A as (Nx & Ny & A), B as (_ & Nz & B).
  apply F64Facts.ltb_iff. repeat split; trivial. ranks. lia.
Qed.

Lemma ltb_asym (x y : float) :
  (x <? y)%float = true -> (y <? x)%float = false.
Proof.
  intros A. apply not_true_is_false. intros B.
  apply F64Facts.ltb_iff in A, B.
  destruct A as (_ & _ & A), B as (_ & _ & B). ranks. lia.
Qed.

(** A key that compares equal to [x] is not equal to a key above it. *)
Lemma eqb_ltb_neq (a x y : float) :
  (a =? x)%float = true -> (a <? y)%float = true -> (y =? x)%float = false.
Proof.
  intros A B. apply not_true_is_false. intros C.
  apply F64Facts.eqb_iff in A, C. apply F64Facts.ltb_iff in B.
  destruct A as (_ & _ & A), B as (_ & _ & B), C as (_ & _ & C).
  ranks. lia.
Qed.

End F64More.

(* ------------------------------------------------------------------ *)
(** ** The constructor *)

(** What a successful construction has read. *)
Lemma CreditScorePredictor_Ok_inv (w w' : world) (p : predictor) :
  CreditScorePredictor w = (Ok p, w') ->
  exists m ex names,
    model_file (fs w) = Holds m /\
    explainer_file (fs w) = Holds ex /\
    feature_names_file (fs w) = Holds names /\
    ((threshold_file (fs w) = Missing /\
      p = mkPredictor (next_id w) m (Some ex) (Some names)
                      (JNum DEFAULT_THRESHOLD)) \/
     (exists d,
        threshold_file (fs w) = Holds (JObj d) /\
        p = mkPredictor (next_id w) m (Some ex) (Some names)
              (match get d "threshold" with
               | Some v => v
               | None => JNum DEFAULT_THRESHOLD
               end))).
Proof.
  intros H.
  destruct (model_file (fs w)) as [|e1|m] eqn:Hm.
  { rewrite (@CreditScorePredictor_model_error w FileNotFoundError) in H
      by (rewrite Hm; reflexivity). discriminate H. }
  { rewrite (@CreditScorePredictor_model_error w e1) in H
      by (rewrite Hm; reflexivity). discriminate H. }
  destruct (explainer_file (fs w)) as [|e2|ex] eqn:Hex.
  { rewrite (@CreditScorePredictor_explainer_error w m FileNotFoundError Hm)
      in H by (rewrite Hex; reflexivity). discriminate H. }
  { rewrite (@CreditScorePredictor_explainer_error w m e2 Hm) in H
      by (rewrite Hex; reflexivity). discriminate H. }
  destruct (feature_names_file (fs w)) as [|e3|names] eqn:Hn.
  { rewrite (@CreditScorePredictor_feature_names_error w m ex
               FileNotFoundError Hm Hex) in H
      by (rewrite Hn; reflexivity). discriminate H. }
  { rewrite (@CreditScorePredictor_feature_names_error w m ex e3 Hm Hex)
      in H by (rewrite Hn; reflexivity). discriminate H. }
  exists m, ex, names. repeat split; trivial.
  destruct (threshold_file (fs w)) as [|e4|j] eqn:Ht.
  - left. split; [reflexivity|].
    rewrite (CreditScorePredictor_no_threshold_file w Hm Hex Hn Ht) in H.
    now injection H as <- _.
  - pose proof (CreditScorePredictor_threshold_unreadable w Hm Hex Hn Ht)
      as E.
    rewrite H in E. discriminate E.
  - destruct j as [ |b|x|s0|l|d].
    6:{ right. exists d. split; [reflexivity|].
        rewrite (CreditScorePredictor_threshold_object w Hm Hex Hn Ht) in H.
        now injection H as <- _. }
    all: pose proof (@CreditScorePredictor_threshold_not_object w m ex names
                       _ Hm Hex Hn Ht) as E;
      rewrite H in E; cbn [fst] in E;
      assert (F : Ok p = Raise AttributeError) by (apply E; discriminate);
      discriminate F.
Qed.

(** X1.  An object that the constructor returns holds what the files
    hold: its model is the object the model file decodes to, which may
    be [None], and its explainer and feature names are those of their
    files.  [is_loaded] answers whether that model is something other
    than [None], so an object can be constructed and yet not be loaded.
    Its identity is fresh, and its threshold is the default when the
    threshold file is absent or has no 'threshold' key, and the value
    under that key otherwise. *)
Theorem constructed_predictor_holds_the_files (w w' : world)
  (p : predictor) :
  CreditScorePredictor w = (Ok p, w') ->
  (exists m ex names,
     model p = m /\ model_file (fs w) = Holds m /\
     explainer p = Some ex /\ explainer_file (fs w) = Holds ex /\
     feature_names p = Some names /\
     feature_names_file (fs w) = Holds names /\
     is_loaded p w'
     = (Ok (match m with Some _ => true | None => false end), w')) /\
  obj_id p = next_id w /\
  threshold p
  = match threshold_file (fs w) with
    | Holds (JObj d) =>
        match get d "threshold" with
        | Some v => v
        | None => JNum DEFAULT_THRESHOLD
        end
    | _ => JNum DEFAULT_THRESHOLD
    end.
Proof.
  intros H. apply CreditScorePredictor_Ok_inv in H.
  destruct H as (m & ex & names & Hm & Hex & Hn & H).
  destruct H as [[Ht ->]|(d & Ht & ->)]; rewrite Ht;
    (split; [exists m, ex, names; repeat split; assumption|]);
    repeat split; reflexivity.
Qed.

(** A model file that holds the pickle of [None]: the object is built,
    and is not loaded. *)
Lemma constructed_predictor_holds_the_files_witness :
  exists p w',
    CreditScorePredictor Demo.no_object = (Ok p, w') /\
    model p = None /\
    is_loaded p w' = (Ok false, w') /\
    feature_names p = Some Demo.schema.
Proof.
  eexists. eexists. split; [vm_compute; reflexivity|].
  edestruct (@constructed_predictor_holds_the_files Demo.no_object)
    as [(m & ex & names & Hm & Hf & _ & _ & Hn & _ & Hl) _];
    [vm_compute; reflexivity|].
  assert (E : m = None) by (vm_compute in Hf; now injection Hf).
  rewrite E in Hm, Hl. split; [exact Hm|]. split; [exact Hl|].
  vm_compute. reflexivity.
Defined.

(* ------------------------------------------------------------------ *)
(** ** The decision *)

Lemma predict_after_Ok (self : predictor) (features : dict pyobj)
  (threshold_arg : option float) (w w' : world) (pr : float * float) :
  predict_proba self features w = (Ok pr, w') ->
  predict self features threshold_arg w
  = match (match threshold_arg with
           | Some t => JNum t
           | None => threshold self
           end) with
    | JNum x => (Ok (verdict (x <? snd pr)%float), w')
    | JBool b => (Ok (verdict ((if b then 1 else 0) <? snd pr)%float), w')
    | _ => (Raise TypeError, add_logs [(ERROR, "Error in predict:")] w')
    end.
Proof.
  intros H. unfold predict, try_except. unfold bind at 1. rewrite H.
  destruct (match threshold_arg with
            | Some t => JNum t
            | None => threshold self
            end) as [ |b|x|s|l|d]; cbn; try reflexivity.
  - destruct ((if b then 1 else 0) <? snd pr)%float; reflexivity.
  - destruct (x <? snd pr)%float; reflexivity.
Qed.

Lemma predict_after_Raise (self : predictor) (features : dict pyobj)
  (threshold_arg : option float) (w w' : world) (e : exn) :
  predict_proba self features w = (Raise e, w') ->
  predict self features threshold_arg w
  = (Raise e, add_logs [(ERROR, "Error in predict:")] w').
Proof.
  intros H. unfold predict, try_except. unfold bind at 1. rewrite H.
  reflexivity.
Qed.

(** X2.  The threshold file is not validated: whatever JSON value stands
    under 'threshold' becomes the threshold of the object.  When that
    value is neither a number nor a boolean, a call of [predict] without
    a threshold of its own fails with [TypeError] after a successful
    scoring, and a call that brings its own threshold still decides. *)
Theorem threshold_is_not_validated (w w' : world) (p : predictor)
  (d : list (string * json)) (v : json) :
  threshold_file (fs w) = Holds (JObj d) ->
  get d "threshold" = Some v ->
  CreditScorePredictor w = (Ok p, w') ->
  threshold p = v /\
  ((forall x, v <> JNum x) -> (forall b, v <> JBool b) ->
   forall (features : dict pyobj) (w0 : world) (pr : float * float),
     predict_proba p features w0 = (Ok pr, w0) ->
     predict p features None w0
     = (Raise TypeError, add_logs [(ERROR, "Error in predict:")] w0) /\
     forall t, predict p features (Some t) w0
               = (Ok (verdict (t <? snd pr)%float), w0)).
Proof.
  intros Ht Hv H. apply CreditScorePredictor_Ok_inv in H.
  destruct H as (m & ex & names & _ & _ & _ & H).
  destruct H as [[Ht' _]|(d' & Ht' & ->)]; rewrite Ht in Ht';
    [discriminate Ht'|].
  injection Ht' as <-. rewrite Hv. cbn [threshold].
  split; [reflexivity|].
  intros Hnum Hbool features w0 pr Hp. split.
  - rewrite (@predict_after_Ok _ _ None _ _ _ Hp). cbn [threshold].
    destruct v as [ |b|x|s|l|d0]; try reflexivity.
    + now destruct (Hbool b).
    + now destruct (Hnum x).
  - intros t. now rewrite (@predict_after_Ok _ _ (Some t) _ _ _ Hp).
Qed.

Lemma threshold_is_not_validated_witness :
  exists p w',
    CreditScorePredictor Demo.text_threshold = (Ok p, w') /\
    threshold p = JStr "0.5" /\
    predict p (float_map Demo.sparse) None Demo.start
    = (Raise TypeError,
       add_logs [(ERROR, "Error in predict:")] Demo.start) /\
    predict p (float_map Demo.sparse) (Some 0.8%float) Demo.start
    = (Ok (0%Z, "APPROVED"), Demo.start).
Proof.
  edestruct (@threshold_is_not_validated Demo.text_threshold) as [Hv H];
    [reflexivity | reflexivity | vm_compute; reflexivity | ].
  eexists. eexists. split; [vm_compute; reflexivity|].
  split; [exact Hv|].
  edestruct (H ltac:(discriminate) ltac:(discriminate)
               (float_map Demo.sparse) Demo.start) as [H1 H2];
    [vm_compute; reflexivity|].
  split; [exact H1|]. exact (H2 0.8%float).
Defined.

(** X3.  [predict] has three kinds of outcomes and no other: the pair
    (1, "REJECTED"), the pair (0, "APPROVED"), both with the state left
    as it was, or an exception.  The exception is either the one
    [predict_proba] raised, logged by both methods, or the [TypeError]
    of a comparison with a threshold that is no number, logged once. *)
Theorem predict_outcomes (self : predictor) (features : dict pyobj)
  (threshold_arg : option float) (w : world) :
  match predict self features threshold_arg w with
  | (Ok decided, w') =>
      w' = w /\
      (decided = (1%Z, "REJECTED") \/ decided = (0%Z, "APPROVED"))
  | (Raise e, w') =>
      (fst (predict_proba self features w) = Raise e /\
       w' = add_logs [(ERROR, "Error in predict_proba:");
                      (ERROR, "Error in predict:")] w) \/
      (e = TypeError /\
       (exists pr, fst (predict_proba self features w) = Ok pr) /\
       w' = add_logs [(ERROR, "Error in predict:")] w)
  end.
Proof.
  destruct (predict_proba_run self features) as [r H].
  destruct r as [pr|e].
  - rewrite (@predict_after_Ok _ _ threshold_arg _ _ _ (H w)).
    destruct (match threshold_arg with
              | Some t => JNum t
              | None => threshold self
              end) as [ |b|x|s|l|d];
      try (right; rewrite H; cbn [fst]; repeat split; eauto; fail).
    + split; [reflexivity|]. unfold verdict.
      destruct ((if b then 1 else 0) <? snd pr)%float; auto.
    + split; [reflexivity|]. unfold verdict.
      destruct (x <? snd pr)%float; auto.
  - rewrite (@predict_after_Raise _ _ threshold_arg _ _ _ (H w)).
    left. rewrite H. cbn [fst]. split; [reflexivity|].
    now rewrite add_logs_app.
Qed.

(** X4.  Raising the threshold never turns an approval into a rejection:
    when [t1 <= t2] and [predict] rejects against [t2], it rejects
    against [t1]; and when it approves against [t1], it approves against
    [t2]. *)
Theorem predict_threshold_monotone (self : predictor)
  (features : dict pyobj) (w : world) (t1 t2 : float) :
  (t1 <=? t2)%float = true ->
  (fst (predict self features (Some t2) w) = Ok (1%Z, "REJECTED") ->
   fst (predict self features (Some t1) w) = Ok (1%Z, "REJECTED")) /\
  (fst (predict self features (Some t1) w) = Ok (0%Z, "APPROVED") ->
   fst (predict self features (Some t2) w) = Ok (0%Z, "APPROVED")).
Proof.
  intros Hle.
  destruct (predict_proba_run self features) as [r H].
  destruct r as [pr|e].
  - rewrite (@predict_after_Ok _ _ (Some t1) _ _ _ (H w)),
            (@predict_after_Ok _ _ (Some t2) _ _ _ (H w)).
    cbn [fst]. unfold verdict.
    destruct (t2 <? snd pr)%float eqn:L2.
    + rewrite (F64More.leb_ltb_trans Hle L2). split; auto.
    + destruct (t1 <? snd pr)%float; split; auto; discriminate.
  - rewrite (@predict_after_Raise _ _ (Some t1) _ _ _ (H w)),
            (@predict_after_Raise _ _ (Some t2) _ _ _ (H w)).
    cbn [fst]. split; discriminate.
Qed.

Lemma predict_threshold_monotone_witness :
  (0.5 <=? 0.6)%float = true /\
  fst (predict Demo.loaded (float_map Demo.sparse) (Some 0.6%float)
         Demo.start) = Ok (1%Z, "REJECTED") /\
  fst (predict Demo.loaded (float_map Demo.sparse) (Some 0.5%float)
         Demo.start) = Ok (1%Z, "REJECTED").
Proof.
  split; [vm_compute; reflexivity|]. split; [vm_compute; reflexivity|].
  refine (proj1 (@predict_threshold_monotone Demo.loaded
                   (float_map Demo.sparse) Demo.start
                   0.5%float 0.6%float _) _); vm_compute; reflexivity.
Defined.

(* ------------------------------------------------------------------ *)
(** ** The ranked lists *)

Section RankingFacts.
Variable A : Type.

Lemma Permutation_insert_desc (k : A -> float) (x : A) (l : list A) :
  Permutation (Py.insert_desc k x l) (x :: l).
Proof.
  induction l as [|y l IH]; cbn; [reflexivity|].
  destruct (k x <? k y)%float; [|reflexivity].
  rewrite IH. apply perm_swap.
Qed.

Lemma Permutation_sorted_desc (k : A -> float) (l : list A) :
  Permutation (Py.sorted_desc k l) l.
Proof.
  induction l as [|x l IH]; [reflexivity|].
  change (Py.sorted_desc k (x :: l))
    with (Py.insert_desc k x (Py.sorted_desc k l)).
  rewrite Permutation_insert_desc. now constructor.
Qed.

Lemma filter_Permutation (f : A -> bool) (l l' : list A) :
  Permutation l l' -> Permutation (filter f l) (filter f l').
Proof.
  induction 1 as [|x l l' _ IH|x y l|l1 l2 l3 _ IH1 _ IH2]; cbn.
  - reflexivity.
  - destruct (f x); [now constructor|exact IH].
  - destruct (f x), (f y); try reflexivity. apply perm_swap.
  - now rewrite IH1.
Qed.

Lemma StronglySorted_app_inv (R : A -> A -> Prop) (l1 l2 : list A) :
  StronglySorted R (l1 ++ l2)%list ->
  forall a b, In a l1 -> In b l2 -> R a b.
Proof.
  induction l1 as [|x l1 IH]; cbn; intros H a b Ha Hb; [destruct Ha|].
  inversion H as [|? ? Hs Hall]; subst.
  destruct Ha as [->|Ha]; [|now apply IH].
  rewrite Forall_forall in Hall. apply Hall, in_or_app. now right.
Qed.

(** [l[:n]] for [n >= 0] keeps the head of [l]: what it drops comes
    after all it keeps. *)
Lemma slice_to_head (R : A -> A -> Prop) (l : list A) (n : Z) :
  (0 <= n)%Z ->
  List.length (Py.slice_to l n) = Nat.min (Z.to_nat n) (List.length l) /\
  forall x, In x l ->
    In x (Py.slice_to l n) \/
    (List.length (Py.slice_to l n) = Z.to_nat n /\
     (StronglySorted R l -> forall y, In y (Py.slice_to l n) -> R y x)).
Proof.
  intros Hn. unfold Py.slice_to.
  destruct (Z.leb_spec 0 n) as [_|]; [|lia].
  split; [apply length_firstn|].
  intros x Hx. rewrite <- (firstn_skipn (Z.to_nat n) l) in Hx.
  apply in_app_or in Hx. destruct Hx as [Hx|Hx]; [now left|right].
  split.
  - rewrite length_firstn. apply Nat.min_l.
    destruct (Nat.le_gt_cases (Z.to_nat n) (List.length l)) as [L|L];
      [exact L|].
    rewrite skipn_all2 in Hx by lia. destruct Hx.
  - intros Hs y Hy.
    rewrite <- (firstn_skipn (Z.to_nat n) l) in Hs.
    exact (@StronglySorted_app_inv R _ _ Hs _ _ Hy Hx).
Qed.

Lemma NoDup_map_filter {B : Type} (g : A -> B) (f : A -> bool)
  (l : list A) :
  NoDup (map g l) -> NoDup (map g (filter f l)).
Proof.
  induction l as [|x l IH]; cbn; [trivial|].
  intros H. inversion H as [|? ? Hx Hl]; subst.
  destruct (f x); [|now apply IH].
  cbn. constructor; [|now apply IH].
  intros Hin. apply Hx. apply in_map_iff in Hin.
  destruct Hin as (y & E & Hy). apply filter_In in Hy.
  apply in_map_iff. exists y. tauto.
Qed.

Lemma NoDup_firstn (n : nat) (l : list A) :
  NoDup l -> NoDup (firstn n l).
Proof.
  intros H. revert n.
  induction H as [|x l Hx Hl IH]; intros [|n]; cbn; try constructor.
  - intros Hin. apply Hx. exact (In_firstn _ _ _ Hin).
  - apply IH.
Qed.

Lemma NoDup_slice_to (l : list A) (n : Z) :
  NoDup l -> NoDup (Py.slice_to l n).
Proof.
  unfold Py.slice_to. destruct (0 <=? n)%Z; apply NoDup_firstn.
Qed.

Lemma NoDup_append (l1 l2 : list A) :
  NoDup l1 -> NoDup l2 -> (forall a, In a l1 -> ~ In a l2) ->
  NoDup (l1 ++ l2)%list.
Proof.
  induction 1 as [|x l1 Hx Hl IH]; cbn; intros H2 D; [exact H2|].
  constructor.
  - intros Hin. apply in_app_or in Hin.
    destruct Hin as [Hin|Hin]; [now apply Hx|].
    apply (D x); [now left|exact Hin].
  - apply IH; [exact H2|]. intros a Ha. apply D. now right.
Qed.

Lemma map_slice_to {B : Type} (g : A -> B) (l : list A) (n : Z) :
  map g (Py.slice_to l n) = Py.slice_to (map g l) n.
Proof.
  unfold Py.slice_to. rewrite length_map.
  destruct (0 <=? n)%Z; symmetry; apply firstn_map.
Qed.
End RankingFacts.

(** A ranked list: the items of the mapping that pass [f], by
    decreasing magnitude, cut at [top_n]. *)
Lemma ranked_top (f : string * float -> bool) (d : dict float)
  (top_n : Z) :
  (0 <= top_n)%Z ->
  let l := Py.slice_to
             (map to_entry
                (filter f (Py.sorted_desc (fun x => abs (snd x)) (items d))))
             top_n in
  List.length l
  = Nat.min (Z.to_nat top_n) (List.length (filter f (items d))) /\
  forall x, In x (filter f (items d)) ->
    In (to_entry x) l \/
    (List.length l = Z.to_nat top_n /\
     ((forall v, In v (PyDict.values d) -> F64.not_nan v) ->
      forall e, In e l -> by_magnitude e (to_entry x))).
Proof.
  intros Hn l. subst l.
  set (s := map to_entry
              (filter f (Py.sorted_desc (fun x => abs (snd x)) (items d)))).
  destruct (slice_to_head by_magnitude s Hn) as [Hlen Htop].
  assert (Hs : List.length s = List.length (filter f (items d))).
  { unfold s. rewrite length_map. apply Permutation_length.
    apply filter_Permutation, Permutation_sorted_desc. }
  split; [now rewrite Hlen, Hs|].
  intros x Hx.
  assert (Hin : In (to_entry x) s).
  { unfold s. apply in_map. apply filter_In in Hx. apply filter_In.
    split; [|tauto]. apply In_sorted_desc. tauto. }
  destruct (Htop _ Hin) as [H|[H1 H2]]; [now left|right].
  split; [exact H1|]. intros N. apply H2.
  unfold s. apply StronglySorted_map, StronglySorted_filter.
  apply (sorted_desc_sorted (fun x : string * float => abs (snd x))).
  apply Forall_forall. intros y Hy.
  apply F64Facts.abs_not_nan, N. unfold PyDict.values. now apply in_map.
Qed.

Lemma ranked_names_NoDup (f : string * float -> bool) (d : dict float)
  (top_n : Z) :
  NoDup (keys d) ->
  NoDup (map feature
           (Py.slice_to
              (map to_entry
                 (filter f (Py.sorted_desc (fun x => abs (snd x))
                              (items d))))
              top_n)).
Proof.
  intros H. rewrite map_slice_to. apply NoDup_slice_to.
  rewrite map_map.
  rewrite (map_ext (fun x => feature (to_entry x)) fst)
    by (intros [? ?]; reflexivity).
  apply NoDup_map_filter.
  apply (Permutation_NoDup (l := map fst (items d))); [|exact H].
  apply Permutation_map. symmetry. apply Permutation_sorted_desc.
Qed.

(** X5.  For a [top_n] that is not negative the two lists are the top
    of the ranking and nothing less: each has as many entries as there
    are items of its sign in the mapping, up to [top_n]; and an item of
    that sign which is left out is left out because the list is full,
    and (no value being NaN) has a magnitude no greater than that of any
    entry listed. *)
Theorem top_features_are_the_largest (self : predictor)
  (features : dict pyobj) (top_n : Z) (w w' : world) (r : importance) :
  get_feature_importance self features top_n w = (Ok r, w') ->
  (0 <= top_n)%Z ->
  let positive :=
    filter (fun x => (0 <? snd x)%float) (items (shap_values r)) in
  let negative :=
    filter (fun x => (snd x <? 0)%float) (items (shap_values r)) in
  let no_nan := forall v, In v (PyDict.values (shap_values r)) ->
                          F64.not_nan v in
  List.length (top_positive_features r)
  = Nat.min (Z.to_nat top_n) (List.length positive) /\
  List.length (top_negative_features r)
  = Nat.min (Z.to_nat top_n) (List.length negative) /\
  (forall x, In x positive ->
     In (to_entry x) (top_positive_features r) \/
     (List.length (top_positive_features r) = Z.to_nat top_n /\
      (no_nan -> forall e, In e (top_positive_features r) ->
                           by_magnitude e (to_entry x)))) /\
  (forall x, In x negative ->
     In (to_entry x) (top_negative_features r) \/
     (List.length (top_negative_features r) = Z.to_nat top_n /\
      (no_nan -> forall e, In e (top_negative_features r) ->
                           by_magnitude e (to_entry x)))).
Proof.
  intros H Hn. apply get_feature_importance_inv in H.
  destruct H as (_ & names & ex & X & shap & row & base
                 & _ & _ & _ & _ & _ & _ & ->).
  cbn [top_positive_features top_negative_features shap_values].
  destruct (ranked_top (fun x => (0 <? snd x)%float)
              (of_pairs (Py.zip names row)) Hn) as [P1 P2].
  destruct (ranked_top (fun x => (snd x <? 0)%float)
              (of_pairs (Py.zip names row)) Hn) as [N1 N2].
  repeat split; assumption.
Qed.

Lemma top_features_are_the_largest_witness :
  exists r,
    get_feature_importance Demo.two_positive (float_map Demo.sparse) 1
                           Demo.start
    = (Ok r, Demo.start) /\
    List.length (top_positive_features r) = 1%nat /\
    List.length (top_negative_features r) = 1%nat /\
    (In (mkEntry "a" 2%float) (top_positive_features r) \/
     forall e, In e (top_positive_features r) ->
               by_magnitude e (mkEntry "a" 2%float)).
Proof.
  eexists. split; [vm_compute; reflexivity|].
  edestruct (@top_features_are_the_largest Demo.two_positive
               (float_map Demo.sparse) 1 Demo.start)
    as (H1 & H2 & H3 & _); [vm_compute; reflexivity | lia | ].
  split; [etransitivity; [exact H1|vm_compute; reflexivity]|].
  split; [etransitivity; [exact H2|vm_compute; reflexivity]|].
  destruct (H3 ("a", 2%float)) as [H|[_ H]].
  - vm_compute. left. reflexivity.
  - left. exact H.
  - right. apply H. intros v Hv. vm_compute in Hv.
    repeat (destruct Hv as [<-|Hv]; [vm_compute; reflexivity|]).
    destruct Hv.
Defined.

(** X6.  No feature is listed twice: the names of the entries of the
    two lists taken together are pairwise distinct, whatever [top_n]. *)
Theorem top_features_distinct (self : predictor)
  (features : dict pyobj) (top_n : Z) (w w' : world) (r : importance) :
  get_feature_importance self features top_n w = (Ok r, w') ->
  NoDup (map feature (top_positive_features r ++ top_negative_features r)).
Proof.
  intros H. apply get_feature_importance_inv in H.
  destruct H as (_ & names & ex & X & shap & row & base
                 & _ & _ & _ & _ & _ & _ & ->).
  cbn [top_positive_features top_negative_features].
  rewrite map_app. apply NoDup_append.
  - apply ranked_names_NoDup, NoDup_keys_of_pairs.
  - apply ranked_names_NoDup, NoDup_keys_of_pairs.
  - intros a Hp Hq.
    apply in_map_iff in Hp. destruct Hp as (e1 & E1 & Hp).
    apply in_map_iff in Hq. destruct Hq as (e2 & E2 & Hq).
    apply ranked_entry in Hp. apply ranked_entry in Hq.
    destruct Hp as [S1 G1], Hq as [S2 G2].
    rewrite E1 in G1. rewrite E2, G1 in G2. injection G2 as G2.
    cbn [snd] in S1, S2. rewrite <- G2 in S2.
    rewrite (F64More.ltb_asym S1) in S2. discriminate S2.
Qed.

Lemma top_features_distinct_witness :
  exists r,
    get_feature_importance Demo.loaded (float_map Demo.sparse) 10
                           Demo.start
    = (Ok r, Demo.start) /\
    NoDup (map feature
             (top_positive_features r ++ top_negative_features r)).
Proof.
  eexists. split; [vm_compute; reflexivity|].
  apply (@top_features_distinct Demo.loaded (float_map Demo.sparse) 10
           Demo.start Demo.start).
  vm_compute. reflexivity.
Defined.

(* ------------------------------------------------------------------ *)
(** ** Ties in the ranking *)

Section BeforeFacts.
Variable A : Type.
Implicit Types (x y a : A) (l : list A).

Lemma before_cons x y a l : before x y l -> before x y (a :: l).
Proof.
  intros (l1 & l2 & l3 & ->). now exists (a :: l1), l2, l3.
Qed.

Lemma before_head x y l : In y l -> before x y (x :: l).
Proof.
  intros H. apply in_split in H. destruct H as (l2 & l3 & ->).
  now exists [], l2, l3.
Qed.

Lemma before_cons_inv x y a l :
  before x y (a :: l) -> (x = a /\ In y l) \/ before x y l.
Proof.
  intros (l1 & l2 & l3 & E). destruct l1 as [|b l1]; cbn in E.
  - injection E as <- ->. left. split; [reflexivity|].
    apply in_or_app. right. now left.
  - injection E as _ ->. right. now exists l1, l2, l3.
Qed.

Lemma before_firstn x y (n : nat) l :
  before x y (firstn n l) -> before x y l.
Proof.
  intros (l1 & l2 & l3 & E).
  exists l1, l2, (l3 ++ skipn n l)%list.
  rewrite <- (firstn_skipn n l) at 1. rewrite E.
  rewrite <- !app_assoc. cbn. rewrite <- !app_assoc. reflexivity.
Qed.

Lemma before_slice_to x y l (n : Z) :
  before x y (Py.slice_to l n) -> before x y l.
Proof.
  unfold Py.slice_to. destruct (0 <=? n)%Z; apply before_firstn.
Qed.

Lemma before_filter (f : A -> bool) x y l :
  before x y (filter f l) -> before x y l.
Proof.
  induction l as [|a l IH]; cbn; [trivial|].
  destruct (f a).
  - intros H. apply before_cons_inv in H. destruct H as [[-> H]|H].
    + apply before_head. apply filter_In in H. tauto.
    + apply before_cons, IH, H.
  - intros H. apply before_cons, IH, H.
Qed.

Lemma before_map_inv {B : Type} (g : A -> B) (u v : B) l :
  before u v (map g l) ->
  exists x y, g x = u /\ g y = v /\ before x y l.
Proof.
  intros (m1 & m2 & m3 & E).
  apply map_eq_app in E.
  destruct E as (l1 & r1 & -> & _ & E).
  apply map_eq_cons in E. destruct E as (x & r2 & -> & Hx & E).
  apply map_eq_app in E. destruct E as (l2 & r3 & -> & _ & E).
  apply map_eq_cons in E. destruct E as (y & l3 & -> & Hy & _).
  exists x, y. repeat split; trivial. now exists l1, l2, l3.
Qed.

Variable k : A -> float.

Lemma before_insert_desc x y a l :
  before x y (Py.insert_desc k a l) ->
  before x y l \/ (x = a /\ In y l) \/
  (y = a /\ (k a <? k x)%float = true).
Proof.
  induction l as [|b l IH]; cbn.
  - intros (l1 & l2 & l3 & E). exfalso.
    apply (f_equal (@List.length A)) in E.
    rewrite length_app in E. cbn in E. rewrite length_app in E.
    cbn in E. lia.
  - destruct (k a <? k b)%float eqn:L.
    + intros H. apply before_cons_inv in H. destruct H as [[-> H]|H].
      * apply (proj1 (In_insert_desc k a y l)) in H.
        destruct H as [->|H]; [right; right; tauto|].
        left. now apply before_head.
      * apply IH in H. destruct H as [H|[[-> H]|H]].
        -- left. now apply before_cons.
        -- right. left. split; [reflexivity|now right].
        -- right. right. exact H.
    + intros H. apply before_cons_inv in H. tauto.
Qed.

(** The sort is stable: items with equal keys keep their order. *)
Lemma sorted_desc_stable x y l :
  before x y (Py.sorted_desc k l) ->
  (k x =? k y)%float = true ->
  before x y l.
Proof.
  intros H E. revert H. induction l as [|a l IH]; [trivial|].
  change (Py.sorted_desc k (a :: l))
    with (Py.insert_desc k a (Py.sorted_desc k l)).
  intros H. apply before_insert_desc in H.
  destruct H as [H|[[-> H]|[-> H]]].
  - apply before_cons, IH, H.
  - apply before_head. now apply (proj1 (In_sorted_desc k y l)).
  - apply F64Facts.eqb_not_ltb in E. destruct E as [_ E].
    rewrite E in H. discriminate H.
Qed.
End BeforeFacts.

Lemma ranked_stable (f : string * float -> bool) (d : dict float)
  (top_n : Z) (e1 e2 : entry) :
  before e1 e2
    (Py.slice_to
       (map to_entry
          (filter f (Py.sorted_desc (fun x => abs (snd x)) (items d))))
       top_n) ->
  (abs (value e1) =? abs (value e2))%float = true ->
  before (feature e1, value e1) (feature e2, value e2) (items d).
Proof.
  intros H E. apply before_slice_to, before_map_inv in H.
  destruct H as ([n1 v1] & [n2 v2] & <- & <- & H).
  cbn [to_entry feature value fst snd] in *.
  apply before_filter in H.
  exact (@sorted_desc_stable _ (fun x : string * float => abs (snd x))
           _ _ _ H E).
Qed.

(** X7.  Ties are broken by the order of the mapping: when no value of
    the mapping is NaN and two entries of a list have the same
    magnitude, the one listed first is also the one that comes first
    among the items of the returned mapping, which keeps the order in
    which the feature names were first met.  (With a NaN among the keys
    the comparisons of the sort are no order, and it promises nothing
    about the items around it.) *)
Theorem equal_magnitudes_keep_mapping_order (self : predictor)
  (features : dict pyobj) (top_n : Z) (w w' : world) (r : importance)
  (e1 e2 : entry) :
  get_feature_importance self features top_n w = (Ok r, w') ->
  (forall v, In v (PyDict.values (shap_values r)) -> F64.not_nan v) ->
  before e1 e2 (top_positive_features r) \/
  before e1 e2 (top_negative_features r) ->
  (abs (value e1) =? abs (value e2))%float = true ->
  before (feature e1, value e1) (feature e2, value e2)
         (items (shap_values r)).
Proof.
  intros H _ B E. apply get_feature_importance_inv in H.
  destruct H as (_ & names & ex & X & shap & row & base
                 & _ & _ & _ & _ & _ & _ & ->).
  cbn [top_positive_features top_negative_features shap_values] in *.
  destruct B as [B|B]; exact (ranked_stable _ _ _ B E).
Qed.

Lemma equal_magnitudes_keep_mapping_order_witness :
  exists r,
    get_feature_importance Demo.tied (float_map Demo.sparse) 10 Demo.start
    = (Ok r, Demo.start) /\
    top_positive_features r
    = [mkEntry "b" 3%float; mkEntry "a" 1%float; mkEntry "c" 1%float] /\
    before ("a", 1%float) ("c", 1%float) (items (shap_values r)).
Proof.
  eexists. split; [vm_compute; reflexivity|].
  split; [vm_compute; reflexivity|].
  apply (@equal_magnitudes_keep_mapping_order Demo.tied
           (float_map Demo.sparse) 10 Demo.start Demo.start _
           (mkEntry "a" 1%float) (mkEntry "c" 1%float)).
  - vm_compute. reflexivity.
  - intros v Hv. vm_compute in Hv.
    repeat (destruct Hv as [<-|Hv]; [vm_compute; reflexivity|]).
    destruct Hv.
  - left. exists [mkEntry "b" 3%float], [], []. vm_compute. reflexivity.
  - vm_compute. reflexivity.
Defined.

(* ------------------------------------------------------------------ *)
(** ** Reading the files *)

Lemma CreditScorePredictor_trace (w : world) :
  trace (snd (CreditScorePredictor w))
  = (trace w ++
     Open MODEL_PATH ::
     match model_file (fs w) with
     | Holds _ =>
         Open EXPLAINER_PATH ::
         match explainer_file (fs w) with
         | Holds _ =>
             Open FEATURE_NAMES_PATH ::
             match feature_names_file (fs w) with
             | Holds _ =>
                 Exists THRESHOLD_PATH ::
                 match threshold_file (fs w) with
                 | Missing => []
                 | _ => [Open THRESHOLD_PATH]
                 end
             | _ => []
             end
         | _ => []
         end
     | _ => []
     end)%list.
Proof.
  destruct w as [[mf ef nf tf] g id tr lg].
  destruct mf as [|e1|m]; [| |destruct ef as [|e2|ex];
    [| |destruct nf as [|e3|names];
      [| |destruct tf as [|e4|[ |b|x|s|l|d]]]]];
  run_load; rewrite <- ?app_assoc; reflexivity.
Qed.

(** X8.  The constructor reads the files in one fixed order and stops
    at the first that fails: the model, then the explainer, then the
    feature names; only when all three have loaded does it ask whether
    the threshold file exists, and only when it exists does it open it.
    Nothing is read twice. *)
Theorem load_reads_in_order (w : world) :
  exists t rest,
    trace (snd (CreditScorePredictor w)) = (trace w ++ t)%list /\
    (t ++ rest)%list
    = [Open MODEL_PATH; Open EXPLAINER_PATH; Open FEATURE_NAMES_PATH;
       Exists THRESHOLD_PATH; Open THRESHOLD_PATH] /\
    In (Open MODEL_PATH) t /\
    (In (Open EXPLAINER_PATH) t <->
     load_error (model_file (fs w)) = None) /\
    (In (Open FEATURE_NAMES_PATH) t <->
     load_error (model_file (fs w)) = None /\
     load_error (explainer_file (fs w)) = None) /\
    (In (Exists THRESHOLD_PATH) t <-> artifact_error (fs w) = None) /\
    (In (Open THRESHOLD_PATH) t <->
     artifact_error (fs w) = None /\ threshold_file (fs w) <> Missing).
Proof.
  rewrite CreditScorePredictor_trace. unfold artifact_error.
  destruct (model_file (fs w)) as [|e1|m];
    [| |destruct (explainer_file (fs w)) as [|e2|ex];
      [| |destruct (feature_names_file (fs w)) as [|e3|names];
        [| |destruct (threshold_file (fs w)) as [|e4|j]]]];
  (eexists; eexists; split; [reflexivity|]; split; [reflexivity|]);
  cbn [In load_error];
  intuition (try discriminate; try congruence).
Qed.

Lemma model_opens_app (t t' : list fs_event) :
  Api.model_opens (t ++ t')
  = (Api.model_opens t + Api.model_opens t')%nat.
Proof.
  unfold Api.model_opens. now rewrite filter_app, length_app.
Qed.

Lemma get_predictor_fails (w : world) (e : exn) :
  _predictor w = None ->
  artifact_error (fs w) = Some e ->
  exists t l,
    get_predictor w
    = (Raise e,
       mkWorld (fs w) None (S (next_id w)) (trace w ++ t) (log w ++ l)) /\
    Api.model_opens t = 1%nat.
Proof.
  intros G E. rewrite get_predictor_run, G.
  unfold artifact_error in E.
  destruct (load_error (model_file (fs w))) as [e1|] eqn:E1.
  { injection E as <-. rewrite (CreditScorePredictor_model_error _ E1).
    rewrite G. eexists; eexists; split; reflexivity. }
  destruct (model_file (fs w)) as [| |m] eqn:Hm; try discriminate E1.
  destruct (load_error (explainer_file (fs w))) as [e2|] eqn:E2.
  { injection E as <-.
    rewrite (CreditScorePredictor_explainer_error _ Hm E2).
    rewrite G. eexists; eexists; split; reflexivity. }
  destruct (explainer_file (fs w)) as [| |ex] eqn:Hex; try discriminate E2.
  rewrite (CreditScorePredictor_feature_names_error _ Hm Hex E).
  rewrite G. eexists; eexists; split; reflexivity.
Qed.

(** X9.  A failed load is not remembered.  While one of the three
    artifacts cannot be loaded, every call of [get_predictor] raises the
    error of that artifact, leaves the global unset, and has read the
    model file and built a new object once more: after [n] calls the
    model file has been opened [n] more times. *)
Theorem get_predictor_retries_after_failure (w : world) (e : exn)
  (n : nat) :
  _predictor w = None ->
  artifact_error (fs w) = Some e ->
  let wn := Nat.iter n (fun w0 => snd (get_predictor w0)) w in
  fst (get_predictor wn) = Raise e /\
  _predictor wn = None /\
  fs wn = fs w /\
  next_id wn = (n + next_id w)%nat /\
  Api.model_opens (trace wn) = (n + Api.model_opens (trace w))%nat.
Proof.
  intros G E wn.
  assert (Hn : _predictor wn = None /\ fs wn = fs w /\
               next_id wn = (n + next_id w)%nat /\
               Api.model_opens (trace wn)
               = (n + Api.model_opens (trace w))%nat).
  { subst wn. induction n as [|n IH]; [cbn; auto|].
    simpl Nat.iter. destruct IH as (G' & F' & I' & T').
    rewrite <- F' in E.
    destruct (get_predictor_fails _ G' E) as (t & l & H & Ht).
    rewrite H. cbn [snd _predictor fs next_id trace].
    rewrite model_opens_app, Ht, T', I'.
    repeat split; trivial; lia. }
  destruct Hn as (G' & F' & I' & T').
  split; [|auto].
  rewrite <- F' in E.
  destruct (get_predictor_fails _ G' E) as (t & l & H & _).
  now rewrite H.
Qed.

Lemma get_predictor_retries_after_failure_witness :
  fst (get_predictor
         (Nat.iter 3 (fun w0 => snd (get_predictor w0)) Demo.no_model))
  = Raise FileNotFoundError /\
  _predictor (Nat.iter 3 (fun w0 => snd (get_predictor w0)) Demo.no_model)
  = None /\
  Api.model_opens
    (trace (Nat.iter 3 (fun w0 => snd (get_predictor w0)) Demo.no_model))
  = 3%nat.
Proof.
  destruct (@get_predictor_retries_after_failure Demo.no_model
              FileNotFoundError 3 eq_refl eq_refl)
    as (H1 & H2 & _ & _ & H3).
  split; [exact H1|]. split; [exact H2|exact H3].
Defined.

(* ------------------------------------------------------------------ *)
(** ** The handlers of [api/main.py] *)

Lemma http_try_Response {A : Type} (body : M A)
  (handler : exn -> string * Z * string) (w w' : world) (a : A) :
  Api.http_try body handler w = (Api.Response a, w') ->
  body w = (Ok a, w').
Proof.
  unfold Api.http_try. destruct (body w) as [[a'|e] w1].
  - now intros [= -> ->].
  - destruct (handler e) as [[msg sc] dt]. discriminate.
Qed.

Lemma http_try_HTTPException {A : Type} (body : M A)
  (handler : exn -> string * Z * string) (w w' : world) (s : Z)
  (d : string) :
  Api.http_try body handler w = (Api.HTTPException s d, w') ->
  exists e w1 msg,
    body w = (Raise e, w1) /\ handler e = (msg, s, d) /\
    w' = add_logs [(ERROR, msg)] w1.
Proof.
  unfold Api.http_try. destruct (body w) as [[a'|e] w1]; [discriminate|].
  destruct (handler e) as [[msg sc] dt] eqn:Hh. intros H.
  injection H as <- <- <-. exists e, w1, msg. rewrite Hh.
  repeat split; reflexivity.
Qed.

Lemma get_predictor_serving (w : world) (p : predictor) :
  _predictor w = Some p -> get_predictor w = (Ok p, w).
Proof. intros G. now rewrite get_predictor_run, G. Qed.

Lemma quiet_get_predictor_serving (p : predictor) (l : list (level * string))
  (w : world) :
  _predictor w = Some p ->
  get_predictor (add_logs l w) = (Ok p, add_logs l w).
Proof. intros G. now apply get_predictor_serving. Qed.

Lemma quiet_scored (rt : Api.runtime) (p : predictor)
  (c : Api.ClientFeatures.t) :
  quiet (Api.scored rt p c).
Proof.
  unfold Api.scored, get_threshold.
  apply quiet_bind; [apply quiet_predict_proba|]. intros probas.
  apply quiet_bind; [apply quiet_predict|]. intros decided.
  apply quiet_bind; [apply pure_quiet, pure_ret|]. intros t.
  apply quiet_bind; [apply pure_quiet, pure_lift|]. intros r.
  apply pure_quiet, pure_ret.
Qed.

Lemma scored_indep (rt : Api.runtime) (p : predictor)
  (c : Api.ClientFeatures.t) (w w0 : world) :
  fst (Api.scored rt p c w) = fst (Api.scored rt p c w0).
Proof. destruct (quiet_scored rt p c) as (r & l & H). now rewrite !H. Qed.

(** What a client's score and response are made of. *)
Lemma scored_Ok (rt : Api.runtime) (p : predictor)
  (c : Api.ClientFeatures.t) (w w' : world) (d : string)
  (r : Api.PredictionResponse.t) :
  Api.scored rt p c w = (Ok (d, r), w') ->
  w' = w /\
  exists pr above,
    predict_proba p (float_map (Api.ClientFeatures.features c)) w
    = (Ok pr, w) /\
    float_gt (snd pr) (threshold p) w = (Ok above, w) /\
    d = snd (verdict above) /\
    Api.new_PredictionResponse rt (Api.ClientFeatures.client_id c)
      (snd pr) (fst pr) (fst (verdict above)) (snd (verdict above))
      (threshold p)
    = Ok r.
Proof.
  unfold Api.scored. unfold bind at 1.
  destruct (predict_proba_run p
              (float_map (Api.ClientFeatures.features c))) as [r0 H].
  rewrite H. destruct r0 as [pr|e]; [|discriminate].
  unfold bind at 1.
  rewrite (@predict_after_Ok _ _ None _ _ _ (H w)).
  unfold get_threshold, lift, bind, ret.
  destruct (threshold p) as [ |b|x|s|l|dd]; try discriminate;
    (destruct (Api.new_PredictionResponse rt _ _ _ _ _ _) as [r'|e] eqn:N;
     [|discriminate]);
    intros [= <- <- <-]; (split; [reflexivity|]);
    eexists; eexists; (split; [reflexivity|]);
    (split; [reflexivity|]); (split; [reflexivity|]); exact N.
Qed.

(** In a process whose global is set, [predict] answers with what
    [scored] gives for the client. *)
Lemma predict_serving (rt : Api.runtime) (c : Api.ClientFeatures.t)
  (w : world) (p : predictor) :
  _predictor w = Some p ->
  Api.predict rt c w
  = match Api.scored rt p c
            (add_logs [(INFO, "Prediction request for client:")] w) with
    | (Ok dr, w') =>
        (Api.Response (snd dr),
         add_logs [(INFO, "Prediction completed:")] w')
    | (Raise e, w') =>
        (Api.predict_failure rt e,
         add_logs [(ERROR, if Api.is_ValueError rt e
                           then "Validation error:"
                           else "Prediction error:")] w')
    end.
Proof.
  intros G. unfold Api.predict, Api.http_try, Api.scored.
  unfold bind at 1. unfold logger at 1.
  change (mkWorld (fs w) (_predictor w) (next_id w) (trace w)
            (log w ++ [(INFO, "Prediction request for client:")]))
    with (add_logs [(INFO, "Prediction request for client:")] w).
  unfold bind at 1.
  rewrite (quiet_get_predictor_serving _ _ G).
  set (w1 := add_logs [(INFO, "Prediction request for client:")] w).
  unfold bind at 1. unfold bind at 5.
  destruct (predict_proba p (float_map (Api.ClientFeatures.features c)) w1)
    as [[pr|e] w2].
  2:{ unfold Api.predict_failure. now destruct (Api.is_ValueError rt e). }
  unfold bind at 1. unfold bind at 4.
  destruct (predict p (float_map (Api.ClientFeatures.features c)) None w2)
    as [[dec|e] w3].
  2:{ unfold Api.predict_failure. now destruct (Api.is_ValueError rt e). }
  unfold get_threshold, lift, bind, ret, logger.
  destruct (Api.new_PredictionResponse rt _ _ _ _ _ _) as [r'|e].
  - reflexivity.
  - unfold Api.predict_failure. now destruct (Api.is_ValueError rt e).
Qed.

Lemma predict_serving_fst (rt : Api.runtime) (c : Api.ClientFeatures.t)
  (w w0 : world) (p : predictor) :
  _predictor w = Some p ->
  fst (Api.predict rt c w)
  = match fst (Api.scored rt p c w0) with
    | Ok dr => Api.Response (snd dr)
    | Raise e => Api.predict_failure rt e
    end.
Proof.
  intros G. rewrite (@predict_serving rt c w p G).
  rewrite (scored_indep rt p c w0
             (add_logs [(INFO, "Prediction request for client:")] w)).
  destruct (Api.scored rt p c
              (add_logs [(INFO, "Prediction request for client:")] w))
    as [[dr|e] w']; reflexivity.
Qed.

Lemma coherent_verdict (cid : option string) (p1 p0 t : float) :
  Api.coherent
    (Api.PredictionResponse.mk cid p1 p0
       (fst (verdict (t <? p1)%float)) (snd (verdict (t <? p1)%float)) t).
Proof.
  unfold Api.coherent. cbn.
  destruct (t <? p1)%float; cbn;
    repeat split; intros; try reflexivity; try discriminate; auto.
Qed.

(** X10.  The response of [predict].  In a process whose global is set
    to a predictor with a numeric threshold [t], and with pydantic
    handing back the fields it is given, a response of the /predict
    handler is coherent: it echoes the client id, reports [t] as the
    threshold used, carries the two probabilities [predict_proba] gives
    for the client's features, has prediction 1 exactly when the
    probability of default exceeds [t], and the decision that goes with
    the prediction.  The handler has logged the request and the
    completion and nothing else. *)
Theorem api_predict_response (rt : Api.runtime)
  (c : Api.ClientFeatures.t) (w w' : world) (p : predictor) (t : float)
  (r : Api.PredictionResponse.t) :
  Api.keeps_fields rt ->
  _predictor w = Some p ->
  threshold p = JNum t ->
  Api.predict rt c w = (Api.Response r, w') ->
  Api.coherent r /\
  Api.PredictionResponse.client_id r = Api.ClientFeatures.client_id c /\
  Api.PredictionResponse.threshold_used r = t /\
  fst (predict_proba p (float_map (Api.ClientFeatures.features c)) w)
  = Ok (Api.PredictionResponse.probability_no_default r,
        Api.PredictionResponse.probability_default r) /\
  w' = add_logs [(INFO, "Prediction request for client:");
                 (INFO, "Prediction completed:")] w.
Proof.
  intros K G T H. rewrite (@predict_serving rt c w p G) in H.
  destruct (Api.scored rt p c
              (add_logs [(INFO, "Prediction request for client:")] w))
    as [[[d r']|e] w1] eqn:S.
  2:{ unfold Api.predict_failure in H.
      destruct (Api.is_ValueError rt e); discriminate H. }
  injection H as <- <-.
  apply scored_Ok in S.
  destruct S as (-> & pr & above & P & A & -> & N).
  rewrite T in A, N. cbn in A. injection A as <-.
  apply K in N. subst r'. cbn [snd].
  split; [apply coherent_verdict|].
  split; [reflexivity|]. split; [reflexivity|].
  split.
  - cbn. destruct (predict_proba_run p
                     (float_map (Api.ClientFeatures.features c)))
      as [r0 H0].
    rewrite H0 in P. rewrite H0. cbn [fst]. injection P as -> _.
    now destruct pr.
  - now rewrite add_logs_app.
Qed.

Lemma keeps_fields_runtime : Api.keeps_fields ApiDemo.runtime.
Proof.
  intros cid p1 p0 n d t r. unfold ApiDemo.runtime. cbn.
  destruct (ApiDemo.in_unit p1 && ApiDemo.in_unit p0);
    [now intros [= <-]|discriminate].
Qed.

Lemma api_predict_response_witness :
  match Api.predict ApiDemo.runtime ApiDemo.alice ApiDemo.serving with
  | (Api.Response r, _) =>
      Api.coherent r /\
      Api.PredictionResponse.threshold_used r = 0.48%float
  | _ => False
  end.
Proof.
  destruct (Api.predict ApiDemo.runtime ApiDemo.alice ApiDemo.serving)
    as [[r|s d] w'] eqn:H.
  - destruct (@api_predict_response ApiDemo.runtime ApiDemo.alice
                ApiDemo.serving w' Demo.loaded 0.48%float r
                keeps_fields_runtime eq_refl eq_refl H)
      as (H1 & _ & H3 & _).
    split; [exact H1|exact H3].
  - vm_compute in H. discriminate H.
Defined.

(** X11.  The failures of [predict].  The handler answers a failure
    with status 400 or 500 and no other: 400 carries the text of an
    exception that is a [ValueError], 500 carries one fixed sentence and
    never the text of the exception; the error is the last record
    logged.  With the global set, a failure of [predict_proba] is
    answered by the class of its exception, and a threshold that is no
    number is answered with 500. *)
Theorem api_predict_errors (rt : Api.runtime) (c : Api.ClientFeatures.t)
  (w : world) :
  (forall s d w',
     Api.predict rt c w = (Api.HTTPException s d, w') ->
     ((s = 400%Z /\
       exists e, Api.is_ValueError rt e = true /\ d = Api.str rt e) \/
      (s = 500%Z /\ d = "Internal server error during prediction")) /\
     exists msg l, log w' = (l ++ [(ERROR, msg)])%list) /\
  (forall p e,
     _predictor w = Some p ->
     fst (predict_proba p (float_map (Api.ClientFeatures.features c)) w)
     = Raise e ->
     fst (Api.predict rt c w) = Api.predict_failure rt e) /\
  (forall p pr,
     _predictor w = Some p ->
     fst (predict_proba p (float_map (Api.ClientFeatures.features c)) w)
     = Ok pr ->
     (forall x, threshold p <> JNum x) ->
     (forall b, threshold p <> JBool b) ->
     fst (Api.predict rt c w)
     = Api.HTTPException 500 "Internal server error during prediction").
Proof.
  split; [|split].
  - intros s d w' H. unfold Api.predict in H.
    apply http_try_HTTPException in H.
    destruct H as (e & w1 & msg & _ & Hh & ->).
    split; [|exists msg, (log w1); reflexivity].
    destruct (Api.is_ValueError rt e) eqn:V; injection Hh as <- <- <-.
    + left. split; [reflexivity|]. now exists e.
    + right. split; reflexivity.
  - intros p e G P. rewrite (@predict_serving_fst rt c w w p G).
    unfold Api.scored. unfold bind at 1.
    destruct (predict_proba p (float_map (Api.ClientFeatures.features c)) w)
      as [r0 w1]. cbn [fst] in P. subst r0. reflexivity.
  - intros p pr G P Hnum Hbool. rewrite (@predict_serving_fst rt c w w p G).
    unfold Api.scored. unfold bind at 1.
    destruct (predict_proba_run p
                (float_map (Api.ClientFeatures.features c))) as [r0 H0].
    rewrite H0 in P. cbn [fst] in P. subst r0. rewrite H0.
    unfold bind at 1.
    rewrite (@predict_after_Ok _ _ None _ _ _ (H0 w)).
    destruct (threshold p) as [ |b|x|s|l|d]; try reflexivity.
    + now destruct (Hbool b).
    + now destruct (Hnum x).
Qed.

Lemma api_predict_errors_witness :
  fst (predict_proba Demo.misshapen
         (float_map (Api.ClientFeatures.features ApiDemo.alice))
         ApiDemo.failing)
  = Raise ValueError /\
  fst (Api.predict ApiDemo.runtime ApiDemo.alice ApiDemo.failing)
  = Api.HTTPException 400 "could not convert string to float".
Proof.
  split; [vm_compute; reflexivity|].
  refine (proj1 (proj2 (@api_predict_errors ApiDemo.runtime ApiDemo.alice
                          ApiDemo.failing))
                Demo.misshapen ValueError _ _).
  - reflexivity.
  - vm_compute. reflexivity.
Defined.

(* ------------------------------------------------------------------ *)
(** ** The batch *)

Lemma length_filter_negb {A : Type} (f : A -> bool) (l : list A) :
  (List.length (filter f l) + List.length (filter (fun x => negb (f x)) l)
   = List.length l)%nat.
Proof.
  induction l as [|x l IH]; cbn; [reflexivity|].
  destruct (f x); cbn; lia.
Qed.

Lemma Forall2_In_l {A B : Type} (R : A -> B -> Prop) (l : list A)
  (l' : list B) (a : A) :
  Forall2 R l l' -> In a l -> exists b, In b l' /\ R a b.
Proof.
  induction 1 as [|x y l l' Hxy _ IH]; cbn; [tauto|].
  intros [->|H]; [exists y; tauto|].
  destruct (IH H) as (b & Hb & Hab). exists b. tauto.
Qed.

Section BatchLoop.
Variable rt : Api.runtime.
Variable p : predictor.
Variable step : Api.ClientFeatures.t -> Api.tally -> M Api.tally.
Hypothesis Hstep : forall c acc w,
  step c acc w
  = match Api.scored rt p c w with
    | (Ok dr, w') =>
        (Ok (if String.eqb (fst dr) "APPROVED"
             then Api.mkTally (Api.predictions acc ++ [snd dr])
                              (Api.approved_count acc + 1)
                              (Api.rejected_count acc)
             else Api.mkTally (Api.predictions acc ++ [snd dr])
                              (Api.approved_count acc)
                              (Api.rejected_count acc + 1)),
         w')
    | (Raise e, w') => (Raise e, w')
    end.

(** The loop stops at the first client that cannot be scored; when it
    runs to the end it has appended one response for each client, in
    order, and counted each decision once. *)
Lemma batch_loop (w0 : world) (clients : list Api.ClientFeatures.t) :
  forall acc w,
  exists l,
    match for_each clients step acc w with
    | (Ok acc', w') =>
        w' = add_logs l w /\
        exists rs,
          Forall2 (fun c dr => fst (Api.scored rt p c w0) = Ok dr)
                  clients rs /\
          Api.predictions acc' = (Api.predictions acc ++ map snd rs)%list /\
          Api.approved_count acc'
          = (Api.approved_count acc +
             Z.of_nat (List.length
                         (filter (fun dr => String.eqb (fst dr) "APPROVED")
                                 rs)))%Z /\
          Api.rejected_count acc'
          = (Api.rejected_count acc +
             Z.of_nat (List.length
                         (filter (fun dr =>
                                    negb (String.eqb (fst dr) "APPROVED"))
                                 rs)))%Z
    | (Raise e, w') =>
        w' = add_logs l w /\
        exists c, In c clients /\ fst (Api.scored rt p c w0) = Raise e
    end.
Proof.
  induction clients as [|c clients IH]; intros acc w; cbn [for_each].
  - exists []. unfold ret. split; [symmetry; apply add_logs_nil|].
    exists []. cbn. rewrite app_nil_r.
    repeat split; [constructor|lia|lia].
  - unfold bind. rewrite Hstep.
    destruct (quiet_scored rt p c) as (r & l & H). rewrite H.
    destruct r as [dr|e].
    + match goal with
      | |- context [for_each clients step ?a ?v] =>
          destruct (IH a v) as [l' IH']; clear IH;
          destruct (for_each clients step a v) as [[acc'|e] w']
      end.
      * exists (l ++ l')%list.
        destruct IH' as (-> & rs & F & P & A & R).
        split; [apply add_logs_app|].
        exists (dr :: rs). split.
        { constructor; [|exact F]. now rewrite (H w0). }
        cbn [map filter].
        destruct (String.eqb (fst dr) "APPROVED");
          cbn [negb Api.predictions Api.approved_count Api.rejected_count
               List.length] in *;
          rewrite P, A, R, <- app_assoc; cbn [app];
          rewrite ?Nat2Z.inj_succ;
          repeat match goal with
                 | |- context [List.length (filter ?f rs)] =>
                     generalize (List.length (filter f rs)); intro
                 end;
          repeat split; lia.
      * exists (l ++ l')%list.
        destruct IH' as (-> & c' & Hin & Hc').
        split; [apply add_logs_app|].
        exists c'. split; [now right|exact Hc'].
    + exists l. split; [reflexivity|].
      exists c. split; [now left|]. now rewrite (H w0).
Qed.
End BatchLoop.

(** In a process whose global is set, [predict_batch] answers with what
    [scored] gives for each client. *)
Lemma predict_batch_serving (rt : Api.runtime)
  (request : Api.BatchPredictionRequest.t) (w : world) (p : predictor) :
  _predictor w = Some p ->
  exists l,
    match Api.predict_batch rt request w with
    | (Api.Response r, w') =>
        w' = add_logs l w /\
        exists rs,
          Forall2 (fun c dr => fst (Api.scored rt p c w) = Ok dr)
                  (Api.BatchPredictionRequest.clients request) rs /\
          r = Api.BatchPredictionResponse.mk
                (map snd rs)
                (Z.of_nat (List.length rs))
                (Z.of_nat (List.length
                             (filter (fun dr =>
                                        String.eqb (fst dr) "APPROVED") rs)))
                (Z.of_nat (List.length
                             (filter (fun dr =>
                                        negb (String.eqb (fst dr)
                                                         "APPROVED")) rs)))
    | (Api.HTTPException s d, w') =>
        w' = add_logs l w /\
        s = 500%Z /\
        d = "Internal server error during batch prediction" /\
        exists c e,
          In c (Api.BatchPredictionRequest.clients request) /\
          fst (Api.scored rt p c w) = Raise e
    end.
Proof.
  intros G. unfold Api.predict_batch, Api.http_try.
  unfold bind at 1. unfold logger at 1.
  change (mkWorld (fs w) (_predictor w) (next_id w) (trace w)
            (log w ++ [(INFO, "Batch prediction request for")]))
    with (add_logs [(INFO, "Batch prediction request for")] w).
  unfold bind at 1.
  rewrite (quiet_get_predictor_serving _ _ G).
  set (w1 := add_logs [(INFO, "Batch prediction request for")] w).
  unfold bind at 1.
  match goal with
  | |- context [for_each _ ?f _ _] => set (step := f)
  end.
  assert (Hstep : forall c acc v,
    step c acc v
    = match Api.scored rt p c v with
      | (Ok dr, w') =>
          (Ok (if String.eqb (fst dr) "APPROVED"
               then Api.mkTally (Api.predictions acc ++ [snd dr])
                                (Api.approved_count acc + 1)
                                (Api.rejected_count acc)
               else Api.mkTally (Api.predictions acc ++ [snd dr])
                                (Api.approved_count acc)
                                (Api.rejected_count acc + 1)),
           w')
      | (Raise e, w') => (Raise e, w')
      end).
  { intros c acc v. subst step. cbv beta.
    unfold Api.scored, bind, get_threshold, lift, ret.
    destruct (predict_proba p (float_map (Api.ClientFeatures.features c)) v)
      as [[pr|e] w2]; [|reflexivity].
    destruct (predict p (float_map (Api.ClientFeatures.features c)) None w2)
      as [[dec|e] w3]; [|reflexivity].
    destruct (Api.new_PredictionResponse rt _ _ _ _ _ _) as [r'|e];
      [|reflexivity].
    cbn [fst snd]. now destruct (String.eqb (snd dec) "APPROVED"). }
  destruct (@batch_loop rt p step Hstep w
              (Api.BatchPredictionRequest.clients request)
              (Api.mkTally [] 0 0) w1) as [l L].
  destruct (for_each (Api.BatchPredictionRequest.clients request) step
              (Api.mkTally [] 0 0) w1) as [[acc'|e] w'].
  - destruct L as (-> & rs & F & P & A & R).
    exists ([(INFO, "Batch prediction request for")] ++ l ++
            [(INFO, "Batch prediction completed:")])%list.
    unfold logger, ret. cbn [Api.predictions Api.approved_count
                             Api.rejected_count app] in *.
    split.
    { subst w1. unfold add_logs. cbn. now rewrite <- !app_assoc. }
    exists rs. split; [exact F|].
    rewrite P, A, R, length_map. reflexivity.
  - destruct L as (-> & c & Hin & Hc).
    exists ([(INFO, "Batch prediction request for")] ++ l ++
            [(ERROR, "Batch prediction error:")])%list.
    split.
    { subst w1. unfold add_logs. cbn. now rewrite <- !app_assoc. }
    split; [reflexivity|]. split; [reflexivity|]. now exists c, e.
Qed.

Lemma scored_keeps (rt : Api.runtime) (p : predictor)
  (c : Api.ClientFeatures.t) (w : world) (d : string)
  (r : Api.PredictionResponse.t) :
  fst (Api.scored rt p c w) = Ok (d, r) ->
  (d = "REJECTED" \/ d = "APPROVED") /\
  (Api.keeps_fields rt ->
   forall t, threshold p = JNum t ->
     Api.PredictionResponse.decision r = d /\ Api.coherent r /\
     Api.PredictionResponse.client_id r = Api.ClientFeatures.client_id c).
Proof.
  destruct (Api.scored rt p c w) as [res w'] eqn:S. cbn [fst].
  intros ->. apply scored_Ok in S.
  destruct S as (_ & pr & above & _ & A & -> & N).
  split; [destruct above; cbn; tauto|].
  intros K t T. rewrite T in A, N. cbn in A. injection A as <-.
  apply K in N. subst r. cbn [Api.PredictionResponse.decision
                               Api.PredictionResponse.client_id].
  split; [reflexivity|]. split; [apply coherent_verdict|reflexivity].
Qed.

(** X12.  The response of [predict_batch].  With the global set, a
    response of the batch handler holds one prediction for each client
    of the request, in the order of the request, and each is the
    response the /predict handler gives for that client; [total_clients]
    is the number of clients, and the two counts are not negative and
    add up to it.  When pydantic hands back the fields it is given and
    the threshold is a number, the counts are the numbers of predictions
    that carry each decision, and every prediction is coherent. *)
Theorem predict_batch_response (rt : Api.runtime)
  (request : Api.BatchPredictionRequest.t) (w w' : world) (p : predictor)
  (r : Api.BatchPredictionResponse.t) :
  _predictor w = Some p ->
  Api.predict_batch rt request w = (Api.Response r, w') ->
  Api.BatchPredictionResponse.total_clients r
  = Z.of_nat (List.length (Api.BatchPredictionRequest.clients request)) /\
  List.length (Api.BatchPredictionResponse.predictions r)
  = List.length (Api.BatchPredictionRequest.clients request) /\
  (Api.BatchPredictionResponse.approved_count r +
   Api.BatchPredictionResponse.rejected_count r
   = Api.BatchPredictionResponse.total_clients r)%Z /\
  (0 <= Api.BatchPredictionResponse.approved_count r)%Z /\
  (0 <= Api.BatchPredictionResponse.rejected_count r)%Z /\
  Forall2 (fun c x => fst (Api.predict rt c w) = Api.Response x)
          (Api.BatchPredictionRequest.clients request)
          (Api.BatchPredictionResponse.predictions r) /\
  (Api.keeps_fields rt ->
   forall t, threshold p = JNum t ->
     Api.BatchPredictionResponse.approved_count r
     = Api.decided "APPROVED" (Api.BatchPredictionResponse.predictions r) /\
     Api.BatchPredictionResponse.rejected_count r
     = Api.decided "REJECTED" (Api.BatchPredictionResponse.predictions r) /\
     Forall Api.coherent (Api.BatchPredictionResponse.predictions r)).
Proof.
  intros G H.
  destruct (@predict_batch_serving rt request w p G) as [l L].
  rewrite H in L. destruct L as (_ & rs & F & ->).
  cbn [Api.BatchPredictionResponse.total_clients
       Api.BatchPredictionResponse.predictions
       Api.BatchPredictionResponse.approved_count
       Api.BatchPredictionResponse.rejected_count].
  pose proof (Forall2_length F) as Len.
  pose proof (length_filter_negb
                (fun dr : string * Api.PredictionResponse.t =>
                   String.eqb (fst dr) "APPROVED") rs) as Sum.
  split; [now rewrite Len|]. split; [now rewrite length_map|].
  split; [rewrite <- Nat2Z.inj_add; f_equal; exact Sum|].
  split; [apply Nat2Z.is_nonneg|]. split; [apply Nat2Z.is_nonneg|]. split.
  - clear Len Sum H. induction F as [|c dr cs rs Hc _ IH]; cbn [map];
      constructor; [|exact IH].
    rewrite (@predict_serving_fst rt c w w p G), Hc. reflexivity.
  - intros K t T. unfold Api.decided. clear Len Sum H.
    induction F as [|c [d x] cs rs Hc _ IH]; cbn [map filter fst snd].
    { repeat split; constructor. }
    destruct IH as (IA & IR & IC).
    apply scored_keeps in Hc. destruct Hc as [Hd Hk].
    destruct (Hk K t T) as (Dx & Cx & _). rewrite Dx.
    split; [|split].
    + destruct (String.eqb d "APPROVED"); cbn [List.length];
        rewrite ?Nat2Z.inj_succ, IA; reflexivity.
    + assert (E : negb (String.eqb d "APPROVED") = String.eqb d "REJECTED")
        by (destruct Hd as [-> | ->]; reflexivity).
      rewrite E. destruct (String.eqb d "REJECTED"); cbn [List.length];
        rewrite ?Nat2Z.inj_succ, IR; reflexivity.
    + constructor; assumption.
Qed.

Lemma predict_batch_response_witness :
  match Api.predict_batch ApiDemo.runtime
          (Api.BatchPredictionRequest.mk [ApiDemo.alice; ApiDemo.bob])
          ApiDemo.serving with
  | (Api.Response r, _) =>
      Api.BatchPredictionResponse.total_clients r = 2%Z /\
      (Api.BatchPredictionResponse.approved_count r +
       Api.BatchPredictionResponse.rejected_count r = 2)%Z /\
      Forall Api.coherent (Api.BatchPredictionResponse.predictions r)
  | _ => False
  end.
Proof.
  destruct (Api.predict_batch ApiDemo.runtime
              (Api.BatchPredictionRequest.mk [ApiDemo.alice; ApiDemo.bob])
              ApiDemo.serving) as [[r|s d] w'] eqn:H.
  - destruct (@predict_batch_response ApiDemo.runtime
                (Api.BatchPredictionRequest.mk [ApiDemo.alice; ApiDemo.bob])
                ApiDemo.serving w' Demo.loaded r eq_refl H)
      as (H1 & _ & H3 & _ & _ & _ & H7).
    split; [exact H1|]. split; [now rewrite H3, H1|].
    exact (proj2 (proj2 (H7 keeps_fields_runtime 0.48%float eq_refl))).
  - vm_compute in H. discriminate H.
Defined.

(** X13.  The batch is all or nothing.  With the global set, the batch
    handler fails exactly when the /predict handler fails for one of the
    clients, and then its answer is status 500 with one fixed sentence,
    whatever the status of the single failure was: no partial result is
    returned and a client error of one client is not reported as such. *)
Theorem predict_batch_all_or_nothing (rt : Api.runtime)
  (request : Api.BatchPredictionRequest.t) (w : world) (p : predictor) :
  _predictor w = Some p ->
  ((exists c s d,
      In c (Api.BatchPredictionRequest.clients request) /\
      fst (Api.predict rt c w) = Api.HTTPException s d) <->
   fst (Api.predict_batch rt request w)
   = Api.HTTPException 500
       "Internal server error during batch prediction") /\
  (forall s d,
     fst (Api.predict_batch rt request w) = Api.HTTPException s d ->
     s = 500%Z /\ d = "Internal server error during batch prediction").
Proof.
  intros G.
  destruct (@predict_batch_serving rt request w p G) as [l L].
  destruct (Api.predict_batch rt request w) as [[r|s d] w'].
  - destruct L as (_ & rs & F & _). cbn [fst]. split.
    + split; [|discriminate].
      intros (c & s & d & Hin & Hc). exfalso.
      destruct (Forall2_In_l _ F Hin) as (dr & _ & Hdr).
      rewrite (@predict_serving_fst rt c w w p G), Hdr in Hc.
      discriminate Hc.
    + discriminate.
  - destruct L as (_ & -> & -> & c & e & Hin & Hc). cbn [fst]. split.
    + split; [reflexivity|]. intros _.
      pose proof (@predict_serving_fst rt c w w p G) as Hp.
      rewrite Hc in Hp. unfold Api.predict_failure in Hp.
      destruct (Api.is_ValueError rt e); eauto.
    + now intros s d [= <- <-].
Qed.

Lemma predict_batch_all_or_nothing_witness :
  fst (Api.predict ApiDemo.runtime ApiDemo.alice ApiDemo.failing)
  = Api.HTTPException 400 "could not convert string to float" /\
  fst (Api.predict_batch ApiDemo.runtime
         (Api.BatchPredictionRequest.mk [ApiDemo.bob; ApiDemo.alice])
         ApiDemo.failing)
  = Api.HTTPException 500 "Internal server error during batch prediction".
Proof.
  assert (H : fst (Api.predict ApiDemo.runtime ApiDemo.alice ApiDemo.failing)
              = Api.HTTPException 400 "could not convert string to float")
    by (vm_compute; reflexivity).
  split; [exact H|].
  apply (proj1 (@predict_batch_all_or_nothing ApiDemo.runtime
                  (Api.BatchPredictionRequest.mk [ApiDemo.bob; ApiDemo.alice])
                  ApiDemo.failing Demo.misshapen eq_refl)).
  exists ApiDemo.alice, 400%Z, "could not convert string to float".
  split; [right; left; reflexivity|exact H].
Defined.

(* ------------------------------------------------------------------ *)
(** ** Health, explanations, and what the handlers leave alone *)


Lemma health_check_run (w : world) :
  Api.health_check w
  = match get_predictor w with
    | (Ok p, w') =>
        (Api.Response
           (Api.HealthResponse.mk "healthy"
              (match model p with Some _ => true | None => false end)
              Api.API_VERSION),
         w')
    | (Raise e, w') =>
        (Api.HTTPException 503 "Service unhealthy",
         add_logs [(ERROR, "Health check failed:")] w')
    end.
Proof.
  unfold Api.health_check, Api.http_try, is_loaded, bind, ret.
  destruct (get_predictor w) as [[p|e] w']; reflexivity.
Qed.

(** X14.  The outcomes of [health_check].  The handler answers either
    with status "healthy" and the version of the API, having left the
    global set, or with status 503 and the detail "Service unhealthy",
    having logged the failure and left the global unset.  [model_loaded]
    tells whether the model of the global is something other than
    [None]; when the handler had to build the predictor itself, that is
    whether the model file held something other than [None], so the
    answer can be "healthy" with [model_loaded] false. *)
Theorem health_check_outcomes (w : world) :
  match Api.health_check w with
  | (Api.Response r, w') =>
      Api.HealthResponse.status r = "healthy" /\
      Api.HealthResponse.version r = Api.API_VERSION /\
      (exists p,
         _predictor w' = Some p /\
         Api.HealthResponse.model_loaded r
         = match model p with Some _ => true | None => false end) /\
      (_predictor w = None ->
       exists m,
         model_file (fs w) = Holds m /\
         Api.HealthResponse.model_loaded r
         = match m with Some _ => true | None => false end)
  | (Api.HTTPException s d, w') =>
      s = 503%Z /\ d = "Service unhealthy" /\
      _predictor w = None /\ _predictor w' = None /\
      exists l, log w' = (l ++ [(ERROR, "Health check failed:")])%list
  end.
Proof.
  rewrite health_check_run, get_predictor_run.
  destruct (_predictor w) as [p|] eqn:G.
  - cbn. repeat split; [|discriminate]. exists p. now split.
  - destruct (CreditScorePredictor_frame w) as (r & t & l & H & _).
    rewrite H. destruct r as [p|e].
    + apply CreditScorePredictor_Ok_inv in H.
      destruct H as (m & ex & names & Hm & _ & _ & H).
      cbn [Api.HealthResponse.status Api.HealthResponse.version
           Api.HealthResponse.model_loaded _predictor].
      split; [reflexivity|]. split; [reflexivity|].
      split; [exists p; now split|].
      intros _. exists m. split; [exact Hm|].
      destruct H as [[_ ->]|(d & _ & ->)]; reflexivity.
    + cbn. rewrite G. repeat split. eexists. reflexivity.
Qed.

Lemma feature_importance_run (c : Api.ClientFeatures.t) (w : world) :
  Api.feature_importance c w
  = match get_predictor
            (add_logs [(INFO, "Feature importance request for client:")] w)
    with
    | (Ok p, w1) =>
        match get_feature_importance p
                (float_map (Api.ClientFeatures.features c)) 10 w1 with
        | (Ok i, w2) =>
            (Api.Response
               (Api.FeatureImportanceResponse.mk
                  (Api.ClientFeatures.client_id c)
                  (shap_values i) (top_positive_features i)
                  (top_negative_features i) (base_value i)
                  (prediction_value i)),
             add_logs [(INFO, "Feature importance calculated successfully")]
                      w2)
        | (Raise e, w2) =>
            (Api.HTTPException 500
               "Internal server error during feature importance calculation",
             add_logs [(ERROR, "Feature importance error:")] w2)
        end
    | (Raise e, w1) =>
        (Api.HTTPException 500
           "Internal server error during feature importance calculation",
         add_logs [(ERROR, "Feature importance error:")] w1)
    end.
Proof.
  unfold Api.feature_importance, Api.http_try.
  unfold bind at 1. unfold logger at 1.
  change (mkWorld (fs w) (_predictor w) (next_id w) (trace w)
            (log w ++ [(INFO, "Feature importance request for client:")]))
    with (add_logs [(INFO, "Feature importance request for client:")] w).
  unfold bind at 1.
  destruct (get_predictor
              (add_logs [(INFO, "Feature importance request for client:")]
                        w)) as [[p|e] w1]; [|reflexivity].
  unfold bind at 1.
  destruct (get_feature_importance p
              (float_map (Api.ClientFeatures.features c)) 10 w1)
    as [[i|e] w2]; reflexivity.
Qed.

Lemma get_predictor_sets (w w' : world) (p : predictor) :
  get_predictor w = (Ok p, w') -> _predictor w' = Some p.
Proof.
  rewrite get_predictor_run. destruct (_predictor w) as [q|] eqn:G.
  - now intros [= -> <-].
  - destruct (CreditScorePredictor w) as [[q|e] w1]; [|discriminate].
    now intros [= -> <-].
Qed.

(** X15.  The outcomes of [feature_importance].  A response of the
    handler echoes the client id and carries the explanation that
    [get_feature_importance] gives with [top_n = 10] for the predictor
    the global then holds, so that neither list has more than ten
    entries.  Every failure, a [ValueError] included, is answered with
    status 500 and one fixed sentence. *)
Theorem feature_importance_outcomes (c : Api.ClientFeatures.t)
  (w : world) :
  match Api.feature_importance c w with
  | (Api.Response r, w') =>
      Api.FeatureImportanceResponse.client_id r
      = Api.ClientFeatures.client_id c /\
      (List.length (Api.FeatureImportanceResponse.top_positive_features r)
       <= 10)%nat /\
      (List.length (Api.FeatureImportanceResponse.top_negative_features r)
       <= 10)%nat /\
      exists p i,
        _predictor w' = Some p /\
        fst (get_feature_importance p
               (float_map (Api.ClientFeatures.features c)) 10 w)
        = Ok i /\
        r = Api.FeatureImportanceResponse.mk
              (Api.ClientFeatures.client_id c)
              (shap_values i) (top_positive_features i)
              (top_negative_features i) (base_value i)
              (prediction_value i)
  | (Api.HTTPException s d, w') =>
      s = 500%Z /\
      d = "Internal server error during feature importance calculation" /\
      exists l, log w' = (l ++ [(ERROR, "Feature importance error:")])%list
  end.
Proof.
  rewrite feature_importance_run.
  destruct (get_predictor
              (add_logs [(INFO, "Feature importance request for client:")]
                        w)) as [[p|e] w1] eqn:P.
  2:{ repeat split. eexists. reflexivity. }
  destruct (get_feature_importance p
              (float_map (Api.ClientFeatures.features c)) 10 w1)
    as [[i|e] w2] eqn:I.
  2:{ repeat split. eexists. reflexivity. }
  cbn [Api.FeatureImportanceResponse.client_id
       Api.FeatureImportanceResponse.top_positive_features
       Api.FeatureImportanceResponse.top_negative_features].
  split; [reflexivity|].
  pose proof I as Inv. apply get_feature_importance_inv in Inv.
  destruct Inv as (-> & names & ex & X & shap & row & base
                   & _ & _ & _ & _ & _ & _ & Hi).
  assert (B : (List.length (top_positive_features i) <= 10)%nat /\
              (List.length (top_negative_features i) <= 10)%nat).
  { rewrite Hi. cbn [top_positive_features top_negative_features].
    split;
      match goal with
      | |- (List.length (Py.slice_to ?l 10) <= 10)%nat =>
          pose proof (@length_slice_to _ l 10 ltac:(lia)); lia
      end. }
  split; [tauto|]. split; [tauto|].
  exists p, i. split.
  - apply get_predictor_sets in P. exact P.
  - split; [|reflexivity].
    destruct (quiet_get_feature_importance p
                (float_map (Api.ClientFeatures.features c)) 10)
      as (r0 & l0 & H0).
    rewrite H0 in I. rewrite H0. cbn [fst]. now injection I.
Qed.



(* ------------------------------------------------------------------ *)
(** ** Names outside the schema, start-up, and failed explanations *)

Lemma bind_ext_l {A B : Type} (c c' : M A) (k : A -> M B) (w : world) :
  c w = c' w -> bind c k w = bind c' k w.
Proof. intros E. unfold bind. now rewrite E. Qed.

Lemma try_except_ext {A : Type} (b b' : M A) (h : exn -> M A) (w : world) :
  b w = b' w -> try_except b h w = try_except b' h w.
Proof. intros E. unfold try_except. now rewrite E. Qed.

(** X17.  Only the names of the schema count.  Two feature maps that
    hold the same value, or both none, under every name of the schema
    get the same answer, state included, from [predict_proba], from
    [predict] and from [get_feature_importance]: what a map holds under
    other names, a value that is no number included, and the order of
    its entries have no effect. *)
Theorem unknown_features_are_ignored (self : predictor)
  (names : list string) (m m' : dict pyobj) (w : world) :
  feature_names self = Some names ->
  (forall n, In n names -> get m n = get m' n) ->
  predict_proba self m w = predict_proba self m' w /\
  (forall threshold_arg,
     predict self m threshold_arg w = predict self m' threshold_arg w) /\
  (forall top_n,
     get_feature_importance self m top_n w
     = get_feature_importance self m' top_n w).
Proof.
  intros Hn H.
  assert (E : forall v, _prepare_features self m v
                        = _prepare_features self m' v).
  { intros v.
    now rewrite !prepare_features_run, Hn, (lookup_row_ext names m m' H). }
  assert (P : forall v, predict_proba self m v = predict_proba self m' v).
  { intros v. unfold predict_proba.
    apply try_except_ext, bind_ext_l, E. }
  split; [apply P|]. split.
  - intros threshold_arg. unfold predict.
    apply try_except_ext, bind_ext_l, P.
  - intros top_n. unfold get_feature_importance.
    apply try_except_ext, bind_ext_l, E.
Qed.

Lemma unknown_features_are_ignored_witness :
  predict Demo.loaded
    (("zip_code", PyStr "invalid" None) :: ("a", PyFloat 1%float)
       :: ("c", PyFloat 3%float) :: [])
    None Demo.start
  = predict Demo.loaded (float_map Demo.sparse) None Demo.start.
Proof.
  refine (proj1 (proj2 (@unknown_features_are_ignored Demo.loaded
                          Demo.schema _ _ Demo.start eq_refl _)) None).
  intros n Hn. cbn in Hn.
  repeat (destruct Hn as [<-|Hn]; [reflexivity|]). destruct Hn.
Defined.

(** X18.  After a start-up that succeeded, the service answers
    "healthy": in a process that starts with the global unset, when the
    start-up hook returns, /health answers "healthy" with the version of
    the API and changes nothing, the log included; [model_loaded] is
    true unless the model file held [None], with which the start-up
    succeeds all the same. *)
Theorem startup_then_healthy (w w' : world) :
  _predictor w = None ->
  lifespan_startup w = (Ok tt, w') ->
  exists m,
    model_file (fs w) = Holds m /\
    Api.health_check w'
    = (Api.Response
         (Api.HealthResponse.mk "healthy"
            (match m with Some _ => true | None => false end)
            Api.API_VERSION),
       w').
Proof.
  intros G H. rewrite lifespan_startup_run in H.
  set (w0 := add_logs [(INFO, "Starting up API...")] w) in H.
  assert (G0 : _predictor w0 = None) by exact G.
  rewrite get_predictor_run, G0 in H.
  destruct (CreditScorePredictor w0) as [[p|e] w1] eqn:C;
    [|discriminate H].
  injection H as <-.
  apply CreditScorePredictor_Ok_inv in C.
  destruct C as (m & ex & names & Hm & _ & _ & C).
  exists m. split; [exact Hm|].
  rewrite health_check_run, get_predictor_run. cbn [add_logs _predictor].
  destruct C as [[_ ->]|(d & _ & ->)]; reflexivity.
Qed.

(** Start-up with the stub bundle, and with a model file that holds the
    pickle of [None]. *)
Lemma startup_then_healthy_witness :
  fst (Api.health_check (snd (lifespan_startup Demo.start)))
  = Api.Response (Api.HealthResponse.mk "healthy" true Api.API_VERSION) /\
  fst (Api.health_check (snd (lifespan_startup Demo.no_object)))
  = Api.Response (Api.HealthResponse.mk "healthy" false Api.API_VERSION).
Proof.
  split.
  - assert (S : lifespan_startup Demo.start
                = (Ok tt, snd (lifespan_startup Demo.start)))
      by (vm_compute; reflexivity).
    destruct (@startup_then_healthy Demo.start _ eq_refl S)
      as (m & Hm & H).
    assert (E : m = Some Demo.stub_model)
      by (vm_compute in Hm; now injection Hm).
    rewrite E in H. now rewrite H.
  - assert (S : lifespan_startup Demo.no_object
                = (Ok tt, snd (lifespan_startup Demo.no_object)))
      by (vm_compute; reflexivity).
    destruct (@startup_then_healthy Demo.no_object _ eq_refl S)
      as (m & Hm & H).
    assert (E : m = None) by (vm_compute in Hm; now injection Hm).
    rewrite E in H. now rewrite H.
Defined.

(** X19.  The outcomes of [get_feature_importance].  On success the
    state is as it was.  On failure the exception is logged once, as an
    error of this method, and raised unchanged; it is the exception of
    the feature preparation, or the exception the explainer raised, or
    the [TypeError] of calling an explainer that is not there, or the
    [IndexError] of an explanation without a first row of values or
    without a first base value. *)
Theorem get_feature_importance_outcomes (self : predictor)
  (features : dict pyobj) (top_n : Z) (w : world) :
  match get_feature_importance self features top_n w with
  | (Ok r, w') => w' = w
  | (Raise e, w') =>
      w' = add_logs [(ERROR, "Error in get_feature_importance:")] w /\
      (fst (_prepare_features self features w) = Raise e \/
       exists X,
         _prepare_features self features w = (Ok X, w) /\
         match explainer self with
         | None => e = TypeError
         | Some ex =>
             ex X = Raise e \/
             exists shap,
               ex X = Ok shap /\ e = IndexError /\
               (values shap = [] \/ base_values shap = [])
         end)
  end.
Proof.
  unfold get_feature_importance, try_except. unfold bind at 1.
  destruct (pure_prepare_features self features) as [v Hv].
  rewrite !Hv. cbn [fst].
  destruct v as [X|e]; [|split; [reflexivity|now left]].
  unfold bind at 1.
  destruct (explainer self) as [ex|];
    [|split; [reflexivity|right; exists X; now split]].
  unfold lift. destruct (ex X) as [shap|e] eqn:Hshap;
    [|split; [reflexivity|right; exists X; split; [reflexivity|now left]]].
  unfold bind at 1. unfold getitem at 1.
  destruct (values shap) as [|row rows] eqn:Hrow.
  { split; [reflexivity|]. right. exists X. split; [reflexivity|].
    right. exists shap. tauto. }
  cbn [nth_error]. unfold ret at 1. unfold bind at 1. unfold getitem at 1.
  destruct (base_values shap) as [|base bases] eqn:Hbase.
  { split; [reflexivity|]. right. exists X. split; [reflexivity|].
    right. exists shap. tauto. }
  cbn [nth_error]. unfold ret at 1. unfold bind at 1.
  destruct (feature_names self) as [names|] eqn:Hn; [reflexivity|].
  exfalso. specialize (Hv w). rewrite prepare_features_run, Hn in Hv.
  discriminate Hv.
Qed.
